(** * data-scraper: the reconciliation and merge engine

    A shallow embedding of [data-scraper.py] and the properties of its
    specification.

    Python strings are Rocq strings whose characters are the code points
    below 256 (the extract files are decoded as latin1).  A pandas DataFrame
    is the ordered list of its column labels and the list of its rows, each
    row a finite map from column label to text; a label without an entry is
    NaN.  The run summary [summary_report] is threaded through the functions
    that change it.  An exception is a value of type [exn], and a function
    that can raise returns a [result].

    The library calls follow pandas 2 on numpy's legacy random state:
    [groupby(...).apply] hands the nested function the key column along with
    the others and builds the output from the rows it returns, rows whose key
    is NaN form no group, and [sample] takes the head of a seeded
    permutation.  The sort of [sort_values] is not stable, so the reconciler
    takes the sorting function as an argument, of which the theorems only
    assume that it permutes the rows.  Reading files is an argument too:
    [read_csv] maps a path to the frame read or to the exception raised,
    and [listdir] a directory to its listing.  Console and log-file output
    ([print], [log]) and the spreadsheet writer are not modelled: [main]
    starts from the parsed arguments and gives the exit status, the tables
    handed to the writer and the run summary. *)

From Stdlib Require Import String Ascii ZArith.
From stdpp Require Import gmap strings list sorting pretty.

(** ** Python exceptions *)

(** An exception: its class name and [str(e)]. *)
Inductive exn : Type := Exn (cls msg : string).

Definition exn_str (e : exn) : string := let 'Exn _ msg := e in msg.

Inductive result (A : Type) : Type :=
  | Ok (a : A)
  | Raise (e : exn).
Arguments Ok {A} a.
Arguments Raise {A} e.

(** ** Python string operations *)

Definition is_digit (c : ascii) : bool :=
  (48 <=? nat_of_ascii c)%nat && (nat_of_ascii c <=? 57)%nat.

(** [str.upper] and [str.lower] on the code points below 256.  The capital
    of a small letter is 32 below it, for the ASCII letters and for the
    accented ones (224 to 254 without the division sign 247); the capital of
    the sharp s (223) is the two letters SS.  The micro sign (181) and the y
    with diaeresis (255) have their capitals above 255: they are kept as
    they are, which changes no occurrence of an ASCII letter. *)
Definition upper_char (c : ascii) : string :=
  let n := nat_of_ascii c in
  if (97 <=? n)%nat && (n <=? 122)%nat then String (ascii_of_nat (n - 32)) EmptyString
  else if (n =? 223)%nat then "SS"
  else if (224 <=? n)%nat && (n <=? 254)%nat && negb (n =? 247)%nat
       then String (ascii_of_nat (n - 32)) EmptyString
       else String c EmptyString.

(** The small letter of a capital is 32 above it, for the ASCII letters and
    for the accented ones (192 to 222 without the multiplication sign
    215). *)
Definition lower_char (c : ascii) : ascii :=
  let n := nat_of_ascii c in
  if ((65 <=? n)%nat && (n <=? 90)%nat)
     || ((192 <=? n)%nat && (n <=? 222)%nat && negb (n =? 215)%nat)
  then ascii_of_nat (n + 32) else c.

Fixpoint upper (s : string) : string :=
  match s with
  | EmptyString => EmptyString
  | String c t => upper_char c +:+ upper t
  end.

Fixpoint lower (s : string) : string :=
  match s with
  | EmptyString => EmptyString
  | String c t => String (lower_char c) (lower t)
  end.

(** [s.startswith(p)]. *)
Fixpoint startswith (s p : string) {struct p} : bool :=
  match p, s with
  | EmptyString, _ => true
  | String c p', String d s' => Ascii.eqb c d && startswith s' p'
  | String _ _, EmptyString => false
  end.

(** [needle in hay]. *)
Fixpoint contains (needle hay : string) : bool :=
  startswith hay needle ||
  match hay with
  | EmptyString => false
  | String _ t => contains needle t
  end.

(** [s.endswith(suffix)]. *)
Definition endswith (s suffix : string) : bool :=
  let n := String.length s in
  let m := String.length suffix in
  (m <=? n)%nat && String.eqb (String.substring (n - m) m s) suffix.

(** [str.isspace] for one character below 256. *)
Definition is_space (c : ascii) : bool :=
  let n := nat_of_ascii c in
  ((9 <=? n)%nat && (n <=? 13)%nat) || ((28 <=? n)%nat && (n <=? 32)%nat)
  || (n =? 133)%nat || (n =? 160)%nat.

Fixpoint lstrip (s : string) : string :=
  match s with
  | EmptyString => EmptyString
  | String c t => if is_space c then lstrip t else s
  end.

(** [s.strip()]. *)
Definition strip (s : string) : string :=
  String.rev (lstrip (String.rev (lstrip s))).

(** [sep.join(l)]. *)
Fixpoint join (sep : string) (l : list string) : string :=
  match l with
  | [] => EmptyString
  | [s] => s
  | s :: t => s +:+ sep +:+ join sep t
  end.

(** [s.zfill(width)]: zeros go after a leading sign. *)
Definition zeros (n : nat) : string := string_of_list_ascii (replicate n "0"%char).

Definition zfill (width : nat) (s : string) : string :=
  let n := String.length s in
  if (width <=? n)%nat then s
  else match s with
       | String c t =>
           if Ascii.eqb c "+" || Ascii.eqb c "-"
           then String c (zeros (width - n) +:+ t)
           else zeros (width - n) +:+ s
       | EmptyString => zeros width
       end.

(** ** The file-set index *)

(** [bank_file_map]: a dict in insertion order, from bank identifier to the
    bank's filenames. *)
Definition FileSetIndex : Type := list (string * list string).

(** [d.get(k)] on a dict kept as an association list. *)
Fixpoint dict_get {V : Type} (k : string) (d : list (string * V)) : option V :=
  match d with
  | [] => None
  | (k', v) :: rest => if decide (k' = k) then Some v else dict_get k rest
  end.

(** [re.sub(r'\.B\d{4}\.', '.B####.', f)]: every leftmost, non-overlapping
    occurrence of a dot, a capital B, four digits and a dot is replaced. *)
Fixpoint mask_bank_code (f : string) : string :=
  match f with
  | EmptyString => EmptyString
  | String c rest =>
      match f with
      | String "."%char (String "B"%char (String d1 (String d2 (String d3
          (String d4 (String "."%char rest')))))) =>
          if is_digit d1 && is_digit d2 && is_digit d3 && is_digit d4
          then ".B####." +:+ mask_bank_code rest'
          else String c (mask_bank_code rest)
      | _ => String c (mask_bank_code rest)
      end
  end.

(** The set comprehension of [check_bank_file_consistency]. *)
Definition shape_keys (files : list string) : gset string :=
  list_to_set (mask_bank_code <$> files).

Definition inconsistency (bank_id reference_bank : string) : exn :=
  Exn "ValueError"
      ("Bank file inconsistency: " +:+ bank_id +:+ " ≠ " +:+ reference_bank).

(** The [for] loop of [check_bank_file_consistency]. *)
Fixpoint check_banks (reference_bank : string) (reference_files : gset string)
    (items : FileSetIndex) : result unit :=
  match items with
  | [] => Ok tt
  | (bank_id, files) :: rest =>
      let base_filenames := shape_keys files in
      if decide (base_filenames ≠ reference_files)
      then Raise (inconsistency bank_id reference_bank)
      else check_banks reference_bank reference_files rest
  end.

Definition check_bank_file_consistency (bank_file_map : FileSetIndex) : result unit :=
  match bank_file_map with
  | [] => Raise (Exn "StopIteration" EmptyString)
  | (reference_bank, _) :: _ =>
      let reference_files :=
        shape_keys (default [] (dict_get reference_bank bank_file_map)) in
      check_banks reference_bank reference_files bank_file_map
  end.

Definition list_bank_files_by_type (bank_file_map : FileSetIndex) (bank_id : string)
    (file_ext : string) (exclude_obs : bool) : list string :=
  let all_files := default [] (dict_get bank_id bank_file_map) in
  filter (λ f, endswith f file_ext && (negb exclude_obs || negb (contains "OBS" (upper f))))
         all_files.

(** ** DataFrames *)

(** A row maps a column label to its text; a label with no entry is NaN. *)
Record DataFrame : Type := mkDataFrame {
  columns : list string;
  rows : list (gmap string string)
}.

(** [pd.DataFrame()]. *)
Definition empty_frame : DataFrame := mkDataFrame [] [].

(** [len(df)]. *)
Definition len (df : DataFrame) : nat := length (rows df).

(** [df.empty]: some axis has length zero. *)
Definition df_empty (df : DataFrame) : bool :=
  bool_decide (columns df = []) || bool_decide (rows df = []).

(** [df[col] = v] for a scalar [v]: an existing column is overwritten, a new
    one is appended as the last column. *)
Definition set_column (col v : string) (df : DataFrame) : DataFrame :=
  mkDataFrame (if decide (col ∈ columns df) then columns df else columns df ++ [col])
              (insert col v <$> rows df).

(** [df[col] = series], the series computed row by row. *)
Definition set_column_with (col : string) (f : gmap string string → string)
    (df : DataFrame) : DataFrame :=
  mkDataFrame (if decide (col ∈ columns df) then columns df else columns df ++ [col])
              ((λ r, <[col := f r]> r) <$> rows df).

(** [df.drop(columns=[col], inplace=True)] for a label of [df]. *)
Definition drop_column (col : string) (df : DataFrame) : DataFrame :=
  mkDataFrame (filter (λ c, c ≠ col) (columns df)) (delete col <$> rows df).

(** [df[cols]] for a list of labels: a [KeyError] when one is not a column. *)
Definition select_columns (cols : list string) (df : DataFrame) : result DataFrame :=
  match list_find (λ c, c ∉ columns df) cols with
  | Some (_, c) => Raise (Exn "KeyError" ("['" +:+ c +:+ "'] not in index"))
  | None => Ok (mkDataFrame cols (filter (λ kv, kv.1 ∈ cols) <$> rows df))
  end.

(** [pd.concat([a, b], ignore_index=True)]: the union of the columns, those of
    [a] first, and the rows of [a] followed by those of [b]. *)
Definition concat (a b : DataFrame) : DataFrame :=
  mkDataFrame (columns a ++ filter (λ c, c ∉ columns a) (columns b))
              (rows a ++ rows b).

(** What [df.iloc[0, 2]] evaluates to. *)
Definition iloc_0_2 (df : DataFrame) : result (option string) :=
  match columns df !! 2%nat, rows df !! 0%nat with
  | Some c, Some r => Ok (r !! c)
  | None, _ =>
      Raise (Exn "IndexError" ("index 2 is out of bounds for axis 0 with size "
                               +:+ pretty (length (columns df))))
  | _, None => Raise (Exn "IndexError" "index 0 is out of bounds for axis 0 with size 0")
  end.

(** ** Sampling rows: [df.sample(n=..., random_state=42)]

    pandas draws the sample with [numpy.random.RandomState(42)]: the
    Mersenne Twister MT19937 seeded with the integer, and the first [n]
    entries of [permutation(len(df))], a Fisher-Yates shuffle whose index is
    drawn by masked rejection. *)
Module MT19937.

Local Open Scope Z_scope.

(** The 624 words of the key and the position of the next word. *)
Definition state : Type := list Z * nat.

Definition u32 (x : Z) : Z := Z.land x 0xffffffff.

Fixpoint init_key (n : nat) (pos seed : Z) : list Z :=
  match n with
  | O => []
  | S n' =>
      seed :: init_key n' (pos + 1)
                (u32 (1812433253 * Z.lxor seed (Z.shiftr seed 30) + pos + 1))
  end.

Definition mt19937_seed (seed : Z) : state := (init_key 624%nat 0 (u32 seed), 624%nat).

Definition mix (a b : Z) : Z :=
  let y := Z.lor (Z.land a 0x80000000) (Z.land b 0x7fffffff) in
  Z.lxor (Z.shiftr y 1) (if Z.odd y then 0x9908b0df else 0).

(** Regenerating the key in place: word [kk] is built from the old words
    [kk] and [kk + 1] and from word [kk + 397] modulo 624, which has
    already been replaced when [kk] is 227 or more. *)
Fixpoint mt19937_gen_go (n kk : nat) (old new : list Z) : list Z :=
  match n with
  | O => new
  | S n' =>
      let a := nth kk old 0 in
      let b := if decide (kk = 623)%nat then nth 0%nat new 0 else nth (kk + 1)%nat old 0 in
      let src := if decide (kk < 227)%nat then nth (kk + 397)%nat old 0
                 else nth (kk - 227)%nat new 0 in
      mt19937_gen_go n' (S kk) old (new ++ [Z.lxor src (mix a b)])
  end.

Definition mt19937_gen (key : list Z) : list Z := mt19937_gen_go 624%nat 0%nat key [].

Definition temper (y : Z) : Z :=
  let y := Z.lxor y (Z.shiftr y 11) in
  let y := Z.lxor y (Z.land (Z.shiftl y 7) 0x9d2c5680) in
  let y := Z.lxor y (Z.land (Z.shiftl y 15) 0xefc60000) in
  Z.lxor y (Z.shiftr y 18).

Definition mt19937_next (st : state) : Z * state :=
  let '(key, pos) := st in
  let '(key, pos) := if decide (624 ≤ pos)%nat then (mt19937_gen key, O) else (key, pos) in
  (temper (nth pos key 0), (key, S pos)).

(** [random_interval(max)]: a value in [0 .. max], the draws masked to the
    smallest all-ones mask that covers [max] and rejected while above it.
    The loop is cut after [fuel] draws. *)
Fixpoint random_interval_loop (fuel : nat) (mask max : Z) (st : state) : Z * state :=
  match fuel with
  | O => (0, st)
  | S fuel' =>
      let '(v, st') := mt19937_next st in
      let value := Z.land v mask in
      if decide (value ≤ max) then (value, st')
      else random_interval_loop fuel' mask max st'
  end.

Definition random_interval (max : Z) (st : state) : Z * state :=
  if decide (max = 0) then (0, st)
  else random_interval_loop 1000%nat (2 ^ (Z.log2 max + 1) - 1) max st.

(** [shuffle]: for [i] from [n - 1] down to 1, swap [x[i]] with [x[j]],
    [j] drawn in [0 .. i]. *)
Fixpoint shuffle_go (i : nat) (x : list nat) (st : state) : list nat :=
  match i with
  | O => x
  | S i' =>
      let '(j, st') := random_interval (Z.of_nat i) st in
      let j := Z.to_nat j in
      let xi := default O (x !! i) in
      let xj := default O (x !! j) in
      shuffle_go i' (<[j := xi]> (<[i := xj]> x)) st'
  end.

Definition permutation (seed : Z) (n : nat) : list nat :=
  shuffle_go (n - 1)%nat (seq 0%nat n) (mt19937_seed seed).

End MT19937.

(** [df.sample(n=n, random_state=seed)], as the list of sampled rows. *)
Definition df_sample {A : Type} (n : nat) (seed : Z) (l : list A) : list A :=
  omap (λ i, l !! i) (take n (MT19937.permutation seed (length l))).

(** ** The run summary *)

Record Stats : Type := mkStats {
  total_rows : nat;
  total_columns : nat;
  static_cols : list string;
  dynamic_cols : list string;
  multi_category : nat
}.

(** One entry of [summary_report]. *)
Record BankSummary : Type := mkBankSummary {
  merged : list string;
  errors : list string;
  report_columns : list string;
  missing : list string;
  stats : option Stats
}.

(** The factory of the [defaultdict]. *)
Definition new_summary : BankSummary := mkBankSummary [] [] [] [] None.

(** [summary_report[bank_id]], and an update of that entry. *)
Definition report_get (report : gmap string BankSummary) (bank_id : string) : BankSummary :=
  default new_summary (report !! bank_id).

Definition report_update (f : BankSummary → BankSummary) (bank_id : string)
    (report : gmap string BankSummary) : gmap string BankSummary :=
  <[bank_id := f (report_get report bank_id)]> report.

Definition add_merged (category_value : string) (s : BankSummary) : BankSummary :=
  mkBankSummary (merged s ++ [category_value]) (errors s) (report_columns s) (missing s) (stats s).

Definition add_missing (filename : string) (s : BankSummary) : BankSummary :=
  mkBankSummary (merged s) (errors s) (report_columns s) (missing s ++ [filename]) (stats s).

Definition add_error (filename : string) (s : BankSummary) : BankSummary :=
  mkBankSummary (merged s) (errors s ++ [filename]) (report_columns s) (missing s) (stats s).

(** ** CategoryMerger *)

Global Instance result_ret : MRet result := λ A a, Ok a.
Global Instance result_bind : MBind result := λ A B f r,
  match r with
  | Ok a => f a
  | Raise e => Raise e
  end.

(** [os.path.join(directory, filename)]. *)
Definition os_path_join (directory filename : string) : string :=
  if startswith filename "/" then filename
  else if bool_decide (directory = EmptyString) || endswith directory "/"
       then directory +:+ filename
       else directory +:+ "/" +:+ filename.

(** [df.columns[i]]. *)
Definition column_at (df : DataFrame) (i : nat) : result string :=
  match columns df !! i with
  | Some c => Ok c
  | None =>
      Raise (Exn "IndexError" ("index " +:+ pretty i +:+ " is out of bounds for axis 0 with size "
                               +:+ pretty (length (columns df))))
  end.

(** [for col in cols: if col not in df.columns: df[col] = "N"]. *)
Definition fill_missing_columns (cols : list string) (df : DataFrame) : DataFrame :=
  fold_left (λ d col, if decide (col ∉ columns d) then set_column col "N" d else d) cols df.

(** The body of the [try] for one file: the new merged table and the
    category label, or the exception raised.  [read] is what
    [pd.read_csv(file_path, sep=";", encoding="latin1", dtype=str)] gave.
    The source changes [merged_df] in place; no step after the first such
    change can raise ([combine_never_raises] below), so a raised exception
    always leaves the merged table as it was. *)
Definition merge_file (merged_df : DataFrame) (read : result DataFrame)
    : result (DataFrame * string) :=
  df ← read;
  if df_empty df
  then Raise (Exn "ValueError" "Bank does not have category types (no data)")
  else
    cell ← iloc_0_2 df;
    match cell with
    | None => Raise (Exn "AttributeError" "'float' object has no attribute 'strip'")
    | Some s =>
        let category_value := strip s in
        let df := set_column category_value "J" df in
        third ← column_at df 2;
        let df := drop_column third df in
        let df := fill_missing_columns (columns merged_df) df in
        let merged_df := fill_missing_columns (columns df) merged_df in
        df ← (if df_empty merged_df then Ok df else select_columns (columns merged_df) df);
        Ok (concat merged_df df, category_value)
    end.

(** The [except] clause: which exceptions count as a file without data. *)
Definition no_data_messages : list string :=
  ["no columns to parse"; "out of bounds"; "no data"].

Definition is_no_data (e : exn) : bool :=
  let error_text := lower (exn_str e) in
  existsb (λ msg, contains msg error_text) no_data_messages.

(** One iteration of the loop of [process_csv_files_for_bank]. *)
Definition process_file (read_csv : string → result DataFrame) (directory bank_id : string)
    (st : DataFrame * gmap string BankSummary) (filename : string)
    : DataFrame * gmap string BankSummary :=
  let file_path := os_path_join directory filename in
  match merge_file st.1 (read_csv file_path) with
  | Ok (merged_df, category_value) =>
      (merged_df, report_update (add_merged category_value) bank_id st.2)
  | Raise e =>
      if is_no_data e
      then (st.1, report_update (add_missing filename) bank_id st.2)
      else (st.1, report_update (add_error filename) bank_id st.2)
  end.

Definition process_csv_files_for_bank (read_csv : string → result DataFrame)
    (directory : string) (file_list : list string) (bank_id : string)
    (summary_report : gmap string BankSummary) : DataFrame * gmap string BankSummary :=
  fold_left (process_file read_csv directory bank_id) file_list (empty_frame, summary_report).

(** ** DuplicateReconciler *)

Definition flag_like (v : option string) : bool :=
  match v with
  | None => true
  | Some s => bool_decide (s ∈ ["J"; "N"; EmptyString])
  end.

Definition identify_dynamic_columns (df : DataFrame) (sample_size : nat) : list string :=
  let sample := if decide (len df ≤ sample_size) then rows df
                else df_sample sample_size 42 (rows df) in
  filter (λ col, forallb (λ r : gmap string string, flag_like (r !! col)) sample) (columns df).

(** The nested [merge_group]: [group] is the list of the group's rows. *)
Definition merge_group (dynamic_cols fixed_cols : list string)
    (group : list (gmap string string)) : gmap string string :=
  let base := default ∅ (head group) in
  let base :=
    fold_left (λ (b : gmap string string) col,
                 <[col := if existsb (λ r : gmap string string,
                                        bool_decide (r !! col = Some "J")) group
                          then "J" else "N"]> b)
              dynamic_cols base in
  fold_left (λ (b : gmap string string) col,
               match head (omap (λ r : gmap string string, r !! col) group) with
               | Some v => <[col := v]> b
               | None => b
               end)
            fixed_cols base.

(** The keys of [groupby(key_column)]: the distinct values that are not NaN,
    in sorted order. *)
Definition group_keys (key_column : string) (rs : list (gmap string string)) : list string :=
  merge_sort String.le (remove_dups (omap (λ r : gmap string string, r !! key_column) rs)).

Definition get_group (key_column k : string) (rs : list (gmap string string))
    : list (gmap string string) :=
  filter (λ r : gmap string string, r !! key_column = Some k) rs.

(** [sort_values] is [df.sort_values(by=key_column)] on the rows; numpy's
    default sort is not stable beyond 16 rows, so the order of rows with
    equal keys is left to the argument. *)
Definition merge_grouped_duplicates
    (sort_values : string → list (gmap string string) → list (gmap string string))
    (df : DataFrame) (key_column : string) : result DataFrame :=
  let dynamic_cols := identify_dynamic_columns df 100 in
  let fixed_cols := filter (λ col, col ∉ dynamic_cols) (columns df) in
  if decide (key_column ∈ columns df)
  then
    let df_sorted := sort_values key_column (rows df) in
    Ok (mkDataFrame (columns df)
          ((λ k, merge_group dynamic_cols fixed_cols (get_group key_column k df_sorted))
             <$> group_keys key_column df_sorted))
  else Raise (Exn "KeyError" ("'" +:+ key_column +:+ "'")).

(** A stable sort by key, NaN last: what numpy's sort does on up to 16 rows,
    where it is an insertion sort.  Rows with equal keys keep their order. *)
Definition key_le (key_column : string) (r1 r2 : gmap string string) : Prop :=
  match r1 !! key_column, r2 !! key_column with
  | Some a, Some b => String.le a b
  | _, None => True
  | None, Some _ => False
  end.

Global Instance key_le_dec key_column : RelDecision (key_le key_column).
Proof. intros r1 r2. unfold key_le. repeat case_match; apply _. Defined.

(** [r] goes before the first row that is not below it. *)
Fixpoint insert_row (key_column : string) (r : gmap string string)
    (sorted : list (gmap string string)) : list (gmap string string) :=
  match sorted with
  | [] => [r]
  | x :: rest =>
      if decide (key_le key_column r x) then r :: x :: rest
      else x :: insert_row key_column r rest
  end.

Definition stable_sort_values (key_column : string) (rs : list (gmap string string))
    : list (gmap string string) :=
  foldr (insert_row key_column) [] rs.

(** ** DatasetSummarizer *)

(** [df[col].dropna().isin(["J", "N"]).all()] on one value: NaN is dropped. *)
Definition is_flag_value (v : option string) : bool :=
  match v with
  | None => true
  | Some s => bool_decide (s ∈ ["J"; "N"])
  end.

Definition summary_dynamic_cols (df : DataFrame) : list string :=
  filter (λ col, forallb (λ r : gmap string string, is_flag_value (r !! col)) (rows df))
         (columns df).

Definition summary_static_cols (df : DataFrame) : list string :=
  filter (λ col, col ∉ summary_dynamic_cols df) (columns df).

(** The values of the column [Category_Count] that is appended to [df]. *)
Definition category_count (df : DataFrame) : list nat :=
  (λ r : gmap string string,
     length (filter (λ col, r !! col = Some "J") (summary_dynamic_cols df))) <$> rows df.

Definition set_stats (cols : list string) (st : Stats) (s : BankSummary) : BankSummary :=
  mkBankSummary (merged s) (errors s) cols (missing s) (Some st).

(** Returns the [Category_Count] column and the updated run summary. *)
Definition summarize_dataset (df : DataFrame) (bank_id : string)
    (summary_report : gmap string BankSummary) : list nat * gmap string BankSummary :=
  let total_rows := len df in
  let total_columns := length (columns df) in
  let dynamic_cols := summary_dynamic_cols df in
  let static_cols := summary_static_cols df in
  let counts := category_count df in
  let multi_category := length (filter (λ n, 1 < n) counts) in
  (counts,
   report_update
     (set_stats (dynamic_cols ++ static_cols)
        (mkStats total_rows total_columns static_cols dynamic_cols multi_category))
     bank_id summary_report).

(** ** Enricher *)

(** One row of the secondary lookup table, as [pd.read_excel(pac_file,
    dtype=str)] gives it: an empty cell is NaN. *)
Record PacRow : Type := mkPacRow {
  BANK_ID : option string;
  FORETAKSNR : option string;
  PERSONNR : option string;
  AVTALE_ID : option string;
  BRUKERTYPE : option string
}.

(** [astype(str)], and the formatting of a value in an f-string. *)
Definition astype_str (v : option string) : string := default "nan" v.

(** The four normalising assignments at the head of [enrich_with_pac_data]. *)
Definition normalize_pac (p : PacRow) : PacRow :=
  mkPacRow (Some (astype_str (BANK_ID p)))
           (Some (zfill 11 (astype_str (FORETAKSNR p))))
           (Some (astype_str (PERSONNR p)))
           (Some (astype_str (AVTALE_ID p)))
           (BRUKERTYPE p).

Definition avtale_string (group : list PacRow) : string :=
  join "|" (merge_sort String.le (remove_dups ((λ p, astype_str (AVTALE_ID p)) <$> group))).

Definition users_string (group : list PacRow) : string :=
  join "|" ((λ p, astype_str (PERSONNR p) +:+ ":" +:+ astype_str (BRUKERTYPE p)) <$> group).

(** The keys of [pac_subset.groupby("FORETAKSNR")]. *)
Definition foretak_keys (pac_subset : list PacRow) : list string :=
  merge_sort String.le (remove_dups (omap FORETAKSNR pac_subset)).

(** The dict filled by the loop over the groups, [f] computing the joined
    string of a group. *)
Definition pac_lookup (f : list PacRow → string) (pac_subset : list PacRow)
    : gmap string string :=
  list_to_map
    ((λ foretak, (foretak, f (filter (λ p, FORETAKSNR p = Some foretak) pac_subset)))
       <$> foretak_keys pac_subset).

(** [df["Kundenummer"].map(lookup).fillna(...)] on one row, the fill value
    being the empty string. *)
Definition map_lookup (lookup : gmap string string) (r : gmap string string) : string :=
  default EmptyString (r !! "Kundenummer" ≫= λ k, lookup !! k).

(** [pac_file] stands for the lookup table as [pd.read_excel] returned it,
    with its five columns: an exception of [read_excel], or the [KeyError]
    of a lookup table that lacks one of the columns, is raised before any of
    the steps below and is not part of this function. *)
Definition enrich_with_pac_data (df : DataFrame) (bank_id : string) (pac_file : list PacRow)
    : result DataFrame :=
  let pac_data := normalize_pac <$> pac_file in
  if decide (Some bank_id ∉ BANK_ID <$> pac_data)
  then Ok df
  else
    let pac_subset := filter (λ p, BANK_ID p = Some bank_id) pac_data in
    let avtale_lookup := pac_lookup avtale_string pac_subset in
    let users_lookup := pac_lookup users_string pac_subset in
    if decide ("Kundenummer" ∈ columns df)
    then
      let df := set_column_with "AVTALE_IDs" (map_lookup avtale_lookup) df in
      let df := set_column_with "Users_PERSONNR:BRUKERTYPE" (map_lookup users_lookup) df in
      Ok df
    else Raise (Exn "KeyError" "'Kundenummer'").

(** ** The two flows of a bank

    A flow returns the table written to the spreadsheet with its
    [Category_Count] column ([None] when the bank has no file of the flow's
    type), or the exception that [main] catches, and the run summary as the
    flow leaves it in either case. *)

Definition pm_files (bank_files : FileSetIndex) (bank_id : string) : list string :=
  list_bank_files_by_type bank_files bank_id ".CSV" true.

Definition bm_files (bank_files : FileSetIndex) (bank_id : string) : list string :=
  list_bank_files_by_type bank_files bank_id ".CSV.BM" true.

Definition run_pm_flow
    (sort_values : string → list (gmap string string) → list (gmap string string))
    (read_csv : string → result DataFrame)
    (bank_id base_dir : string) (bank_files : FileSetIndex)
    (summary_report : gmap string BankSummary)
    : result (option (DataFrame * list nat)) * gmap string BankSummary :=
  let files := pm_files bank_files bank_id in
  if decide (files = []) then (Ok None, summary_report)
  else
    let '(merged_df, report) :=
      process_csv_files_for_bank read_csv base_dir files bank_id summary_report in
    match merge_grouped_duplicates sort_values merged_df "Kundenummer" with
    | Raise e => (Raise e, report)
    | Ok merged_df =>
        let '(counts, report) := summarize_dataset merged_df bank_id report in
        (Ok (Some (merged_df, counts)), report)
    end.

Definition run_bm_flow
    (sort_values : string → list (gmap string string) → list (gmap string string))
    (read_csv : string → result DataFrame)
    (bank_id base_dir : string) (bank_files : FileSetIndex) (pac_file : list PacRow)
    (summary_report : gmap string BankSummary)
    : result (option (DataFrame * list nat)) * gmap string BankSummary :=
  let files := bm_files bank_files bank_id in
  if decide (files = []) then (Ok None, summary_report)
  else
    let '(merged_df, report) :=
      process_csv_files_for_bank read_csv base_dir files bank_id summary_report in
    match merge_grouped_duplicates sort_values merged_df "Kundenummer" with
    | Raise e => (Raise e, report)
    | Ok merged_df =>
        match enrich_with_pac_data merged_df bank_id pac_file with
        | Raise e => (Raise e, report)
        | Ok merged_df =>
            let '(counts, report) := summarize_dataset merged_df bank_id report in
            (Ok (Some (merged_df, counts)), report)
        end
    end.

(** ** Auxiliary definitions for the statements *)

(** What [pd.read_csv(..., dtype=str)] returns: a value that is not NaN
    stands under one of the frame's columns and is not the empty string (an
    empty field is read as NaN). *)
Definition csv_frame (df : DataFrame) : Prop :=
  ∀ (r : gmap string string) c v,
    r ∈ rows df → r !! c = Some v → c ∈ columns df ∧ v ≠ EmptyString.

(** A read that yields zero data rows: a frame without rows, or pandas'
    [EmptyDataError] for a file without a header line. *)
Definition yields_zero_rows (read : result DataFrame) : Prop :=
  (∃ df, read = Ok df ∧ rows df = [])
  ∨ read = Raise (Exn "EmptyDataError" "No columns to parse from file").

(** The filename holds the letters O, B, S next to each other, in either case. *)
Definition contains_obs (f : string) : Prop :=
  ∃ pre c1 c2 c3 post,
    f = pre +:+ String c1 (String c2 (String c3 post))
    ∧ (c1 = "o" ∨ c1 = "O")%char
    ∧ (c2 = "b" ∨ c2 = "B")%char
    ∧ (c3 = "s" ∨ c3 = "S")%char.

(** A bank code: four decimal digits. *)
Definition four_digits (code : string) : bool :=
  match code with
  | String d1 (String d2 (String d3 (String d4 EmptyString))) =>
      is_digit d1 && is_digit d2 && is_digit d3 && is_digit d4
  | _ => false
  end.

(** The string holds no dot. *)
Fixpoint no_dot (s : string) : bool :=
  match s with
  | EmptyString => true
  | String c t => negb (Ascii.eqb c ".") && no_dot t
  end.

(** A filename of the bank [code]: the first part of the stem, a dot, a
    capital B, the code, a dot, and the second part of the stem. *)
Definition coded_name (code : string) (stem : string * string) : string :=
  stem.1 +:+ ".B" +:+ code +:+ "." +:+ stem.2.

(** The first part of [merge_file], up to the dropped column: it does not
    look at the merged table. *)
Definition prepare (read : result DataFrame) : result (DataFrame * string) :=
  df ← read;
  if df_empty df
  then Raise (Exn "ValueError" "Bank does not have category types (no data)")
  else
    cell ← iloc_0_2 df;
    match cell with
    | None => Raise (Exn "AttributeError" "'float' object has no attribute 'strip'")
    | Some s =>
        let category_value := strip s in
        let df := set_column category_value "J" df in
        third ← column_at df 2;
        Ok (drop_column third df, category_value)
    end.

(** The second part of [merge_file]: the column reconciliation and the
    concatenation. *)
Definition combine (merged_df df : DataFrame) : result DataFrame :=
  let df := fill_missing_columns (columns merged_df) df in
  let merged_df := fill_missing_columns (columns df) merged_df in
  df ← (if df_empty merged_df then Ok df else select_columns (columns merged_df) df);
  Ok (concat merged_df df).

(** A row after the columns [cols] it lacks were filled with N; [own] are
    the columns of the row's frame. *)
Definition pad (cols own : list string) (r : gmap string string) : gmap string string :=
  fold_left (λ (m : gmap string string) c, if decide (c ∈ own) then m else <[c := "N"]> m)
            cols r.

(** The value of column [col] in the first row of [df] whose key is [k]. *)
Definition value_at (key_column k col : string) (df : DataFrame) : option (option string) :=
  (λ r : gmap string string, r !! col) <$> head (get_group key_column k (rows df)).

(** The flag that a group of rows gives column [col]. *)
Definition group_flag (col : string) (group : list (gmap string string)) : string :=
  if existsb (λ r : gmap string string, bool_decide (r !! col = Some "J")) group
  then "J" else "N".

(** Every value of a row stands under one of the frame's columns. *)
Definition closed (df : DataFrame) : Prop :=
  ∀ (r : gmap string string) c, r ∈ rows df → is_Some (r !! c) → c ∈ columns df.

(** No cell holds the empty string. *)
Definition no_empty_cells (df : DataFrame) : Prop :=
  ∀ (r : gmap string string) c, r ∈ rows df → r !! c ≠ Some EmptyString.

(** The run summary [r'] is [r] with [filename] recorded as missing for the
    bank at some place, the lists of merged labels and of failed files
    being the same. *)
Definition skipped_in (filename bank_id : string) (r r' : gmap string BankSummary) : Prop :=
  merged (report_get r' bank_id) = merged (report_get r bank_id)
  ∧ errors (report_get r' bank_id) = errors (report_get r bank_id)
  ∧ ∃ l1 l2, missing (report_get r bank_id) = l1 ++ l2
             ∧ missing (report_get r' bank_id) = l1 ++ filename :: l2.

(** The classification of the key column is sound: when the reconciler
    takes it for a dynamic column, its values are J, N or NaN in every row,
    sampled or not. *)
Definition key_column_sound (df : DataFrame) (key_column : string) : Prop :=
  key_column ∈ identify_dynamic_columns df 100 →
  ∀ r : gmap string string,
    r ∈ rows df →
    r !! key_column = None ∨ r !! key_column = Some "J" ∨ r !! key_column = Some "N".

(** The merged table after one step, from the table before and the
    prepared file. *)
Definition table_after (merged_df : DataFrame) (p : result (DataFrame * string)) : DataFrame :=
  match p with
  | Ok (df, _) =>
      match combine merged_df df with
      | Ok m => m
      | Raise _ => merged_df
      end
  | Raise _ => merged_df
  end.

(** A bank whose set of masked filenames is the reference's. *)
Definition consistent_with (reference_files : gset string) (bf : string * list string) : Prop :=
  shape_keys bf.2 = reference_files.

(** The first value of column [col] that is not NaN, in the order of the
    group's rows. *)
Definition first_value (group : list (gmap string string)) (col : string) : option string :=
  head (omap (λ r : gmap string string, r !! col) group).

(** The output row of the group of key [k]. *)
Definition merged_row
    (sort_values : string → list (gmap string string) → list (gmap string string))
    (df : DataFrame) (key_column k : string) : gmap string string :=
  merge_group (identify_dynamic_columns df 100)
    (filter (λ col, col ∉ identify_dynamic_columns df 100) (columns df))
    (get_group key_column k (sort_values key_column (rows df))).

(** ** Concrete inputs *)

Definition row_of (cells : list (string * string)) : gmap string string := list_to_map cells.

(** A file of 101 customers of which only the one at position 51 has a
    customer number. *)
Definition unnumbered : gmap string string := row_of [("Navn", "Ola"); ("Kategori", "RETAIL")].

Definition sparse_keys_file : DataFrame :=
  mkDataFrame ["Kundenummer"; "Navn"; "Kategori"]
    (replicate 51 unnumbered
     ++ row_of [("Kundenummer", "123"); ("Navn", "Kari"); ("Kategori", "RETAIL")]
        :: replicate 49 unnumbered).

(** A file whose category label is the header of its third column, and a
    file with two columns. *)
Definition header_collision_file : DataFrame :=
  mkDataFrame ["Kundenummer"; "Navn"; "RETAIL"]
    [row_of [("Kundenummer", "001"); ("Navn", "Ola"); ("RETAIL", "RETAIL")]].

Definition two_column_file : DataFrame :=
  mkDataFrame ["Kundenummer"; "Navn"]
    [row_of [("Kundenummer", "001"); ("Navn", "Ola")]].

(** Two files of one bank: the category label of the first is the name of a
    data column of the second. *)
Definition status_file : DataFrame :=
  mkDataFrame ["Kundenummer"; "Navn"; "Kategori"]
    [row_of [("Kundenummer", "001"); ("Navn", "Ola"); ("Kategori", "Status")]].

Definition savings_file : DataFrame :=
  mkDataFrame ["Kundenummer"; "Status"; "Kategori"]
    [row_of [("Kundenummer", "001"); ("Status", "aktiv"); ("Kategori", "SAVINGS")]].

(** The two files of the specification's first scenario. *)
Definition retail_file : DataFrame :=
  mkDataFrame ["Kundenummer"; "Navn"; "Kategori"]
    [row_of [("Kundenummer", "001"); ("Navn", "Ola"); ("Kategori", "RETAIL")]].

Definition savings_scenario_file : DataFrame :=
  mkDataFrame ["Kundenummer"; "Navn"; "Kategori"]
    [row_of [("Kundenummer", "001"); ("Navn", "Ola"); ("Kategori", "SAVINGS")];
     row_of [("Kundenummer", "002"); ("Navn", "Kari"); ("Kategori", "SAVINGS")]].

(** A file with a header line and no data row. *)
Definition header_only_file : DataFrame :=
  mkDataFrame ["Kundenummer"; "Navn"; "Kategori"] [].

(** A directory: what [read_csv] gives for each path. *)
Definition sample_dir (path : string) : result DataFrame :=
  if decide (path = "in/SPARSE.CSV") then Ok sparse_keys_file
  else if decide (path = "in/HEADER.CSV") then Ok header_collision_file
  else if decide (path = "in/TWO.CSV") then Ok two_column_file
  else if decide (path = "in/STATUS.CSV") then Ok status_file
  else if decide (path = "in/SAVINGS.CSV") then Ok savings_file
  else if decide (path = "in/X.B1234.A.CSV") then Ok retail_file
  else if decide (path = "in/X.B1234.B.CSV") then Ok savings_scenario_file
  else if decide (path = "in/EMPTY.CSV") then Ok header_only_file
  else Raise (Exn "FileNotFoundError" "No such file or directory").

(** The merged table of the specification's first scenario. *)
Definition scenario_table : DataFrame :=
  (process_csv_files_for_bank sample_dir "in" ["X.B1234.A.CSV"; "X.B1234.B.CSV"] "1234" ∅).1.

(** A lookup table with one organization of bank 1234. *)
Definition sample_pac : list PacRow :=
  [mkPacRow (Some "1234") (Some "123") (Some "01019012345") (Some "A7") (Some "ADMIN")].

(** A reconciled table with one matched and one unmatched customer. *)
Definition sample_customers : DataFrame :=
  mkDataFrame ["Kundenummer"; "RETAIL"]
    [row_of [("Kundenummer", "00000000123"); ("RETAIL", "J")];
     row_of [("Kundenummer", "777"); ("RETAIL", "J")]].

(** ** FileSetIndexer *)

(** [pattern.search(fname)] for [\.B(\d{4})\.]: the four digits of the
    leftmost match, [None] when the name has no match. *)
Fixpoint find_bank_id (fname : string) : option string :=
  match fname with
  | EmptyString => None
  | String _ rest =>
      match fname with
      | String "."%char (String "B"%char (String d1 (String d2 (String d3
          (String d4 (String "."%char _)))))) =>
          if is_digit d1 && is_digit d2 && is_digit d3 && is_digit d4
          then Some (String d1 (String d2 (String d3 (String d4 EmptyString))))
          else find_bank_id rest
      | _ => find_bank_id rest
      end
  end.

(** [bank_file_map[bank_id].append(fname)] on the [defaultdict(list)]: a new
    key goes to the end of the dict. *)
Fixpoint dict_append (bank_id fname : string) (d : FileSetIndex) : FileSetIndex :=
  match d with
  | [] => [(bank_id, [fname])]
  | (k, files) :: rest =>
      if decide (k = bank_id) then (k, files ++ [fname]) :: rest
      else (k, files) :: dict_append bank_id fname rest
  end.

(** [listing] is what [os.listdir(directory)] returned. *)
Definition scan_bank_files (listing : list string) : FileSetIndex :=
  fold_left (λ bank_file_map fname,
               match find_bank_id fname with
               | Some bank_id => dict_append bank_id fname bank_file_map
               | None => bank_file_map
               end)
            listing [].

(** The pattern [\.B(\d{4})\.] at the head of a string: the digits and what
    follows the match. *)
Definition bank_pattern (f : string) : option (string * string) :=
  match f with
  | String "."%char (String "B"%char (String d1 (String d2 (String d3
      (String d4 (String "."%char rest')))))) =>
      if is_digit d1 && is_digit d2 && is_digit d3 && is_digit d4
      then Some (String d1 (String d2 (String d3 (String d4 EmptyString))), rest')
      else None
  | _ => None
  end.

(** The files of bank [bank_id] in a directory listing, in listing order. *)
Definition files_of_bank (bank_id : string) (listing : list string) : list string :=
  filter (λ f, find_bank_id f = Some bank_id) listing.

(** The last character of a string. *)
Fixpoint last_char (s : string) : option ascii :=
  match s with
  | EmptyString => None
  | String c EmptyString => Some c
  | String _ t => last_char t
  end.

(** The pattern [\.B(\d{4})\.] at the head of a string: [yes] on the digits
    and on what follows the match, [no] when the head does not match. *)
Definition on_bank_pattern {A : Type} (yes : string → string → A) (no : A) (f : string) : A :=
  match f with
  | String "."%char (String "B"%char (String d1 (String d2 (String d3
      (String d4 (String "."%char rest')))))) =>
      if is_digit d1 && is_digit d2 && is_digit d3 && is_digit d4
      then yes (String d1 (String d2 (String d3 (String d4 EmptyString)))) rest'
      else no
  | _ => no
  end.

(** The outcome of a file taken on its own: the category label under which
    it is merged, or the exception that the [except] clause classifies. *)
Definition file_outcome (read : result DataFrame) : result string :=
  match merge_file empty_frame read with
  | Ok (_, category_value) => Ok category_value
  | Raise e => Raise e
  end.

Definition merged_label (read : result DataFrame) : option string :=
  match file_outcome read with
  | Ok category_value => Some category_value
  | Raise _ => None
  end.

Definition is_missing_file (read : result DataFrame) : bool :=
  match file_outcome read with
  | Ok _ => false
  | Raise e => is_no_data e
  end.

Definition is_error_file (read : result DataFrame) : bool :=
  match file_outcome read with
  | Ok _ => false
  | Raise e => negb (is_no_data e)
  end.

(** The number of rows that a file adds to the merged table. *)
Definition rows_merged (read : result DataFrame) : nat :=
  match read, file_outcome read with
  | Ok df, Ok _ => len df
  | _, _ => 0
  end.

(** A file whose first data row has no value in the third column. *)
Definition nan_label_file : DataFrame :=
  mkDataFrame ["Kundenummer"; "Navn"; "Kategori"]
    [row_of [("Kundenummer", "001"); ("Navn", "Ola")]].

(** The rows of the lookup file for bank [bank_id] and the organization
    whose zero-padded number is [k], in the order of the file. *)
Definition pac_group (bank_id k : string) (pac_file : list PacRow) : list PacRow :=
  filter (λ p, astype_str (BANK_ID p) = bank_id ∧ zfill 11 (astype_str (FORETAKSNR p)) = k)
         pac_file.

(** ** The orchestrator *)

Inductive flow : Type := PM | BM.

(** What a run leaves behind: the exit status of the process, the tables
    handed to [to_excel] with their bank and flow, in the order written, and
    the run summary.  Writing the spreadsheets and the log is taken to
    succeed. *)
Record Run : Type := mkRun {
  exit_code : nat;
  written : list (string * flow * (DataFrame * list nat));
  final_report : gmap string BankSummary
}.

(** [not (only_bank and bank_id != only_bank)]: an absent or empty option
    selects every bank. *)
Definition selected (only_bank : option string) (bank_id : string) : bool :=
  match only_bank with
  | Some b => bool_decide (b = EmptyString) || bool_decide (bank_id = b)
  | None => true
  end.

(** One [try] of the loop of [main]: the flow is run unless it is skipped,
    and an exception of the flow is logged and swallowed. *)
Definition try_flow (skip : bool) (bank_id : string) (fl : flow)
    (run : gmap string BankSummary
           → result (option (DataFrame * list nat)) * gmap string BankSummary)
    (st : list (string * flow * (DataFrame * list nat)) * gmap string BankSummary)
    : list (string * flow * (DataFrame * list nat)) * gmap string BankSummary :=
  if skip then st
  else match run st.2 with
       | (Ok (Some table), report) => (st.1 ++ [(bank_id, fl, table)], report)
       | (Ok None, report) => (st.1, report)
       | (Raise _, report) => (st.1, report)
       end.

(** The body of the loop over the banks. *)
Definition main_bank
    (sort_values : string → list (gmap string string) → list (gmap string string))
    (read_csv : string → result DataFrame) (pac_file : list PacRow)
    (base_dir : string) (only_bank : option string) (skip_pm skip_bm : bool)
    (bank_files : FileSetIndex)
    (st : list (string * flow * (DataFrame * list nat)) * gmap string BankSummary)
    (bank_id : string)
    : list (string * flow * (DataFrame * list nat)) * gmap string BankSummary :=
  if selected only_bank bank_id
  then
    let st := try_flow skip_pm bank_id PM
                (run_pm_flow sort_values read_csv bank_id base_dir bank_files) st in
    try_flow skip_bm bank_id BM
      (run_bm_flow sort_values read_csv bank_id base_dir bank_files pac_file) st
  else st.

(** [main] after the arguments are parsed; [listdir] is [os.listdir], and
    the run summary starts empty.  An exception of the scan or of the
    consistency check ends the run with exit status 1. *)
Definition main
    (sort_values : string → list (gmap string string) → list (gmap string string))
    (listdir : string → result (list string))
    (read_csv : string → result DataFrame) (pac_file : list PacRow)
    (base_dir : string) (only_bank : option string) (skip_pm skip_bm : bool) : Run :=
  match listdir base_dir with
  | Raise _ => mkRun 1 [] ∅
  | Ok listing =>
      let bank_files := scan_bank_files listing in
      match check_bank_file_consistency bank_files with
      | Raise _ => mkRun 1 [] ∅
      | Ok _ =>
          let st :=
            fold_left (main_bank sort_values read_csv pac_file base_dir only_bank
                         skip_pm skip_bm bank_files)
                      (merge_sort String.le bank_files.*1) ([], ∅) in
          mkRun 0 st.1 st.2
      end
  end.

(** The bank and flow of the tables written by a run. *)
Definition written_tags (w : list (string * flow * (DataFrame * list nat)))
    : list (string * flow) :=
  (λ x, x.1) <$> w.

(** A directory with the two files of bank 1234 of the first scenario. *)
Definition sample_listdir (directory : string) : result (list string) :=
  if decide (directory = "in") then Ok ["X.B1234.A.CSV"; "X.B1234.B.CSV"; "README.txt"]
  else Raise (Exn "FileNotFoundError" "No such file or directory").

(** The flows that the loop of [main] runs for a bank, in order. *)
Definition flows_to_run (only_bank : option string) (skip_pm skip_bm : bool)
    (bank_id : string) : list (string * flow) :=
  if selected only_bank bank_id
  then (if skip_pm then [] else [(bank_id, PM)]) ++ (if skip_bm then [] else [(bank_id, BM)])
  else [].

(** The PM flow of the first scenario, and the table it writes. *)
Definition scenario_run
    : result (option (DataFrame * list nat)) * gmap string BankSummary :=
  run_pm_flow stable_sort_values sample_dir "1234" "in"
    [("1234", ["X.B1234.A.CSV"; "X.B1234.B.CSV"])] ∅.

Definition scenario_written : DataFrame * list nat :=
  match scenario_run.1 with
  | Ok (Some table) => table
  | _ => (empty_frame, [])
  end.

(** * Properties *)

(** ** The sampler agrees with numpy on its published values *)

Example mt19937_first_word :
  fst (MT19937.mt19937_next (MT19937.mt19937_seed 42)) = 1608637542%Z.
Proof. vm_compute. reflexivity. Qed.

Example permutation_seed_42 :
  MT19937.permutation 42 10 = [8; 1; 5; 0; 7; 2; 9; 4; 3; 6].
Proof. vm_compute. reflexivity. Qed.

(** ** ConsistencyChecker *)

Example mask_bank_code_ex :
  mask_bank_code "X.B1234.A.CSV" = "X.B####.A.CSV"
  ∧ mask_bank_code "X.B12E4.A.CSV" = "X.B12E4.A.CSV"
  ∧ mask_bank_code "a.B0001.B0002.c" = "a.B####.B0002.c".
Proof. repeat split; reflexivity. Qed.

Lemma find_bank_id_on_pattern c rest :
  find_bank_id (String c rest)
  = on_bank_pattern (λ bank_id _, Some bank_id) (find_bank_id rest) (String c rest).
Proof. reflexivity. Qed.

Lemma mask_bank_code_on_pattern c rest :
  mask_bank_code (String c rest)
  = on_bank_pattern (λ _ rest', ".B####." +:+ mask_bank_code rest')
                    (String c (mask_bank_code rest)) (String c rest).
Proof. reflexivity. Qed.

Ltac split_char c lit :=
  let Hne := fresh "Hne" in
  destruct (ascii_dec c lit) as [->|Hne];
  [|destruct c as [[] [] [] [] [] [] [] []];
    first [ exfalso; apply Hne; reflexivity | reflexivity | discriminate ]].

Lemma on_bank_pattern_eq {A} (yes : string → string → A) no f :
  on_bank_pattern yes no f
  = match bank_pattern f with Some (bank_id, rest') => yes bank_id rest' | None => no end.
Proof.
  destruct f as [|c rest]; [reflexivity|].
  split_char c "."%char.
  destruct rest as [|c2 rest]; [reflexivity|]. split_char c2 "B"%char.
  destruct rest as [|d1 [|d2 [|d3 [|d4 [|c7 rest]]]]]; [reflexivity..|].
  split_char c7 "."%char.
  unfold bank_pattern, on_bank_pattern.
  destruct (is_digit d1 && is_digit d2 && is_digit d3 && is_digit d4); reflexivity.
Qed.

Lemma find_bank_id_unfold c rest :
  find_bank_id (String c rest)
  = match bank_pattern (String c rest) with
    | Some (bank_id, _) => Some bank_id
    | None => find_bank_id rest
    end.
Proof. etrans; [apply find_bank_id_on_pattern | apply on_bank_pattern_eq]. Qed.

Lemma mask_bank_code_unfold c rest :
  mask_bank_code (String c rest)
  = match bank_pattern (String c rest) with
    | Some (_, rest') => ".B####." +:+ mask_bank_code rest'
    | None => String c (mask_bank_code rest)
    end.
Proof. etrans; [apply mask_bank_code_on_pattern | apply on_bank_pattern_eq]. Qed.

Lemma bank_pattern_Some f bank_id rest' :
  bank_pattern f = Some (bank_id, rest') →
  ∃ d1 d2 d3 d4,
    bank_id = String d1 (String d2 (String d3 (String d4 EmptyString)))
    ∧ f = ".B" +:+ bank_id +:+ String "." rest'
    ∧ is_digit d1 = true ∧ is_digit d2 = true ∧ is_digit d3 = true ∧ is_digit d4 = true.
Proof.
  destruct f as [|c rest]; [discriminate|].
  split_char c "."%char.
  destruct rest as [|c2 rest]; [discriminate|]. split_char c2 "B"%char.
  destruct rest as [|d1 [|d2 [|d3 [|d4 [|c7 rest]]]]]; [discriminate..|].
  split_char c7 "."%char.
  unfold bank_pattern.
  destruct (is_digit d1) eqn:H1; [|discriminate].
  destruct (is_digit d2) eqn:H2; [|discriminate].
  destruct (is_digit d3) eqn:H3; [|discriminate].
  destruct (is_digit d4) eqn:H4; [|discriminate].
  cbn [andb]. intros [= <- <-]. exists d1, d2, d3, d4.
  split; [reflexivity|]. split; [reflexivity|]. auto.
Qed.

Section Consistency.
Variable reference_bank : string.
Variable reference_files : gset string.

Lemma check_banks_ok items :
  check_banks reference_bank reference_files items = Ok tt
  ↔ Forall (consistent_with reference_files) items.
Proof.
  induction items as [|[bank_id files] rest IH]; simpl.
  - split; [intros _; constructor | done].
  - case_decide as Hne.
    + split; [done |]. inversion 1 as [|? ? Hc]. by destruct Hne.
    + rewrite IH. split.
      * intros Hrest. constructor; [| done]. unfold consistent_with; simpl.
        by destruct (decide (shape_keys files = reference_files)).
      * by inversion 1.
Qed.

Lemma check_banks_first_mismatch pre bank_id files post :
  Forall (consistent_with reference_files) pre →
  shape_keys files ≠ reference_files →
  check_banks reference_bank reference_files (pre ++ (bank_id, files) :: post)
  = Raise (inconsistency bank_id reference_bank).
Proof.
  intros Hpre Hbad. induction Hpre as [|[b fs] pre Hc Hpre IH]; simpl.
  - by rewrite decide_True.
  - rewrite decide_False; [done |]. intros Hne. by apply Hne.
Qed.
End Consistency.

Lemma mask_coded_head code rest' :
  four_digits code = true →
  mask_bank_code (".B" +:+ code +:+ "." +:+ rest') = ".B####." +:+ mask_bank_code rest'.
Proof.
  destruct code as [|d1 [|d2 [|d3 [|d4 [|d5 code]]]]]; try discriminate.
  cbn [four_digits]. intros Hd.
  change (".B" +:+ String d1 (String d2 (String d3 (String d4 EmptyString))) +:+ "." +:+ rest')
    with (String "." (String "B" (String d1 (String d2 (String d3 (String d4
            (String "." rest'))))))).
  rewrite mask_bank_code_unfold. unfold bank_pattern. by rewrite Hd.
Qed.

Lemma mask_other_head c rest :
  (∀ code rest', four_digits code = true → String c rest ≠ ".B" +:+ code +:+ "." +:+ rest') →
  mask_bank_code (String c rest) = String c (mask_bank_code rest).
Proof.
  intros Hno. rewrite mask_bank_code_unfold.
  destruct (bank_pattern (String c rest)) as [[code rest']|] eqn:Hp; [| done].
  apply bank_pattern_Some in Hp as (d1 & d2 & d3 & d4 & -> & Hf & H1 & H2 & H3 & H4).
  destruct (Hno (String d1 (String d2 (String d3 (String d4 EmptyString)))) rest').
  - cbn [four_digits]. by rewrite H1, H2, H3, H4.
  - exact Hf.
Qed.

Lemma mask_coded_name code (stem : string * string) :
  four_digits code = true →
  no_dot stem.1 = true →
  mask_bank_code (coded_name code stem) = stem.1 +:+ ".B####." +:+ mask_bank_code stem.2.
Proof.
  intros Hcode. destruct stem as [pre post]. unfold coded_name. cbn [fst snd].
  induction pre as [|c pre IH]; intros Hdot.
  - by apply mask_coded_head.
  - cbn [no_dot] in Hdot. apply andb_prop in Hdot as [Hc Hdot].
    change (String c pre +:+ ?x) with (String c (pre +:+ x)).
    rewrite mask_other_head; [by rewrite IH |].
    intros code' rest' _ [= -> _]. discriminate Hc.
Qed.

(** Claim C5.  On an index with at least one bank, the first bank being the
    reference: the check succeeds exactly when every bank's set of masked
    filenames equals the reference's; it succeeds when the reference is the
    only bank; and when a bank differs while all banks before it agree, the
    check raises the error that names this bank and the reference, whatever
    banks come after it.  The masked filename is the filename in which every
    dot, capital B, four digits and dot, found from the left, is replaced by
    [.B####.] and every other character is kept: a bank whose filenames are
    those of the reference up to the bank code is consistent with it, and a
    bank with a filename whose masked form no filename of the reference has
    is reported. *)
Theorem check_bank_file_consistency_spec
    (reference_bank : string) (reference_list : list string) (rest : FileSetIndex) :
  let bank_file_map := (reference_bank, reference_list) :: rest in
  let consistent := consistent_with (shape_keys reference_list) in
  (check_bank_file_consistency bank_file_map = Ok tt ↔ Forall consistent bank_file_map)
  ∧ (rest = [] → check_bank_file_consistency bank_file_map = Ok tt)
  ∧ (∀ pre bank_id files post,
       bank_file_map = pre ++ (bank_id, files) :: post →
       Forall consistent pre →
       shape_keys files ≠ shape_keys reference_list →
       check_bank_file_consistency bank_file_map
       = Raise (Exn "ValueError"
                  ("Bank file inconsistency: " +:+ bank_id +:+ " ≠ " +:+ reference_bank)))
  ∧ (∀ files f, f ∈ shape_keys files ↔ ∃ g, g ∈ files ∧ f = mask_bank_code g)
  ∧ (∀ code rest',
       four_digits code = true →
       mask_bank_code (".B" +:+ code +:+ "." +:+ rest') = ".B####." +:+ mask_bank_code rest')
  ∧ (∀ c tail,
       (∀ code rest', four_digits code = true →
                      String c tail ≠ ".B" +:+ code +:+ "." +:+ rest') →
       mask_bank_code (String c tail) = String c (mask_bank_code tail))
  ∧ (∀ stems code code' bank_id,
       four_digits code = true → four_digits code' = true →
       (∀ stem, stem ∈ stems → no_dot stem.1 = true) →
       reference_list = coded_name code <$> stems →
       rest = [(bank_id, coded_name code' <$> stems)] →
       check_bank_file_consistency bank_file_map = Ok tt)
  ∧ (∀ bank_id files post f,
       rest = (bank_id, files) :: post →
       f ∈ files →
       (∀ g, g ∈ reference_list → mask_bank_code g ≠ mask_bank_code f) →
       check_bank_file_consistency bank_file_map
       = Raise (Exn "ValueError"
                  ("Bank file inconsistency: " +:+ bank_id +:+ " ≠ " +:+ reference_bank))).
Proof.
  intros bank_file_map consistent.
  assert (Hcheck : check_bank_file_consistency bank_file_map
                   = check_banks reference_bank (shape_keys reference_list) bank_file_map).
  { unfold bank_file_map, check_bank_file_consistency, dict_get.
    destruct (decide (reference_bank = reference_bank)); [done | congruence]. }
  assert (Hshape : ∀ files f, f ∈ shape_keys files ↔ ∃ g, g ∈ files ∧ f = mask_bank_code g).
  { intros files f. unfold shape_keys. rewrite elem_of_list_to_set, list_elem_of_fmap.
    split; intros (g & H1 & H2); exists g; done. }
  rewrite Hcheck. split; [| split; [| split; [| split; [| split; [| split; [| split]]]]]].
  - apply check_banks_ok.
  - intros ->. apply check_banks_ok. constructor; [done | constructor].
  - intros pre bank_id files post -> Hpre Hbad.
    by apply check_banks_first_mismatch.
  - exact Hshape.
  - apply mask_coded_head.
  - apply mask_other_head.
  - intros stems code code' bank_id Hcode Hcode' Hdot Href Hrest.
    apply check_banks_ok. unfold bank_file_map. rewrite Hrest.
    constructor; [done |]. constructor; [| constructor].
    unfold consistent_with, shape_keys. cbn [snd]. rewrite Href. f_equal.
    rewrite <- !list_fmap_compose. apply list_fmap_ext. intros i stem Hi. unfold compose.
    assert (Hstem : no_dot stem.1 = true) by (eapply Hdot, list_elem_of_lookup_2, Hi).
    by rewrite !mask_coded_name.
  - intros bank_id files post f Hrest Hf Hnone. unfold bank_file_map. rewrite Hrest.
    apply (check_banks_first_mismatch reference_bank (shape_keys reference_list)
             [(reference_bank, reference_list)] bank_id files post).
    + constructor; [done | constructor].
    + intros Heq.
      assert (Hin : mask_bank_code f ∈ shape_keys reference_list).
      { rewrite <- Heq. apply Hshape. by exists f. }
      apply Hshape in Hin as (g & Hg & Hm). by apply (Hnone g).
Qed.

Lemma check_bank_file_consistency_spec_witness :
  check_bank_file_consistency
    [("1234", ["X.B1234.A.CSV"; "Y.B1234.B.CSV"]);
     ("5678", ["X.B5678.A.CSV"; "Y.B5678.B.CSV"])]
  = Ok tt
  ∧ check_bank_file_consistency
      [("1234", ["X.B1234.A.CSV"]); ("5678", ["X.B5678.Z.CSV"]); ("9999", ["Y.B9999.A.CSV"])]
    = Raise (Exn "ValueError" "Bank file inconsistency: 5678 ≠ 1234").
Proof.
  split.
  - destruct (check_bank_file_consistency_spec
                "1234" ["X.B1234.A.CSV"; "Y.B1234.B.CSV"]
                [("5678", ["X.B5678.A.CSV"; "Y.B5678.B.CSV"])])
      as (_ & _ & _ & _ & _ & _ & Hsame & _).
    apply (Hsame [("X", "A.CSV"); ("Y", "B.CSV")] "1234" "5678" "5678"); try reflexivity.
    intros stem Hstem. apply elem_of_cons in Hstem as [-> | Hstem]; [reflexivity |].
    apply list_elem_of_singleton in Hstem as ->. reflexivity.
  - destruct (check_bank_file_consistency_spec
                "1234" ["X.B1234.A.CSV"]
                [("5678", ["X.B5678.Z.CSV"]); ("9999", ["Y.B9999.A.CSV"])])
      as (_ & _ & _ & _ & _ & _ & _ & Hdiff).
    apply (Hdiff "5678" ["X.B5678.Z.CSV"] [("9999", ["Y.B9999.A.CSV"])] "X.B5678.Z.CSV").
    + reflexivity.
    + apply list_elem_of_here.
    + intros g Hg. apply list_elem_of_singleton in Hg as ->. vm_compute. discriminate.
Defined.

(** ** File selection *)

Lemma string_app_assoc (s t u : string) : (s +:+ t) +:+ u = s +:+ (t +:+ u).
Proof.
  induction s as [|c s IH]; [reflexivity |].
  change (String c ((s +:+ t) +:+ u) = String c (s +:+ (t +:+ u))). by rewrite IH.
Qed.

Lemma upper_app s t : upper (s +:+ t) = upper s +:+ upper t.
Proof.
  induction s as [|c s IH]; [reflexivity |].
  change (upper_char c +:+ upper (s +:+ t) = (upper_char c +:+ upper s) +:+ upper t).
  by rewrite IH, string_app_assoc.
Qed.

Lemma contains_app_prefix needle pre s :
  startswith s needle = true → contains needle (pre +:+ s) = true.
Proof.
  intros Hp. induction pre as [|c pre IH].
  - change (EmptyString +:+ s) with s. destruct s; cbn [contains]; by rewrite Hp.
  - change (String c pre +:+ s) with (String c (pre +:+ s)).
    cbn [contains]. rewrite IH. apply orb_true_r.
Qed.

Lemma contains_obs_upper f : contains_obs f → contains "OBS" (upper f) = true.
Proof.
  intros (pre & c1 & c2 & c3 & post & -> & H1 & H2 & H3).
  rewrite upper_app. apply contains_app_prefix.
  destruct H1 as [-> | ->], H2 as [-> | ->], H3 as [-> | ->]; reflexivity.
Qed.

(** Claim C10.  The file list of the BM flow never holds a filename that contains
    OBS in any mix of upper and lower case. *)
Theorem bm_flow_excludes_obs (bank_files : FileSetIndex) (bank_id f : string) :
  contains_obs f → f ∉ bm_files bank_files bank_id.
Proof.
  intros Hobs Hin. unfold bm_files, list_bank_files_by_type in Hin.
  apply list_elem_of_filter in Hin as [Hcond _].
  rewrite (contains_obs_upper f Hobs) in Hcond. simpl in Hcond.
  by rewrite andb_false_r in Hcond.
Qed.

Lemma bm_flow_excludes_obs_witness :
  contains_obs "X.B1234.obs.CSV.BM"
  ∧ ("X.B1234.obs.CSV.BM"
       ∉ bm_files [("1234", ["X.B1234.A.CSV.BM"; "X.B1234.obs.CSV.BM"])] "1234")
  ∧ bm_files [("1234", ["X.B1234.A.CSV.BM"; "X.B1234.obs.CSV.BM"])] "1234" = ["X.B1234.A.CSV.BM"].
Proof.
  assert (Hobs : contains_obs "X.B1234.obs.CSV.BM").
  { exists "X.B1234.", "o"%char, "b"%char, "s"%char, ".CSV.BM". repeat split; auto. }
  split; [exact Hobs | split].
  - exact (bm_flow_excludes_obs _ "1234" _ Hobs).
  - reflexivity.
Defined.

(** ** Frames *)

Lemma elem_of_columns_set_column c col v df :
  c ∈ columns (set_column col v df) ↔ c = col ∨ c ∈ columns df.
Proof.
  unfold set_column; simpl. case_decide as Hin.
  - split; [auto |]. intros [-> | H]; done.
  - rewrite elem_of_app, list_elem_of_singleton. tauto.
Qed.

Lemma elem_of_columns_set_column_with c col f df :
  c ∈ columns (set_column_with col f df) ↔ c = col ∨ c ∈ columns df.
Proof.
  unfold set_column_with; simpl. case_decide as Hin.
  - split; [auto |]. intros [-> | H]; done.
  - rewrite elem_of_app, list_elem_of_singleton. tauto.
Qed.

Lemma elem_of_columns_drop_column c col df :
  c ∈ columns (drop_column col df) ↔ c ≠ col ∧ c ∈ columns df.
Proof. unfold drop_column; simpl. by rewrite list_elem_of_filter. Qed.

Lemma pad_lookup cols own (r : gmap string string) c :
  pad cols own r !! c = if decide (c ∈ cols ∧ c ∉ own) then Some "N" else r !! c.
Proof.
  revert r. induction cols as [|a cols IH]; intros r.
  - change (pad [] own r) with r.
    destruct (decide (c ∈ [] ∧ c ∉ own)) as [[H _] |]; [| done].
    by apply not_elem_of_nil in H.
  - change (pad (a :: cols) own r)
      with (pad cols own (if decide (a ∈ own) then r else <[a := "N"]> r)).
    rewrite IH. destruct (decide (c ∈ cols ∧ c ∉ own)) as [[Hc Hown] | Hnot].
    + rewrite decide_True; [done |]. split; [by right | done].
    + destruct (decide (a ∈ own)) as [Ha | Ha].
      * rewrite decide_False; [done |]. intros [Hin Hown].
        apply elem_of_cons in Hin as [-> | Hin]; [done |]. by apply Hnot.
      * destruct (decide (c = a)) as [-> | Hne].
        -- rewrite lookup_insert_eq. rewrite decide_True; [done |]. split; [by left | done].
        -- rewrite lookup_insert_ne by done. rewrite decide_False; [done |].
           intros [Hin Hown]. apply elem_of_cons in Hin as [-> | Hin]; [done |].
           by apply Hnot.
Qed.

Lemma rows_fill_missing_columns cols df :
  rows (fill_missing_columns cols df) = pad cols (columns df) <$> rows df.
Proof.
  revert df. induction cols as [|a cols IH]; intros df.
  - simpl. by rewrite list_fmap_id.
  - change (fill_missing_columns (a :: cols) df)
      with (fill_missing_columns cols
              (if decide (a ∉ columns df) then set_column a "N" df else df)).
    rewrite IH. destruct (decide (a ∉ columns df)) as [Ha | Ha].
    + unfold set_column; simpl. rewrite decide_False by done.
      rewrite <- list_fmap_compose. apply list_fmap_ext. intros _ r _.
      unfold compose. apply map_eq. intros c. rewrite !pad_lookup.
      destruct (decide (c = a)) as [-> | Hne].
      * rewrite decide_False.
        2:{ intros [_ Hn]. apply Hn, elem_of_app. right. by left. }
        rewrite lookup_insert_eq. rewrite decide_True; [done |]. split; [by left | done].
      * rewrite lookup_insert_ne by done.
        destruct (decide (c ∈ cols ∧ c ∉ columns df ++ [a])) as [[H1 H2] | Hnot].
        -- rewrite decide_True; [done |]. split; [by right |].
           intros H. apply H2, elem_of_app. by left.
        -- rewrite decide_False; [done |]. intros [H1 H2]. apply Hnot.
           apply elem_of_cons in H1 as [-> | H1]; [done |]. split; [done |].
           rewrite elem_of_app, list_elem_of_singleton. tauto.
    + apply dec_stable in Ha. apply list_fmap_ext. intros _ r _.
      unfold pad at 2; simpl. by rewrite decide_True.
Qed.

Lemma elem_of_columns_fill c cols df :
  c ∈ columns (fill_missing_columns cols df) ↔ c ∈ columns df ∨ c ∈ cols.
Proof.
  revert df. induction cols as [|a cols IH]; intros df.
  - simpl. split; [auto |]. intros [H | H]; [done |]. by apply not_elem_of_nil in H.
  - change (fill_missing_columns (a :: cols) df)
      with (fill_missing_columns cols
              (if decide (a ∉ columns df) then set_column a "N" df else df)).
    rewrite IH, elem_of_cons. destruct (decide (a ∉ columns df)) as [Ha | Ha].
    + rewrite elem_of_columns_set_column. tauto.
    + apply dec_stable in Ha. split; [tauto |]. intros [H | [-> | H]]; auto.
Qed.

Lemma csv_frame_closed df : csv_frame df → closed df.
Proof. intros Hcsv r c Hr [v Hv]. by destruct (Hcsv r c v Hr Hv). Qed.

Lemma csv_frame_no_empty_cells df : csv_frame df → no_empty_cells df.
Proof. intros Hcsv r c Hr Hv. by destruct (Hcsv r c _ Hr Hv). Qed.

Lemma select_columns_ok cols df :
  (∀ c, c ∈ cols → c ∈ columns df) →
  select_columns cols df
  = Ok (mkDataFrame cols (filter (λ kv : string * string, kv.1 ∈ cols) <$> rows df)).
Proof.
  intros Hall. unfold select_columns.
  destruct (list_find (λ c, c ∉ columns df) cols) as [[i c]|] eqn:Hfind; [| done].
  apply list_find_Some in Hfind as (Hi & Hnot & _).
  destruct Hnot. eapply Hall, list_elem_of_lookup_2, Hi.
Qed.

(** ** DatasetSummarizer *)

Lemma report_get_update f bank_id report :
  report_get (report_update f bank_id report) bank_id = f (report_get report bank_id).
Proof. unfold report_get at 1, report_update. by rewrite lookup_insert_eq. Qed.

Lemma report_get_update_ne f bank_id bank_id' report :
  bank_id ≠ bank_id' →
  report_get (report_update f bank_id report) bank_id' = report_get report bank_id'.
Proof. intros Hne. unfold report_get, report_update. by rewrite lookup_insert_ne. Qed.

Lemma summary_dynamic_cols_spec df col :
  col ∈ summary_dynamic_cols df ↔
  col ∈ columns df
  ∧ ∀ r v, r ∈ rows df → r !! col = Some v → v = "J" ∨ v = "N".
Proof.
  unfold summary_dynamic_cols. rewrite list_elem_of_filter, forallb_True, Forall_forall.
  split.
  - intros [Hall Hcol]. split; [done |].
    intros r v Hr Hv. specialize (Hall r Hr). rewrite Hv in Hall. simpl in Hall.
    apply bool_decide_unpack in Hall.
    apply elem_of_cons in Hall as [-> | Hall]; [by left |].
    apply list_elem_of_singleton in Hall as ->. by right.
  - intros [Hcol Hall]. split; [| done].
    intros r Hr. destruct (r !! col) as [v|] eqn:Hv; simpl; [| done].
    apply bool_decide_pack.
    destruct (Hall r v Hr Hv) as [-> | ->]; [by left | right; by left].
Qed.

(** Claim C9.  The summarizer records a column as dynamic exactly when it is a
    column of the table all of whose values, blank ones (NaN) left aside,
    are J or N; every column of the table is recorded as dynamic or as
    static, and none as both. *)
Theorem summarize_dataset_classification
    (df : DataFrame) (bank_id : string) (report : gmap string BankSummary) :
  ∃ st,
    stats (report_get (summarize_dataset df bank_id report).2 bank_id) = Some st
    ∧ (∀ col, col ∈ dynamic_cols st ↔
              col ∈ columns df
              ∧ ∀ r v, r ∈ rows df → r !! col = Some v → v = "J" ∨ v = "N")
    ∧ (∀ col, col ∈ columns df ↔ col ∈ dynamic_cols st ∨ col ∈ static_cols st)
    ∧ (∀ col, ¬ (col ∈ dynamic_cols st ∧ col ∈ static_cols st)).
Proof.
  eexists. unfold summarize_dataset; simpl. rewrite report_get_update; simpl.
  split; [reflexivity |]. simpl. split; [| split].
  - apply summary_dynamic_cols_spec.
  - intros col. unfold summary_static_cols. rewrite list_elem_of_filter. split.
    + intros Hcol. destruct (decide (col ∈ summary_dynamic_cols df)); auto.
    + intros [Hdyn | [_ Hcol]]; [| done].
      by apply summary_dynamic_cols_spec in Hdyn as [Hcol _].
  - intros col [Hdyn Hstat]. unfold summary_static_cols in Hstat.
    apply list_elem_of_filter in Hstat as [Hnot _]. done.
Qed.

(** The empty string is a value, not a blank: a column that holds it is
    static. *)
Example empty_string_is_not_blank :
  summary_dynamic_cols (mkDataFrame ["AVTALE_IDs"] [row_of [("AVTALE_IDs", EmptyString)]]) = []
  ∧ summary_dynamic_cols (mkDataFrame ["AVTALE_IDs"] [row_of []]) = ["AVTALE_IDs"].
Proof. split; vm_compute; reflexivity. Qed.

(** ** Enricher *)

Lemma pac_bank_elem (bank_id : string) (pac_file : list PacRow) :
  Some bank_id ∈ BANK_ID <$> (normalize_pac <$> pac_file) ↔
  ∃ p, p ∈ pac_file ∧ astype_str (BANK_ID p) = bank_id.
Proof.
  rewrite list_elem_of_fmap. split.
  - intros (q & Hq & Hin). apply list_elem_of_fmap in Hin as (p & -> & Hp).
    exists p. split; [done |]. simpl in Hq. congruence.
  - intros (p & Hp & Hb). exists (normalize_pac p). split; [simpl; congruence |].
    by apply list_elem_of_fmap_2.
Qed.

(** Claim C8.  When no row of the lookup table carries the bank identifier, the
    enricher returns normally, and what it returns is the input table. *)
Theorem enrich_bank_absent (df : DataFrame) (bank_id : string) (pac_file : list PacRow) :
  (∀ p, p ∈ pac_file → astype_str (BANK_ID p) ≠ bank_id) →
  enrich_with_pac_data df bank_id pac_file = Ok df.
Proof.
  intros Habsent. unfold enrich_with_pac_data.
  rewrite decide_True; [done |].
  rewrite pac_bank_elem. intros (p & Hp & Hb). by apply (Habsent p).
Qed.

Lemma pac_lookup_unmatched f (pac_subset : list PacRow) (k : string) :
  (∀ p, p ∈ pac_subset → FORETAKSNR p ≠ Some k) →
  pac_lookup f pac_subset !! k = None.
Proof.
  intros Hno. unfold pac_lookup. apply not_elem_of_list_to_map_1.
  rewrite <- list_fmap_compose. intros Hin.
  apply list_elem_of_fmap in Hin as (k' & Hk & Hin); simpl in Hk; subst k'.
  unfold foretak_keys in Hin. rewrite merge_sort_Permutation in Hin.
  apply elem_of_remove_dups, list_elem_of_omap in Hin as (p & Hp & Hf).
  by apply (Hno p).
Qed.

Lemma map_lookup_unmatched (lookup r : gmap string string) :
  (∀ k, r !! "Kundenummer" = Some k → lookup !! k = None) →
  map_lookup lookup r = EmptyString.
Proof.
  intros Hno. unfold map_lookup.
  destruct (r !! "Kundenummer") as [k|] eqn:Hk; simpl; [| done].
  by rewrite (Hno k).
Qed.

(** Claim C7.  When the lookup table has rows for the bank and the table has the
    key column, the enricher returns a table with the two derived columns and
    one row per input row; a row whose customer key equals no normalised
    organization number of the bank's lookup rows holds the empty string,
    and not NaN, in both derived columns. *)
Theorem enrich_unmatched_empty (df : DataFrame) (bank_id : string) (pac_file : list PacRow) :
  "Kundenummer" ∈ columns df →
  (∃ p, p ∈ pac_file ∧ astype_str (BANK_ID p) = bank_id) →
  ∃ out,
    enrich_with_pac_data df bank_id pac_file = Ok out
    ∧ length (rows out) = length (rows df)
    ∧ "AVTALE_IDs" ∈ columns out
    ∧ "Users_PERSONNR:BRUKERTYPE" ∈ columns out
    ∧ ∀ i r,
        rows df !! i = Some r →
        (∀ p, p ∈ pac_file → astype_str (BANK_ID p) = bank_id →
              r !! "Kundenummer" ≠ Some (zfill 11 (astype_str (FORETAKSNR p)))) →
        ∃ r', rows out !! i = Some r'
              ∧ r' !! "AVTALE_IDs" = Some EmptyString
              ∧ r' !! "Users_PERSONNR:BRUKERTYPE" = Some EmptyString.
Proof.
  intros Hkey Hbank. unfold enrich_with_pac_data.
  rewrite decide_False; [| by intros Hnot; apply Hnot, pac_bank_elem].
  rewrite decide_True by done.
  eexists. split; [reflexivity |]. split; [| split; [| split]].
  - unfold set_column_with; simpl. by rewrite !length_fmap.
  - apply elem_of_columns_set_column_with. right.
    apply elem_of_columns_set_column_with. by left.
  - apply elem_of_columns_set_column_with. by left.
  - intros i r Hi Hno.
    assert (Hsub : ∀ f k, r !! "Kundenummer" = Some k →
              pac_lookup f (filter (λ p, BANK_ID p = Some bank_id)
                              (normalize_pac <$> pac_file)) !! k = None).
    { intros f k Hk. apply pac_lookup_unmatched. intros q Hq Hf.
      apply list_elem_of_filter in Hq as [Hb Hq].
      apply list_elem_of_fmap in Hq as (p & -> & Hp). simpl in Hb, Hf.
      apply (Hno p Hp); congruence. }
    unfold set_column_with; simpl.
    rewrite !list_lookup_fmap, Hi. simpl. eexists. split; [reflexivity |].
    split.
    + rewrite lookup_insert_ne by done. rewrite lookup_insert_eq.
      f_equal. apply map_lookup_unmatched. auto.
    + rewrite lookup_insert_eq. f_equal. apply map_lookup_unmatched.
      intros k Hk. rewrite lookup_insert_ne in Hk by done. auto.
Qed.

(** ** CategoryMerger *)

Lemma merge_file_prepare merged_df read :
  merge_file merged_df read
  = match prepare read with
    | Raise e => Raise e
    | Ok (df, category_value) =>
        match combine merged_df df with
        | Raise e => Raise e
        | Ok m => Ok (m, category_value)
        end
    end.
Proof.
  unfold merge_file, prepare, combine. destruct read as [df | e]; simpl; [| done].
  destruct (df_empty df); [done |].
  destruct (iloc_0_2 df) as [[s |] | e]; simpl; try done.
  destruct (column_at (set_column (strip s) "J" df) 2) as [third | e]; simpl; [| done].
  match goal with |- context [if ?b then Ok ?d else select_columns ?cs ?d] =>
    destruct (if b then Ok d else select_columns cs d) end; done.
Qed.

Lemma combine_never_raises merged_df df : ∃ out, combine merged_df df = Ok out.
Proof.
  unfold combine.
  destruct (df_empty (fill_missing_columns
                        (columns (fill_missing_columns (columns merged_df) df)) merged_df));
    [by eexists |].
  rewrite select_columns_ok; [by eexists |].
  intros c Hc. apply elem_of_columns_fill in Hc as [Hc | Hc]; [| done].
  apply elem_of_columns_fill. by right.
Qed.

Lemma combine_spec merged_df df :
  closed df →
  ∃ out,
    combine merged_df df = Ok out
    ∧ (∀ c, c ∈ columns out ↔ c ∈ columns merged_df ∨ c ∈ columns df)
    ∧ rows out = (pad (columns df) (columns merged_df) <$> rows merged_df)
                 ++ (pad (columns merged_df) (columns df) <$> rows df).
Proof.
  intros Hclosed. unfold combine.
  set (df' := fill_missing_columns (columns merged_df) df).
  set (merged' := fill_missing_columns (columns df') merged_df).
  assert (Hdf' : ∀ c, c ∈ columns df' ↔ c ∈ columns df ∨ c ∈ columns merged_df).
  { intros c. apply elem_of_columns_fill. }
  assert (Hm' : ∀ c, c ∈ columns merged' ↔ c ∈ columns merged_df ∨ c ∈ columns df).
  { intros c. unfold merged'. rewrite elem_of_columns_fill, Hdf'. tauto. }
  assert (Hrows_m : rows merged'
                    = pad (columns df) (columns merged_df) <$> rows merged_df).
  { unfold merged'. rewrite rows_fill_missing_columns. apply list_fmap_ext.
    intros _ r _. apply map_eq. intros c. rewrite !pad_lookup.
    destruct (decide (c ∈ columns df ∧ c ∉ columns merged_df)) as [[H1 H2] | Hnot].
    - rewrite decide_True; [done |]. split; [apply Hdf'; by left | done].
    - rewrite decide_False; [done |]. intros [H1 H2]. apply Hnot.
      apply Hdf' in H1. tauto. }
  assert (Hrows_d : rows df' = pad (columns merged_df) (columns df) <$> rows df).
  { unfold df'. apply rows_fill_missing_columns. }
  destruct (df_empty merged') eqn:Hempty.
  - eexists. split; [reflexivity |]. split.
    + intros c. unfold concat; simpl.
      rewrite elem_of_app, list_elem_of_filter, Hm', Hdf'. tauto.
    + unfold concat; simpl. by rewrite Hrows_m, Hrows_d.
  - rewrite select_columns_ok.
    2:{ intros c Hc. apply Hdf'. apply Hm' in Hc. tauto. }
    eexists. split; [reflexivity |]. split.
    + intros c. unfold concat; simpl.
      rewrite elem_of_app, list_elem_of_filter, Hm'. tauto.
    + unfold concat; simpl. rewrite Hrows_m, Hrows_d. f_equal.
      rewrite <- list_fmap_compose. apply list_fmap_ext. intros i r Hi.
      unfold compose. apply map_filter_id. intros c v Hv. simpl.
      apply Hm'. rewrite pad_lookup in Hv.
      destruct (decide (c ∈ columns merged_df ∧ c ∉ columns df)) as [[H1 _] | _];
        [by left | right].
      apply (Hclosed r c); [by eapply list_elem_of_lookup_2 | by eexists].
Qed.

Lemma column_at_set_column df col v i c :
  columns df !! i = Some c → column_at (set_column col v df) i = Ok c.
Proof.
  intros Hc. unfold column_at, set_column; simpl.
  case_decide; [by rewrite Hc |]. by rewrite (lookup_app_l_Some _ _ _ _ Hc).
Qed.

Lemma prepare_ok df (r0 : gmap string string) third s :
  rows df !! 0 = Some r0 →
  columns df !! 2 = Some third →
  r0 !! third = Some s →
  prepare (Ok df) = Ok (drop_column third (set_column (strip s) "J" df), strip s).
Proof.
  intros Hrow Hcol Hcell. unfold prepare; simpl.
  assert (df_empty df = false) as ->.
  { unfold df_empty. destruct (columns df), (rows df); done. }
  unfold iloc_0_2. rewrite Hcol, Hrow; simpl. rewrite Hcell; simpl.
  by rewrite (column_at_set_column _ _ _ _ _ Hcol).
Qed.

Lemma prepare_Ok_inv read d category_value :
  prepare read = Ok (d, category_value) →
  ∃ df (r0 : gmap string string) third s,
    read = Ok df ∧ rows df !! 0 = Some r0 ∧ columns df !! 2 = Some third
    ∧ r0 !! third = Some s ∧ category_value = strip s
    ∧ d = drop_column third (set_column (strip s) "J" df).
Proof.
  unfold prepare. destruct read as [df | e]; simpl; [| done].
  destruct (df_empty df); [done |]. unfold iloc_0_2.
  destruct (columns df !! 2) as [third |] eqn:Hcol; [| done].
  destruct (rows df !! 0) as [r0 |] eqn:Hrow; [| done]. simpl.
  destruct (r0 !! third) as [s |] eqn:Hcell; [| done].
  rewrite (column_at_set_column _ _ _ _ _ Hcol). simpl.
  intros [= <- <-]. by exists df, r0, third, s.
Qed.

Lemma prepare_closed df third col :
  closed df → closed (drop_column third (set_column col "J" df)).
Proof.
  intros Hclosed r c Hr [v Hv]. unfold drop_column, set_column in Hr; simpl in Hr.
  apply list_elem_of_fmap in Hr as (r1 & -> & Hr).
  apply list_elem_of_fmap in Hr as (r2 & -> & Hr).
  apply elem_of_columns_drop_column.
  destruct (decide (c = third)) as [-> | Hne]; [by rewrite lookup_delete_eq in Hv |].
  split; [done |]. rewrite lookup_delete_ne in Hv by done.
  apply elem_of_columns_set_column.
  destruct (decide (c = col)) as [-> | Hne2]; [by left | right].
  rewrite lookup_insert_ne in Hv by done. apply (Hclosed r2 c Hr). by eexists.
Qed.

Lemma process_file_prepare read_csv directory bank_id merged_df report filename :
  process_file read_csv directory bank_id (merged_df, report) filename
  = match prepare (read_csv (os_path_join directory filename)) with
    | Raise e =>
        (merged_df,
         report_update (if is_no_data e then add_missing filename else add_error filename)
                       bank_id report)
    | Ok (df, category_value) =>
        match combine merged_df df with
        | Ok m => (m, report_update (add_merged category_value) bank_id report)
        | Raise e =>
            (merged_df,
             report_update (if is_no_data e then add_missing filename else add_error filename)
                           bank_id report)
        end
    end.
Proof.
  unfold process_file; simpl. rewrite merge_file_prepare.
  destruct (prepare _) as [[df c] | e].
  - destruct (combine merged_df df) as [m | e]; [done |]. by destruct (is_no_data e).
  - by destruct (is_no_data e).
Qed.

Lemma prepare_zero_rows read :
  yields_zero_rows read → ∃ e, prepare read = Raise e ∧ is_no_data e = true.
Proof.
  intros [(df & -> & Hrows) | ->].
  - eexists. unfold prepare; simpl. unfold df_empty. rewrite Hrows.
    rewrite (bool_decide_eq_true_2 ([] = [])) by done. rewrite orb_true_r.
    split; [reflexivity |]. vm_compute. reflexivity.
  - eexists. split; [reflexivity |]. vm_compute. reflexivity.
Qed.

Lemma process_file_zero_rows read_csv directory bank_id merged_df report filename :
  yields_zero_rows (read_csv (os_path_join directory filename)) →
  process_file read_csv directory bank_id (merged_df, report) filename
  = (merged_df, report_update (add_missing filename) bank_id report).
Proof.
  intros Hzero. rewrite process_file_prepare.
  destruct (prepare_zero_rows _ Hzero) as (e & -> & ->). done.
Qed.

(** What a step does to the run summary does not depend on the summary, and
    it only appends to the three lists of the bank. *)
Lemma process_file_frame read_csv directory bank_id merged_df filename :
  ∃ m g,
    (∀ report, process_file read_csv directory bank_id (merged_df, report) filename
               = (m, report_update g bank_id report))
    ∧ ∃ lm le lmi, ∀ s, merged (g s) = merged s ++ lm
                        ∧ errors (g s) = errors s ++ le
                        ∧ missing (g s) = missing s ++ lmi.
Proof.
  assert (Hfail : ∀ e, ∃ lm le lmi, ∀ s,
            let g := if is_no_data e then add_missing filename else add_error filename in
            merged (g s) = merged s ++ lm ∧ errors (g s) = errors s ++ le
            ∧ missing (g s) = missing s ++ lmi).
  { intros e. destruct (is_no_data e).
    - exists [], [], [filename]. intros s; simpl. by rewrite !app_nil_r.
    - exists [], [filename], []. intros s; simpl. by rewrite !app_nil_r. }
  destruct (prepare (read_csv (os_path_join directory filename))) as [[df c] | e] eqn:Hprep.
  - destruct (combine merged_df df) as [m | e] eqn:Hcomb.
    + exists m, (add_merged c). split.
      * intros report. by rewrite process_file_prepare, Hprep, Hcomb.
      * exists [c], [], []. intros s; simpl. by rewrite !app_nil_r.
    + eexists merged_df, _. split; [| apply (Hfail e)].
      intros report. by rewrite process_file_prepare, Hprep, Hcomb.
  - eexists merged_df, _. split; [| apply (Hfail e)].
    intros report. by rewrite process_file_prepare, Hprep.
Qed.

Lemma skipped_in_fold read_csv directory bank_id filename post :
  ∀ merged_df r r',
    skipped_in filename bank_id r r' →
    let without := fold_left (process_file read_csv directory bank_id) post (merged_df, r) in
    let with_file := fold_left (process_file read_csv directory bank_id) post (merged_df, r') in
    with_file.1 = without.1 ∧ skipped_in filename bank_id without.2 with_file.2.
Proof.
  induction post as [|x post IH]; intros merged_df r r' Hskip; simpl; [done |].
  destruct (process_file_frame read_csv directory bank_id merged_df x)
    as (m & g & Hstep & lm & le & lmi & Hg).
  rewrite !Hstep. apply IH.
  destruct Hskip as (Hm & He & l1 & l2 & H1 & H2).
  unfold skipped_in. rewrite !report_get_update.
  destruct (Hg (report_get r bank_id)) as (-> & -> & ->).
  destruct (Hg (report_get r' bank_id)) as (-> & -> & ->).
  rewrite Hm, He, H1, H2. split; [done |]. split; [done |].
  exists l1, (l2 ++ lmi). by rewrite <- !app_assoc.
Qed.

(** Claim C6.  A file that yields zero data rows leaves the merged table as it
    was and is recorded as missing for the bank; the loop goes on: a file
    list with such a file gives the merged table and the lists of merged
    labels and of failed files of the list without it, and holds the
    filename in the bank's missing list. *)
Theorem zero_row_file_is_skipped
    (read_csv : string → result DataFrame) (directory bank_id : string)
    (report : gmap string BankSummary) (pre : list string) (filename : string)
    (post : list string) :
  yields_zero_rows (read_csv (os_path_join directory filename)) →
  let without :=
    process_csv_files_for_bank read_csv directory (pre ++ post) bank_id report in
  let with_file :=
    process_csv_files_for_bank read_csv directory (pre ++ filename :: post) bank_id report in
  (∀ merged_df r,
     process_file read_csv directory bank_id (merged_df, r) filename
     = (merged_df, report_update (add_missing filename) bank_id r))
  ∧ with_file.1 = without.1
  ∧ filename ∈ missing (report_get with_file.2 bank_id)
  ∧ merged (report_get with_file.2 bank_id) = merged (report_get without.2 bank_id)
  ∧ errors (report_get with_file.2 bank_id) = errors (report_get without.2 bank_id).
Proof.
  intros Hzero without with_file.
  split; [intros merged_df r; by apply process_file_zero_rows |].
  unfold without, with_file, process_csv_files_for_bank. rewrite !fold_left_app.
  destruct (fold_left (process_file read_csv directory bank_id) pre (empty_frame, report))
    as [m r] eqn:Hpre.
  simpl. rewrite process_file_zero_rows by done.
  destruct (skipped_in_fold read_csv directory bank_id filename post m r
              (report_update (add_missing filename) bank_id r))
    as (Hdf & Hm & He & l1 & l2 & _ & Hl).
  { unfold skipped_in. rewrite report_get_update. simpl. split; [done |]. split; [done |].
    exists (missing (report_get r bank_id)), []. by rewrite app_nil_r. }
  split; [done |]. split; [| done].
  rewrite Hl. apply elem_of_app. right. by left.
Qed.


(** ** DuplicateReconciler *)

Section MergeGroup.
Variable group : list (gmap string string).

Lemma fold_flags_lookup cols (base : gmap string string) c :
  fold_left (λ (b : gmap string string) col, <[col := group_flag col group]> b) cols base !! c
  = if decide (c ∈ cols) then Some (group_flag c group) else base !! c.
Proof.
  revert base. induction cols as [|a cols IH]; intros base; cbn [fold_left].
  - destruct (decide (c ∈ [])) as [H |]; [by apply not_elem_of_nil in H | done].
  - rewrite IH. destruct (decide (c ∈ cols)) as [Hin | Hnot].
    + rewrite decide_True; [done | by right].
    + destruct (decide (c = a)) as [-> | Hne].
      * rewrite lookup_insert_eq. rewrite decide_True; [done | by left].
      * rewrite lookup_insert_ne by done. rewrite decide_False; [done |].
        intros H. apply elem_of_cons in H as [-> | H]; done.
Qed.

Lemma fold_first_lookup cols (base : gmap string string) c :
  fold_left (λ (b : gmap string string) col,
               match first_value group col with
               | Some v => <[col := v]> b
               | None => b
               end) cols base !! c
  = if decide (c ∈ cols)
    then match first_value group c with Some v => Some v | None => base !! c end
    else base !! c.
Proof.
  revert base. induction cols as [|a cols IH]; intros base; cbn [fold_left].
  - destruct (decide (c ∈ [])) as [H |]; [by apply not_elem_of_nil in H | done].
  - rewrite IH. destruct (decide (c = a)) as [-> | Hne].
    + rewrite (decide_True (P := a ∈ a :: cols)) by (by left).
      destruct (first_value group a) as [v |] eqn:Hv.
      * rewrite lookup_insert_eq. by destruct (decide (a ∈ cols)).
      * by destruct (decide (a ∈ cols)).
    + assert (Hbase : (match first_value group a with
                       | Some v => <[a := v]> base
                       | None => base
                       end) !! c = base !! c).
      { destruct (first_value group a); [by rewrite lookup_insert_ne | done]. }
      rewrite Hbase. destruct (decide (c ∈ cols)) as [Hin | Hnot].
      * rewrite decide_True; [done | by right].
      * rewrite decide_False; [done |].
        intros H. apply elem_of_cons in H as [-> | H]; done.
Qed.

Lemma merge_group_lookup dynamic fixed c :
  merge_group dynamic fixed group !! c
  = let flagged := if decide (c ∈ dynamic) then Some (group_flag c group)
                   else default ∅ (head group) !! c in
    if decide (c ∈ fixed)
    then match first_value group c with Some v => Some v | None => flagged end
    else flagged.
Proof.
  unfold merge_group. fold (first_value group).
  rewrite fold_first_lookup.
  change (λ (b : gmap string string) (col : string),
            <[col := if existsb (λ r : gmap string string,
                                   bool_decide (r !! col = Some "J")) group
                     then "J" else "N"]> b)
    with (λ (b : gmap string string) col, <[col := group_flag col group]> b).
  by rewrite fold_flags_lookup.
Qed.

Lemma group_flag_J col :
  group_flag col group = "J" ↔ ∃ r : gmap string string, r ∈ group ∧ r !! col = Some "J".
Proof.
  unfold group_flag.
  destruct (existsb _ group) eqn:Hex.
  - split; [intros _ | done]. apply existsb_exists in Hex as (r & Hr & Hb).
    exists r. split; [by apply list_elem_of_In |]. by apply bool_decide_eq_true_1 in Hb.
  - split; [done |]. intros (r & Hr & Hv).
    assert (existsb (λ r : gmap string string, bool_decide (r !! col = Some "J")) group = true);
      [| congruence].
    apply existsb_exists. exists r. split; [by apply list_elem_of_In |].
    by apply bool_decide_eq_true_2.
Qed.

Lemma group_flag_cases col : group_flag col group = "J" ∨ group_flag col group = "N".
Proof. unfold group_flag. destruct (existsb _ group); auto. Qed.

Lemma first_value_decompose col v :
  first_value group col = Some v ↔
  ∃ pre (r : gmap string string) post,
    group = pre ++ r :: post
    ∧ Forall (λ r' : gmap string string, r' !! col = None) pre
    ∧ r !! col = Some v.
Proof.
  unfold first_value. induction group as [|r0 g IH]; simpl.
  - split; [done |]. intros (pre & r & post & H & _). by destruct pre.
  - destruct (r0 !! col) as [v0 |] eqn:H0; simpl.
    + split.
      * intros [= ->]. exists [], r0, g. by repeat split.
      * intros (pre & r & post & Heq & Hpre & Hr). destruct pre as [|p pre].
        -- simpl in Heq. injection Heq as -> ->. congruence.
        -- simpl in Heq. injection Heq as -> ->. inversion Hpre; congruence.
    + rewrite IH. split.
      * intros (pre & r & post & -> & Hpre & Hr). exists (r0 :: pre), r, post.
        split; [done |]. split; [by constructor | done].
      * intros (pre & r & post & Heq & Hpre & Hr). destruct pre as [|p pre].
        -- simpl in Heq. injection Heq as -> ->. congruence.
        -- simpl in Heq. injection Heq as -> ->. exists pre, r, post.
           split; [done |]. split; [by inversion Hpre | done].
Qed.

End MergeGroup.

Lemma group_flag_perm col (g g' : list (gmap string string)) :
  g ≡ₚ g' → group_flag col g = group_flag col g'.
Proof.
  intros Hperm.
  destruct (group_flag_cases g col) as [H | H], (group_flag_cases g' col) as [H' | H'];
    try congruence.
  - apply group_flag_J in H as (r & Hr & Hv). rewrite Hperm in Hr.
    assert (group_flag col g' = "J") by (apply group_flag_J; eauto). congruence.
  - apply group_flag_J in H' as (r & Hr & Hv). rewrite <- Hperm in Hr.
    assert (group_flag col g = "J") by (apply group_flag_J; eauto). congruence.
Qed.

Lemma elem_of_group_keys key_column k (rs : list (gmap string string)) :
  k ∈ group_keys key_column rs
  ↔ ∃ r : gmap string string, r ∈ rs ∧ r !! key_column = Some k.
Proof.
  unfold group_keys.
  by rewrite merge_sort_Permutation, elem_of_remove_dups, list_elem_of_omap.
Qed.

Lemma NoDup_group_keys key_column (rs : list (gmap string string)) :
  NoDup (group_keys key_column rs).
Proof. unfold group_keys. rewrite merge_sort_Permutation. apply NoDup_remove_dups. Qed.

Lemma elem_of_get_group key_column k (r : gmap string string) rs :
  r ∈ get_group key_column k rs ↔ r !! key_column = Some k ∧ r ∈ rs.
Proof. unfold get_group. by rewrite list_elem_of_filter. Qed.

Lemma filter_fmap_unique key_column (f : string → gmap string string) keys k :
  NoDup keys →
  k ∈ keys →
  (∀ k', k' ∈ keys → f k' !! key_column = Some k') →
  filter (λ r : gmap string string, r !! key_column = Some k) (f <$> keys) = [f k].
Proof.
  intros Hnd Hk Hkey.
  assert (Hout : ∀ l, k ∉ l → (∀ k', k' ∈ l → f k' !! key_column = Some k') →
            filter (λ r : gmap string string, r !! key_column = Some k) (f <$> l) = []).
  { induction l as [|a l IH]; intros Hnot Hl; [done |]. rewrite fmap_cons.
    rewrite filter_cons_False.
    - apply IH; [by intros H; apply Hnot; right | by intros k' H; apply Hl; right].
    - rewrite Hl by (by left). intros [= ->]. apply Hnot. by left. }
  induction Hnd as [|a l Ha Hnd IH]; [by apply not_elem_of_nil in Hk |].
  rewrite fmap_cons. apply elem_of_cons in Hk as [-> | Hk].
  - rewrite filter_cons_True by (apply Hkey; by left).
    rewrite Hout; [done | done |]. intros k' H. apply Hkey. by right.
  - rewrite filter_cons_False.
    + apply IH; [done |]. intros k' H. apply Hkey. by right.
    + rewrite Hkey by (by left). intros [= ->]. done.
Qed.

Section Reconciler.
Variable sort_values : string → list (gmap string string) → list (gmap string string).
Hypothesis sort_values_perm : ∀ key_column rs, sort_values key_column rs ≡ₚ rs.
Variable df : DataFrame.
Variable key_column : string.

Lemma merge_grouped_duplicates_Ok :
  key_column ∈ columns df →
  merge_grouped_duplicates sort_values df key_column
  = Ok (mkDataFrame (columns df)
          (merged_row sort_values df key_column
             <$> group_keys key_column (sort_values key_column (rows df)))).
Proof. intros Hkey. unfold merge_grouped_duplicates. by rewrite decide_True. Qed.

Lemma elem_of_group_keys_sorted k :
  k ∈ group_keys key_column (sort_values key_column (rows df)) ↔
  ∃ r : gmap string string, r ∈ rows df ∧ r !! key_column = Some k.
Proof.
  rewrite elem_of_group_keys.
  split; intros (r & Hr & Hk); exists r; (split; [| done]).
  - by rewrite sort_values_perm in Hr.
  - by rewrite sort_values_perm.
Qed.

Lemma get_group_sorted_perm k :
  get_group key_column k (sort_values key_column (rows df))
  ≡ₚ get_group key_column k (rows df).
Proof. unfold get_group. by rewrite sort_values_perm. Qed.

Lemma group_head k :
  k ∈ group_keys key_column (sort_values key_column (rows df)) →
  ∃ (r0 : gmap string string) g,
    get_group key_column k (sort_values key_column (rows df)) = r0 :: g
    ∧ r0 !! key_column = Some k.
Proof.
  intros Hk. apply elem_of_group_keys in Hk as (r & Hr & Hkey).
  set (group := get_group key_column k (sort_values key_column (rows df))).
  assert (Hin : r ∈ group) by by apply elem_of_get_group.
  destruct group as [|r0 g] eqn:Hg.
  - by apply not_elem_of_nil in Hin.
  - exists r0, g. split; [done |].
    assert (H0 : r0 ∈ get_group key_column k (sort_values key_column (rows df))).
    { fold group. rewrite Hg. by left. }
    by apply elem_of_get_group in H0 as [H0 _].
Qed.

Lemma merged_row_flag k col :
  col ∈ identify_dynamic_columns df 100 →
  merged_row sort_values df key_column k !! col
  = Some (group_flag col (get_group key_column k (rows df))).
Proof.
  intros Hdyn. unfold merged_row. rewrite merge_group_lookup. simpl.
  rewrite decide_False.
  2:{ intros H. by apply list_elem_of_filter in H as [H _]. }
  rewrite decide_True by done. f_equal. apply group_flag_perm, get_group_sorted_perm.
Qed.

Lemma merged_row_fixed k col :
  col ∈ columns df →
  col ∉ identify_dynamic_columns df 100 →
  merged_row sort_values df key_column k !! col
  = match first_value (get_group key_column k (sort_values key_column (rows df))) col with
    | Some v => Some v
    | None => default ∅ (head (get_group key_column k (sort_values key_column (rows df)))) !! col
    end.
Proof.
  intros Hcol Hdyn. unfold merged_row. rewrite merge_group_lookup. simpl.
  rewrite decide_True by (by apply list_elem_of_filter).
  by rewrite decide_False.
Qed.

Lemma merged_row_key k :
  key_column ∈ columns df →
  key_column_sound df key_column →
  k ∈ group_keys key_column (sort_values key_column (rows df)) →
  merged_row sort_values df key_column k !! key_column = Some k.
Proof.
  intros Hcol Hsound Hk.
  destruct (group_head k Hk) as (r0 & g & Hg & H0).
  destruct (decide (key_column ∈ identify_dynamic_columns df 100)) as [Hdyn | Hdyn].
  - rewrite merged_row_flag by done. f_equal.
    assert (Hr0 : r0 ∈ get_group key_column k (rows df)).
    { rewrite <- get_group_sorted_perm, Hg. by left. }
    pose proof Hr0 as Hr0'. apply elem_of_get_group in Hr0' as [_ Hr0'].
    destruct (Hsound Hdyn r0 Hr0') as [Hn | [HJ | HN]]; [congruence | |].
    + assert (k = "J") as -> by congruence. apply group_flag_J. eauto.
    + assert (k = "N") as -> by congruence.
      destruct (group_flag_cases (get_group key_column "N" (rows df)) key_column)
        as [HJ | HN']; [| done].
      apply group_flag_J in HJ as (r & Hr & Hv).
      apply elem_of_get_group in Hr as [Hr _]. congruence.
  - rewrite merged_row_fixed by done. rewrite Hg. unfold first_value. simpl. by rewrite H0.
Qed.

Lemma merged_rows_one_per_key k :
  key_column ∈ columns df →
  key_column_sound df key_column →
  k ∈ group_keys key_column (sort_values key_column (rows df)) →
  filter (λ r : gmap string string, r !! key_column = Some k)
         (merged_row sort_values df key_column
            <$> group_keys key_column (sort_values key_column (rows df)))
  = [merged_row sort_values df key_column k].
Proof.
  intros Hcol Hsound Hk. apply filter_fmap_unique; [apply NoDup_group_keys | done |].
  intros k' Hk'. by apply merged_row_key.
Qed.

End Reconciler.

Lemma first_value_exists (group : list (gmap string string)) col (r : gmap string string) v :
  r ∈ group → r !! col = Some v →
  ∃ v' (r' : gmap string string),
    first_value group col = Some v' ∧ r' ∈ group ∧ r' !! col = Some v'.
Proof.
  intros Hr Hv. unfold first_value.
  destruct (head (omap (λ r : gmap string string, r !! col) group)) as [v' |] eqn:Hhead.
  - apply head_Some_elem_of, list_elem_of_omap in Hhead as (r' & Hr' & Hv'). eauto.
  - apply head_None in Hhead.
    assert (Hin : v ∈ omap (λ r : gmap string string, r !! col) group).
    { apply list_elem_of_omap. eauto. }
    rewrite Hhead in Hin. by apply not_elem_of_nil in Hin.
Qed.

(** Claim C4.  The reconciler returns one row per group, the groups taken in the
    order of their keys and each group being the rows of that key in the
    order the sort left them.  In a column classified as fixed, the row of a
    group holds the value of the first row of the group whose value is not
    NaN; so whenever some row of the group has a value there, the output
    holds a value, and it is the value of a row of the group. *)
Theorem fixed_column_takes_first_value
    (sort_values : string → list (gmap string string) → list (gmap string string))
    (df : DataFrame) (key_column : string) :
  (∀ key rs, sort_values key rs ≡ₚ rs) →
  key_column ∈ columns df →
  let sorted := sort_values key_column (rows df) in
  let dynamic := identify_dynamic_columns df 100 in
  ∃ out,
    merge_grouped_duplicates sort_values df key_column = Ok out
    ∧ length (rows out) = length (group_keys key_column sorted)
    ∧ ∀ i k,
        group_keys key_column sorted !! i = Some k →
        let group := get_group key_column k sorted in
        group ≡ₚ get_group key_column k (rows df)
        ∧ ∃ row : gmap string string,
            rows out !! i = Some row
            ∧ ∀ col,
                col ∈ columns df → col ∉ dynamic →
                (∀ pre (r : gmap string string) post v,
                   group = pre ++ r :: post →
                   Forall (λ r' : gmap string string, r' !! col = None) pre →
                   r !! col = Some v →
                   row !! col = Some v)
                ∧ (∀ (r : gmap string string) v,
                     r ∈ group → r !! col = Some v →
                     ∃ v' (r' : gmap string string),
                       row !! col = Some v' ∧ r' ∈ group ∧ r' !! col = Some v').
Proof.
  intros Hperm Hkey sorted dynamic. subst sorted dynamic.
  rewrite merge_grouped_duplicates_Ok by done. eexists. split; [reflexivity |].
  cbn [rows]. split; [by rewrite length_fmap |].
  intros i k Hi. cbv zeta. split; [by apply get_group_sorted_perm |].
  rewrite list_lookup_fmap, Hi. cbn [fmap option_fmap option_map].
  eexists. split; [reflexivity |].
  intros col Hcol Hdyn. rewrite merged_row_fixed by done.
  set (group := get_group key_column k (sort_values key_column (rows df))). split.
  - intros pre r post v Hgroup Hpre Hv.
    assert (Hfirst : first_value group col = Some v).
    { apply first_value_decompose. by exists pre, r, post. }
    by rewrite Hfirst.
  - intros r v Hr Hv.
    destruct (first_value_exists group col r v Hr Hv) as (v' & r' & -> & Hr' & Hv').
    by exists v', r'.
Qed.

(** Claim C1.  On a table that has the key column and on which the key column's
    classification is sound, every customer key of the table has exactly one
    row in the reconciler's output, and in every column classified as
    dynamic that row holds J when some row of the table with this key holds
    J there, and N otherwise. *)
Theorem one_row_per_key_with_flags
    (sort_values : string → list (gmap string string) → list (gmap string string))
    (df : DataFrame) (key_column k : string) :
  (∀ key rs, sort_values key rs ≡ₚ rs) →
  key_column ∈ columns df →
  key_column_sound df key_column →
  (∃ r : gmap string string, r ∈ rows df ∧ r !! key_column = Some k) →
  ∃ out (row : gmap string string),
    merge_grouped_duplicates sort_values df key_column = Ok out
    ∧ filter (λ r : gmap string string, r !! key_column = Some k) (rows out) = [row]
    ∧ ∀ col,
        col ∈ identify_dynamic_columns df 100 →
        let some_J := ∃ r : gmap string string,
                        r ∈ rows df ∧ r !! key_column = Some k ∧ r !! col = Some "J" in
        (some_J → row !! col = Some "J") ∧ (¬ some_J → row !! col = Some "N").
Proof.
  intros Hperm Hkey Hsound Hk.
  apply (elem_of_group_keys_sorted sort_values Hperm) in Hk.
  rewrite merge_grouped_duplicates_Ok by done. eexists _, _. split; [reflexivity |].
  cbn [rows]. split; [by apply merged_rows_one_per_key |].
  intros col Hdyn. cbv zeta.
  set (some_J := ∃ r : gmap string string,
                   r ∈ rows df ∧ r !! key_column = Some k ∧ r !! col = Some "J").
  rewrite (merged_row_flag sort_values Hperm) by done.
  pose proof (group_flag_J (get_group key_column k (rows df)) col) as HJ.
  assert (Hiff : some_J ↔ ∃ r : gmap string string,
                            r ∈ get_group key_column k (rows df) ∧ r !! col = Some "J").
  { unfold some_J. split.
    - intros (r & Hr & Hrk & Hv). exists r. split; [by apply elem_of_get_group | done].
    - intros (r & Hr & Hv). apply elem_of_get_group in Hr as [Hrk Hr]. by exists r. }
  split.
  - intros Hsome. f_equal. apply HJ, Hiff, Hsome.
  - intros Hnone.
    destruct (group_flag_cases (get_group key_column k (rows df)) col) as [H | H];
      [| by rewrite H].
    destruct Hnone. apply Hiff, HJ, H.
Qed.

Lemma key_column_sound_fixed df key_column :
  key_column ∉ identify_dynamic_columns df 100 → key_column_sound df key_column.
Proof. intros Hnot Hdyn. done. Qed.

Lemma key_column_sound_small df key_column :
  len df ≤ 100 → no_empty_cells df → key_column_sound df key_column.
Proof.
  intros Hlen Hcells Hdyn r Hr. unfold identify_dynamic_columns in Hdyn.
  rewrite decide_True in Hdyn by done.
  apply list_elem_of_filter in Hdyn as [Hall _].
  apply forallb_True in Hall. rewrite Forall_forall in Hall. specialize (Hall r Hr).
  destruct (r !! key_column) as [v |] eqn:Hv; [| by left]. right. simpl in Hall.
  apply bool_decide_unpack in Hall.
  apply elem_of_cons in Hall as [-> | Hall]; [by left |].
  apply elem_of_cons in Hall as [-> | Hall]; [by right |].
  apply list_elem_of_singleton in Hall as ->. by destruct (Hcells r key_column Hr).
Qed.

Lemma insert_row_perm key_column (r : gmap string string) sorted :
  insert_row key_column r sorted ≡ₚ r :: sorted.
Proof.
  induction sorted as [|x rest IH]; [reflexivity |]. cbn [insert_row].
  destruct (decide (key_le key_column r x)); [reflexivity |].
  rewrite IH. apply Permutation_swap.
Qed.

Lemma stable_sort_values_perm key_column (rs : list (gmap string string)) :
  stable_sort_values key_column rs ≡ₚ rs.
Proof.
  unfold stable_sort_values. induction rs as [|r rs IH]; [reflexivity |].
  cbn [foldr]. rewrite insert_row_perm. by rewrite IH.
Qed.

Lemma filter_nil_Forall {A} (P : A → Prop) `{!∀ x, Decision (P x)} (l : list A) :
  Forall (λ x, ¬ P x) l → filter P l = [].
Proof.
  induction 1 as [|x l Hx Hl IH]; [done |]. by rewrite filter_cons_False.
Qed.

(** When the key column is taken for a dynamic column, every row of the
    output has J or N as its key. *)
Lemma dynamic_key_column_rewritten
    (sort_values : string → list (gmap string string) → list (gmap string string))
    (df : DataFrame) (key_column : string) :
  (∀ key rs, sort_values key rs ≡ₚ rs) →
  key_column ∈ columns df →
  key_column ∈ identify_dynamic_columns df 100 →
  ∃ out,
    merge_grouped_duplicates sort_values df key_column = Ok out
    ∧ Forall (λ row : gmap string string,
                row !! key_column = Some "J" ∨ row !! key_column = Some "N") (rows out).
Proof.
  intros Hperm Hkey Hdyn. rewrite merge_grouped_duplicates_Ok by done.
  eexists. split; [reflexivity |]. cbn [rows]. apply Forall_fmap, Forall_forall.
  intros k _. unfold compose. rewrite (merged_row_flag sort_values Hperm) by done.
  destruct (group_flag_cases (get_group key_column k (rows df)) key_column) as [-> | ->]; auto.
Qed.

(** One output row per customer key does not hold on a table of 101
    rows: the sample of 100 rows leaves out row 51, the only row with a
    customer number, the key column is taken for a dynamic column, and the
    customer's key is overwritten with N. *)
Lemma sampled_key_column_loses_key :
  let df := (process_csv_files_for_bank sample_dir "in" ["SPARSE.CSV"] "1234" ∅).1 in
  len df = 101
  ∧ (∃ r : gmap string string, r ∈ rows df ∧ r !! "Kundenummer" = Some "123")
  ∧ "Kundenummer" ∈ identify_dynamic_columns df 100
  ∧ (∀ sort_values : string → list (gmap string string) → list (gmap string string),
       (∀ key rs, sort_values key rs ≡ₚ rs) →
       ∃ out,
         merge_grouped_duplicates sort_values df "Kundenummer" = Ok out
         ∧ filter (λ r : gmap string string, r !! "Kundenummer" = Some "123") (rows out) = [])
  ∧ ∃ out,
      merge_grouped_duplicates stable_sort_values df "Kundenummer" = Ok out
      ∧ (λ r : gmap string string, r !! "Kundenummer") <$> rows out = [Some "N"].
Proof.
  intros df.
  assert (Hdyn : "Kundenummer" ∈ identify_dynamic_columns df 100).
  { apply (bool_decide_unpack _). vm_compute. exact I. }
  assert (Hcol : "Kundenummer" ∈ columns df).
  { apply (bool_decide_unpack _). vm_compute. exact I. }
  split; [vm_compute; reflexivity |]. split; [| split; [done | split]].
  - exists (<["RETAIL" := "J"]> (row_of [("Kundenummer", "123"); ("Navn", "Kari")])).
    split; [| vm_compute; reflexivity].
    apply (list_elem_of_lookup_2 _ 51). vm_compute. reflexivity.
  - intros sort_values Hperm.
    destruct (dynamic_key_column_rewritten sort_values df "Kundenummer" Hperm Hcol Hdyn)
      as (out & Hout & Hall).
    exists out. split; [done |]. apply filter_nil_Forall.
    eapply Forall_impl; [exact Hall |]. intros row [H | H]; rewrite H; discriminate.
  - eexists. split; [vm_compute; reflexivity |]. vm_compute. reflexivity.
Qed.

(** ** The order of the files *)

Lemma reconcile_row
    (sort_values : string → list (gmap string string) → list (gmap string string))
    (df : DataFrame) (key_column k : string) :
  (∀ key rs, sort_values key rs ≡ₚ rs) →
  key_column ∈ columns df →
  key_column_sound df key_column →
  (∃ r : gmap string string, r ∈ rows df ∧ r !! key_column = Some k) →
  ∃ out (row : gmap string string),
    merge_grouped_duplicates sort_values df key_column = Ok out
    ∧ columns out = columns df
    ∧ filter (λ r : gmap string string, r !! key_column = Some k) (rows out) = [row]
    ∧ ∀ col, col ∈ identify_dynamic_columns df 100 →
             row !! col = Some (group_flag col (get_group key_column k (rows df))).
Proof.
  intros Hperm Hkey Hsound Hk.
  apply (elem_of_group_keys_sorted sort_values Hperm) in Hk.
  rewrite merge_grouped_duplicates_Ok by done. eexists _, _. split; [reflexivity |].
  cbn [rows columns]. split; [done |]. split; [by apply merged_rows_one_per_key |].
  intros col Hdyn. by apply merged_row_flag.
Qed.

Lemma pad_ext cols cols' own own' (r : gmap string string) :
  (∀ c, c ∈ cols ↔ c ∈ cols') → (∀ c, c ∈ own ↔ c ∈ own') →
  pad cols own r = pad cols' own' r.
Proof.
  intros Hcols Hown. apply map_eq. intros c. rewrite !pad_lookup.
  destruct (decide (c ∈ cols ∧ c ∉ own)) as [[H1 H2] | Hnot].
  - rewrite decide_True; [done |]. split; [by apply Hcols | by rewrite <- Hown].
  - rewrite decide_False; [done |]. intros [H1 H2]. apply Hnot.
    split; [by apply Hcols | by rewrite Hown].
Qed.

Lemma process_file_table read_csv directory bank_id merged_df report filename :
  (process_file read_csv directory bank_id (merged_df, report) filename).1
  = table_after merged_df (prepare (read_csv (os_path_join directory filename))).
Proof.
  rewrite process_file_prepare. unfold table_after.
  destruct (prepare _) as [[df c] | e]; [| done].
  by destruct (combine merged_df df).
Qed.

Lemma process_two_files read_csv directory bank_id report a b :
  (process_csv_files_for_bank read_csv directory [a; b] bank_id report).1
  = table_after
      (table_after empty_frame (prepare (read_csv (os_path_join directory a))))
      (prepare (read_csv (os_path_join directory b))).
Proof.
  unfold process_csv_files_for_bank. cbn [fold_left].
  destruct (process_file read_csv directory bank_id (empty_frame, report) a) as [m r] eqn:Ha.
  rewrite process_file_table. f_equal.
  by rewrite <- (process_file_table read_csv directory bank_id empty_frame report a), Ha.
Qed.

Lemma prepared_frame read d category_value :
  (∀ df, read = Ok df → csv_frame df) →
  prepare read = Ok (d, category_value) →
  closed d ∧ no_empty_cells d.
Proof.
  intros Hcsv Hprep.
  apply prepare_Ok_inv in Hprep as (df & r0 & third & s & -> & _ & _ & _ & _ & ->).
  specialize (Hcsv df eq_refl). split; [by apply prepare_closed, csv_frame_closed |].
  intros r c Hr Hv. unfold drop_column, set_column in Hr; simpl in Hr.
  apply list_elem_of_fmap in Hr as (r1 & -> & Hr).
  apply list_elem_of_fmap in Hr as (r2 & -> & Hr).
  destruct (decide (c = third)) as [-> | Hne]; [by rewrite lookup_delete_eq in Hv |].
  rewrite lookup_delete_ne in Hv by done.
  destruct (decide (c = strip s)) as [-> | Hne2]; [by rewrite lookup_insert_eq in Hv |].
  rewrite lookup_insert_ne in Hv by done.
  by destruct (Hcsv r2 c _ Hr Hv).
Qed.

Lemma table_after_Ok merged_df d category_value :
  closed d →
  (∀ c, c ∈ columns (table_after merged_df (Ok (d, category_value)))
        ↔ c ∈ columns merged_df ∨ c ∈ columns d)
  ∧ rows (table_after merged_df (Ok (d, category_value)))
    = (pad (columns d) (columns merged_df) <$> rows merged_df)
      ++ (pad (columns merged_df) (columns d) <$> rows d).
Proof.
  intros Hclosed. unfold table_after.
  by destruct (combine_spec merged_df d Hclosed) as (out & -> & Hcols & Hrows).
Qed.

Lemma table_after_no_empty_cells merged_df p :
  no_empty_cells merged_df →
  (∀ d c, p = Ok (d, c) → closed d ∧ no_empty_cells d) →
  no_empty_cells (table_after merged_df p).
Proof.
  intros Hm Hp. destruct p as [[d cv] | e]; [| done].
  destruct (Hp d cv eq_refl) as [Hclosed Hd].
  destruct (table_after_Ok merged_df d cv Hclosed) as [_ Hrows].
  intros r c Hr Hv. rewrite Hrows in Hr.
  apply elem_of_app in Hr as [Hr | Hr];
    apply list_elem_of_fmap in Hr as (r1 & -> & Hr);
    rewrite pad_lookup in Hv; case_decide; try done.
  - by apply (Hm r1 c).
  - by apply (Hd r1 c).
Qed.

Lemma table_after_swap pA pB :
  (∀ d c, pA = Ok (d, c) → closed d) →
  (∀ d c, pB = Ok (d, c) → closed d) →
  (∀ c, c ∈ columns (table_after (table_after empty_frame pA) pB)
        ↔ c ∈ columns (table_after (table_after empty_frame pB) pA))
  ∧ rows (table_after (table_after empty_frame pA) pB)
    ≡ₚ rows (table_after (table_after empty_frame pB) pA).
Proof.
  intros HA HB. destruct pA as [[dA cA] | eA], pB as [[dB cB] | eB]; try done.
  specialize (HA dA cA eq_refl). specialize (HB dB cB eq_refl).
  set (mA := table_after empty_frame (Ok (dA, cA))).
  set (mB := table_after empty_frame (Ok (dB, cB))).
  destruct (table_after_Ok empty_frame dA cA HA) as [HcA HrA]. fold mA in HcA, HrA.
  destruct (table_after_Ok empty_frame dB cB HB) as [HcB HrB]. fold mB in HcB, HrB.
  destruct (table_after_Ok mA dB cB HB) as [HcAB HrAB].
  destruct (table_after_Ok mB dA cA HA) as [HcBA HrBA].
  assert (HmA : ∀ c, c ∈ columns mA ↔ c ∈ columns dA).
  { intros c. rewrite HcA. simpl. split; [| auto].
    intros [H | H]; [by apply not_elem_of_nil in H | done]. }
  assert (HmB : ∀ c, c ∈ columns mB ↔ c ∈ columns dB).
  { intros c. rewrite HcB. simpl. split; [| auto].
    intros [H | H]; [by apply not_elem_of_nil in H | done]. }
  assert (HrowsA : rows mA = rows dA).
  { rewrite HrA. simpl. rewrite <- (list_fmap_id (rows dA)) at 2. by apply list_fmap_ext. }
  assert (HrowsB : rows mB = rows dB).
  { rewrite HrB. simpl. rewrite <- (list_fmap_id (rows dB)) at 2. by apply list_fmap_ext. }
  split.
  - intros c. rewrite HcAB, HcBA, HmA, HmB. tauto.
  - rewrite HrAB, HrBA, HrowsA, HrowsB.
    rewrite (list_fmap_ext (pad (columns dB) (columns mA)) (pad (columns dB) (columns dA)))
      by (intros; by apply pad_ext).
    rewrite (list_fmap_ext (pad (columns mA) (columns dB)) (pad (columns dA) (columns dB)))
      by (intros; by apply pad_ext).
    rewrite (list_fmap_ext (pad (columns dA) (columns mB)) (pad (columns dA) (columns dB)))
      by (intros; by apply pad_ext).
    rewrite (list_fmap_ext (pad (columns mB) (columns dA)) (pad (columns dB) (columns dA)))
      by (intros; by apply pad_ext).
    apply Permutation_app_comm.
Qed.

(** The merged table of any file list holds no empty string, and so the
    key column's classification is sound on a merged table of at most 100
    rows. *)
Lemma merged_table_no_empty_cells read_csv directory file_list bank_id report :
  (∀ path df, read_csv path = Ok df → csv_frame df) →
  no_empty_cells (process_csv_files_for_bank read_csv directory file_list bank_id report).1.
Proof.
  intros Hcsv. unfold process_csv_files_for_bank.
  assert (Hstart : no_empty_cells (empty_frame, report).1).
  { intros r c Hr. by apply not_elem_of_nil in Hr. }
  revert Hstart. generalize (empty_frame, report).
  induction file_list as [|x files IH]; intros [m r] Hm; [done |].
  cbn [fold_left]. apply IH.
  rewrite process_file_table. apply table_after_no_empty_cells; [done |].
  intros d c Hp. eapply prepared_frame; [| exact Hp]. intros df. apply Hcsv.
Qed.

Lemma merged_table_key_column_sound read_csv directory file_list bank_id report key_column :
  (∀ path df, read_csv path = Ok df → csv_frame df) →
  let merged_df :=
    (process_csv_files_for_bank read_csv directory file_list bank_id report).1 in
  len merged_df ≤ 100 →
  key_column_sound merged_df key_column.
Proof.
  intros Hcsv merged_df Hlen.
  apply key_column_sound_small; [done |]. by apply merged_table_no_empty_cells.
Qed.

Lemma table_after_closed merged_df p :
  closed merged_df →
  (∀ d c, p = Ok (d, c) → closed d) →
  closed (table_after merged_df p).
Proof.
  intros Hm Hp. destruct p as [[d cv] | e]; [| done].
  specialize (Hp d cv eq_refl).
  destruct (table_after_Ok merged_df d cv Hp) as [Hcols Hrows].
  intros r c Hr [v Hv]. rewrite Hrows in Hr. apply Hcols.
  apply elem_of_app in Hr as [Hr | Hr];
    apply list_elem_of_fmap in Hr as (r1 & -> & Hr);
    rewrite pad_lookup in Hv; case_decide as Hpad.
  - right. tauto.
  - left. apply (Hm r1 c Hr). by eexists.
  - left. tauto.
  - right. apply (Hp r1 c Hr). by eexists.
Qed.

Lemma merged_table_closed read_csv directory file_list bank_id report :
  (∀ path df, read_csv path = Ok df → csv_frame df) →
  closed (process_csv_files_for_bank read_csv directory file_list bank_id report).1.
Proof.
  intros Hcsv. unfold process_csv_files_for_bank.
  assert (Hstart : closed (empty_frame, report).1).
  { intros r c Hr. by apply not_elem_of_nil in Hr. }
  revert Hstart. generalize (empty_frame, report).
  induction file_list as [|x files IH]; intros [m r] Hm; [done |].
  cbn [fold_left]. apply IH.
  rewrite process_file_table. apply table_after_closed; [done |].
  intros d c Hp. eapply prepared_frame; [| exact Hp]. intros df. apply Hcsv.
Qed.

(** Property X1.  On the merged table of any file list, when it has at most
    100 rows: for every customer key of the table the reconciler succeeds
    and the key has exactly one row in its output, which holds in every
    dynamic column the flag of the key's rows. *)
Theorem small_merged_table_one_row_per_key
    (sort_values : string → list (gmap string string) → list (gmap string string))
    (read_csv : string → result DataFrame) (directory : string) (file_list : list string)
    (bank_id : string) (report : gmap string BankSummary) (k : string) :
  (∀ key rs, sort_values key rs ≡ₚ rs) →
  (∀ path df, read_csv path = Ok df → csv_frame df) →
  let merged_df :=
    (process_csv_files_for_bank read_csv directory file_list bank_id report).1 in
  len merged_df ≤ 100 →
  (∃ r : gmap string string, r ∈ rows merged_df ∧ r !! "Kundenummer" = Some k) →
  ∃ out (row : gmap string string),
    merge_grouped_duplicates sort_values merged_df "Kundenummer" = Ok out
    ∧ filter (λ r : gmap string string, r !! "Kundenummer" = Some k) (rows out) = [row]
    ∧ ∀ col, col ∈ identify_dynamic_columns merged_df 100 →
             row !! col = Some (group_flag col (get_group "Kundenummer" k (rows merged_df))).
Proof.
  intros Hperm Hcsv merged_df Hlen Hk.
  assert (Hkey : "Kundenummer" ∈ columns merged_df).
  { destruct Hk as (r & Hr & Hv).
    apply (merged_table_closed read_csv directory file_list bank_id report Hcsv r); [done |].
    by eexists. }
  destruct (reconcile_row sort_values merged_df "Kundenummer" k Hperm Hkey)
    as (out & row & Hout & _ & Hone & Hflags); [| done |].
  { by apply merged_table_key_column_sound. }
  by exists out, row.
Qed.

Lemma identify_dynamic_columns_perm m m' :
  (∀ c, c ∈ columns m ↔ c ∈ columns m') →
  rows m ≡ₚ rows m' →
  len m ≤ 100 →
  ∀ c, c ∈ identify_dynamic_columns m 100 ↔ c ∈ identify_dynamic_columns m' 100.
Proof.
  intros Hcols Hrows Hlen c. unfold identify_dynamic_columns.
  assert (Hlen' : len m' ≤ 100) by (unfold len in *; by rewrite <- Hrows).
  rewrite !decide_True by done.
  rewrite !list_elem_of_filter, !forallb_True, !Forall_forall, Hcols.
  split; intros [Hall Hc]; (split; [| done]); intros r Hr; apply Hall.
  - by rewrite Hrows.
  - by rewrite <- Hrows.
Qed.

Lemma no_empty_cells_perm m m' :
  rows m ≡ₚ rows m' → no_empty_cells m → no_empty_cells m'.
Proof. intros Hrows Hm r c Hr. apply Hm. by rewrite Hrows. Qed.

Lemma elem_of_df_sample {A} n seed (l : list A) x : x ∈ df_sample n seed l → x ∈ l.
Proof.
  unfold df_sample. intros (i & _ & Hi)%list_elem_of_omap.
  by eapply list_elem_of_lookup_2.
Qed.

(** A column whose values are all J, N or NaN is classified as dynamic,
    whatever rows are sampled. *)
Lemma flag_column_dynamic df c :
  c ∈ columns df →
  (∀ r : gmap string string,
     r ∈ rows df → r !! c = None ∨ r !! c = Some "J" ∨ r !! c = Some "N") →
  c ∈ identify_dynamic_columns df 100.
Proof.
  intros Hc Hflag. unfold identify_dynamic_columns.
  apply list_elem_of_filter. split; [| done].
  apply forallb_True, Forall_forall. intros r Hr.
  assert (Hin : r ∈ rows df).
  { destruct (decide (len df ≤ 100)); [done | by eapply elem_of_df_sample]. }
  by destruct (Hflag r Hin) as [-> | [-> | ->]].
Qed.

(** Claim C2.  Two files of one bank, read as [read_csv] reads them, merged
    in either order: the two merged tables have the same columns and the
    same rows up to their order; the reconciler fails on both or on neither,
    and when it succeeds the two outputs have the same columns.  When the
    classification of the key column is sound on both merged tables, every
    customer key has one row in each output, and the two rows agree, on J
    or on N, in every column of the merged table whose values are all J, N
    or NaN.  On merged tables of at most 100 rows the classification of the
    key column is sound, both orders classify the same columns as dynamic,
    and these are the columns whose values are all J, N or NaN. *)
Theorem merge_order_keeps_flags
    (sort_values : string → list (gmap string string) → list (gmap string string))
    (read_csv : string → result DataFrame) (directory bank_id : string)
    (report : gmap string BankSummary) (file_a file_b : string) :
  (∀ key rs, sort_values key rs ≡ₚ rs) →
  (∀ path df, read_csv path = Ok df → csv_frame df) →
  let m_ab :=
    (process_csv_files_for_bank read_csv directory [file_a; file_b] bank_id report).1 in
  let m_ba :=
    (process_csv_files_for_bank read_csv directory [file_b; file_a] bank_id report).1 in
  let flags_only (m : DataFrame) (c : string) :=
    ∀ r : gmap string string,
      r ∈ rows m → r !! c = None ∨ r !! c = Some "J" ∨ r !! c = Some "N" in
  (∀ c, c ∈ columns m_ab ↔ c ∈ columns m_ba)
  ∧ rows m_ab ≡ₚ rows m_ba
  ∧ (len m_ab ≤ 100 →
     key_column_sound m_ab "Kundenummer"
     ∧ key_column_sound m_ba "Kundenummer"
     ∧ (∀ c, c ∈ identify_dynamic_columns m_ab 100 ↔ c ∈ identify_dynamic_columns m_ba 100)
     ∧ (∀ c, c ∈ identify_dynamic_columns m_ab 100 ↔ c ∈ columns m_ab ∧ flags_only m_ab c))
  ∧ match merge_grouped_duplicates sort_values m_ab "Kundenummer",
          merge_grouped_duplicates sort_values m_ba "Kundenummer" with
    | Ok out_ab, Ok out_ba =>
        (∀ c, c ∈ columns out_ab ↔ c ∈ columns out_ba)
        ∧ (key_column_sound m_ab "Kundenummer" →
           key_column_sound m_ba "Kundenummer" →
           ∀ k,
             (∃ r : gmap string string, r ∈ rows m_ab ∧ r !! "Kundenummer" = Some k) →
             ∃ row_ab row_ba : gmap string string,
               filter (λ r : gmap string string, r !! "Kundenummer" = Some k) (rows out_ab)
               = [row_ab]
               ∧ filter (λ r : gmap string string, r !! "Kundenummer" = Some k) (rows out_ba)
                 = [row_ba]
               ∧ ∀ c, c ∈ columns m_ab → flags_only m_ab c →
                      row_ab !! c = row_ba !! c
                      ∧ (row_ab !! c = Some "J" ∨ row_ab !! c = Some "N"))
    | Raise e_ab, Raise e_ba => e_ab = e_ba
    | _, _ => False
    end.
Proof.
  intros Hperm Hcsv m_ab m_ba flags_only.
  set (pA := prepare (read_csv (os_path_join directory file_a))).
  set (pB := prepare (read_csv (os_path_join directory file_b))).
  assert (HA : ∀ d c, pA = Ok (d, c) → closed d ∧ no_empty_cells d).
  { intros d c Hp. eapply prepared_frame; [| exact Hp]. intros df. apply Hcsv. }
  assert (HB : ∀ d c, pB = Ok (d, c) → closed d ∧ no_empty_cells d).
  { intros d c Hp. eapply prepared_frame; [| exact Hp]. intros df. apply Hcsv. }
  assert (Hab : m_ab = table_after (table_after empty_frame pA) pB)
    by apply process_two_files.
  assert (Hba : m_ba = table_after (table_after empty_frame pB) pA)
    by apply process_two_files.
  destruct (table_after_swap pA pB) as [Hcols Hrows];
    [intros d c Hp; by apply (HA d c) | intros d c Hp; by apply (HB d c) |].
  rewrite <- Hab, <- Hba in Hcols, Hrows.
  assert (Hcells : no_empty_cells m_ab).
  { rewrite Hab. apply table_after_no_empty_cells; [| done].
    apply table_after_no_empty_cells; [| done]. intros r c Hr. by apply not_elem_of_nil in Hr. }
  clearbody m_ab m_ba. clear Hab Hba.
  split; [done |]. split; [done |]. split.
  { intros Hlen.
    assert (Hlen' : len m_ba ≤ 100) by (unfold len in *; by rewrite <- Hrows).
    split; [by apply key_column_sound_small |].
    split; [apply key_column_sound_small; [done | by apply (no_empty_cells_perm m_ab)] |].
    split; [by apply identify_dynamic_columns_perm |].
    intros c. split.
    - intros Hc. unfold identify_dynamic_columns in Hc. rewrite decide_True in Hc by done.
      apply list_elem_of_filter in Hc as [Hall Hc]. split; [done |].
      intros r Hr. apply forallb_True in Hall. rewrite Forall_forall in Hall.
      specialize (Hall r Hr). destruct (r !! c) as [v |] eqn:Hv; [| by left].
      cbn [flag_like] in Hall. apply bool_decide_unpack in Hall.
      apply elem_of_cons in Hall as [-> | Hall]; [right; by left |].
      apply elem_of_cons in Hall as [-> | Hall]; [right; by right |].
      apply list_elem_of_singleton in Hall as ->. by destruct (Hcells r c Hr).
    - intros [Hc Hflag]. by apply flag_column_dynamic. }
  destruct (decide ("Kundenummer" ∈ columns m_ab)) as [Hkey | Hkey].
  - assert (Hkey' : "Kundenummer" ∈ columns m_ba) by by apply Hcols.
    pose proof (merge_grouped_duplicates_Ok sort_values m_ab "Kundenummer" Hkey) as Hout.
    pose proof (merge_grouped_duplicates_Ok sort_values m_ba "Kundenummer" Hkey') as Hout'.
    rewrite Hout, Hout'. cbn [columns]. split; [done |].
    intros Hsound Hsound' k Hk.
    assert (Hk' : ∃ r : gmap string string, r ∈ rows m_ba ∧ r !! "Kundenummer" = Some k).
    { destruct Hk as (r & Hr & Hv). exists r. by rewrite <- Hrows. }
    destruct (reconcile_row sort_values m_ab "Kundenummer" k Hperm Hkey Hsound Hk) as
      (o & row & Ho & _ & Hone & Hflags).
    destruct (reconcile_row sort_values m_ba "Kundenummer" k Hperm Hkey' Hsound' Hk') as
      (o' & row' & Ho' & _ & Hone' & Hflags').
    rewrite Hout in Ho. injection Ho as <-. rewrite Hout' in Ho'. injection Ho' as <-.
    exists row, row'. split; [done |]. split; [done |].
    intros c Hc Hflag.
    assert (Hflag' : ∀ r : gmap string string,
              r ∈ rows m_ba → r !! c = None ∨ r !! c = Some "J" ∨ r !! c = Some "N").
    { intros r Hr. apply Hflag. by rewrite Hrows. }
    rewrite Hflags by by apply flag_column_dynamic.
    rewrite Hflags' by (apply flag_column_dynamic; [by apply Hcols | done]).
    split.
    + f_equal. apply group_flag_perm. unfold get_group. by rewrite Hrows.
    + destruct (group_flag_cases (get_group "Kundenummer" k (rows m_ab)) c) as [-> | ->]; auto.
  - assert (Hkey' : "Kundenummer" ∉ columns m_ba) by by rewrite <- Hcols.
    unfold merge_grouped_duplicates. by rewrite !decide_False.
Qed.

(** ** Concrete runs *)

Lemma csv_frame_Forall df :
  csv_frame df ↔
  Forall (map_Forall (λ c v, c ∈ columns df ∧ v ≠ EmptyString)) (rows df).
Proof.
  rewrite Forall_forall. unfold csv_frame, map_Forall. split.
  - intros H r Hr c v Hv. by apply (H r).
  - intros H r c v Hr Hv. by apply (H r Hr).
Qed.

Lemma sample_dir_csv path df : sample_dir path = Ok df → csv_frame df.
Proof.
  unfold sample_dir. repeat case_decide; intros [= <-];
    apply csv_frame_Forall, (bool_decide_unpack _); vm_compute; exact I.
Qed.

(** Equal flags in both orders do not hold when a category label is
    the name of a data column of the other file: the label's column holds
    other values than J and N, is classified as fixed and takes the value of
    the first row of the group. *)
Lemma merge_order_changes_colliding_column :
  let ab := process_csv_files_for_bank sample_dir "in" ["STATUS.CSV"; "SAVINGS.CSV"] "1234" ∅ in
  let ba := process_csv_files_for_bank sample_dir "in" ["SAVINGS.CSV"; "STATUS.CSV"] "1234" ∅ in
  merged (report_get ab.2 "1234") = ["Status"; "SAVINGS"]
  ∧ merged (report_get ba.2 "1234") = ["SAVINGS"; "Status"]
  ∧ ∃ out_ab out_ba,
      merge_grouped_duplicates stable_sort_values ab.1 "Kundenummer" = Ok out_ab
      ∧ merge_grouped_duplicates stable_sort_values ba.1 "Kundenummer" = Ok out_ba
      ∧ value_at "Kundenummer" "001" "Status" out_ab = Some (Some "J")
      ∧ value_at "Kundenummer" "001" "Status" out_ba = Some (Some "aktiv").
Proof.
  intros ab ba. split; [vm_compute; reflexivity |]. split; [vm_compute; reflexivity |].
  eexists _, _. split; [vm_compute; reflexivity |]. split; [vm_compute; reflexivity |].
  split; vm_compute; reflexivity.
Qed.


Lemma scenario_table_key : "Kundenummer" ∈ columns scenario_table.
Proof. apply (bool_decide_unpack _). vm_compute. exact I. Qed.

Lemma scenario_table_customer :
  ∃ r : gmap string string, r ∈ rows scenario_table ∧ r !! "Kundenummer" = Some "001".
Proof.
  exists (<["SAVINGS" := "N"]> (<["RETAIL" := "J"]>
            (row_of [("Kundenummer", "001"); ("Navn", "Ola")]))).
  split; [| vm_compute; reflexivity].
  apply (list_elem_of_lookup_2 _ 0). vm_compute. reflexivity.
Qed.

Lemma one_row_per_key_with_flags_witness :
  ∃ out (row : gmap string string),
    merge_grouped_duplicates stable_sort_values scenario_table "Kundenummer" = Ok out
    ∧ filter (λ r : gmap string string, r !! "Kundenummer" = Some "001") (rows out) = [row]
    ∧ ∀ col,
        col ∈ identify_dynamic_columns scenario_table 100 →
        let some_J := ∃ r : gmap string string,
                        r ∈ rows scenario_table ∧ r !! "Kundenummer" = Some "001"
                        ∧ r !! col = Some "J" in
        (some_J → row !! col = Some "J") ∧ (¬ some_J → row !! col = Some "N").
Proof.
  apply (one_row_per_key_with_flags stable_sort_values scenario_table "Kundenummer" "001").
  - apply stable_sort_values_perm.
  - apply scenario_table_key.
  - apply key_column_sound_fixed. apply (bool_decide_unpack _). vm_compute. exact I.
  - apply scenario_table_customer.
Defined.

Lemma fixed_column_takes_first_value_witness :
  ∃ out,
    merge_grouped_duplicates stable_sort_values scenario_table "Kundenummer" = Ok out
    ∧ length (rows out)
      = length (group_keys "Kundenummer" (stable_sort_values "Kundenummer" (rows scenario_table))).
Proof.
  destruct (fixed_column_takes_first_value stable_sort_values scenario_table "Kundenummer")
    as (out & Hout & Hlen & _).
  - apply stable_sort_values_perm.
  - apply scenario_table_key.
  - exists out. split; [exact Hout | exact Hlen].
Defined.

Lemma merge_order_keeps_flags_witness :
  let m_ab :=
    (process_csv_files_for_bank sample_dir "in" ["X.B1234.A.CSV"; "X.B1234.B.CSV"]
       "1234" ∅).1 in
  let m_ba :=
    (process_csv_files_for_bank sample_dir "in" ["X.B1234.B.CSV"; "X.B1234.A.CSV"]
       "1234" ∅).1 in
  rows m_ab ≡ₚ rows m_ba
  ∧ ∃ out_ab out_ba (row_ab row_ba : gmap string string),
      merge_grouped_duplicates stable_sort_values m_ab "Kundenummer" = Ok out_ab
      ∧ merge_grouped_duplicates stable_sort_values m_ba "Kundenummer" = Ok out_ba
      ∧ filter (λ r : gmap string string, r !! "Kundenummer" = Some "001") (rows out_ab)
        = [row_ab]
      ∧ filter (λ r : gmap string string, r !! "Kundenummer" = Some "001") (rows out_ba)
        = [row_ba]
      ∧ row_ab !! "RETAIL" = row_ba !! "RETAIL"
      ∧ (row_ab !! "RETAIL" = Some "J" ∨ row_ab !! "RETAIL" = Some "N").
Proof.
  cbv zeta.
  pose proof (merge_order_keeps_flags stable_sort_values sample_dir "in" "1234" ∅
                "X.B1234.A.CSV" "X.B1234.B.CSV"
                stable_sort_values_perm sample_dir_csv) as H.
  cbv zeta in H. destruct H as (Hcols & Hrows & Hsmall & Hrec).
  split; [exact Hrows |].
  assert (Hlen : len (process_csv_files_for_bank sample_dir "in"
                        ["X.B1234.A.CSV"; "X.B1234.B.CSV"] "1234" ∅).1 ≤ 100).
  { apply (bool_decide_unpack _). vm_compute. exact I. }
  assert (Hkey : "Kundenummer"
                 ∈ columns (process_csv_files_for_bank sample_dir "in"
                              ["X.B1234.A.CSV"; "X.B1234.B.CSV"] "1234" ∅).1).
  { apply (bool_decide_unpack _). vm_compute. exact I. }
  assert (Hkey' : "Kundenummer"
                  ∈ columns (process_csv_files_for_bank sample_dir "in"
                               ["X.B1234.B.CSV"; "X.B1234.A.CSV"] "1234" ∅).1).
  { apply Hcols, Hkey. }
  assert (Hretail : "RETAIL"
                    ∈ columns (process_csv_files_for_bank sample_dir "in"
                                 ["X.B1234.A.CSV"; "X.B1234.B.CSV"] "1234" ∅).1).
  { apply (bool_decide_unpack _). vm_compute. exact I. }
  assert (Hflags : Forall (λ r : gmap string string,
                             r !! "RETAIL" = None ∨ r !! "RETAIL" = Some "J"
                             ∨ r !! "RETAIL" = Some "N")
                     (rows (process_csv_files_for_bank sample_dir "in"
                              ["X.B1234.A.CSV"; "X.B1234.B.CSV"] "1234" ∅).1)).
  { apply (bool_decide_unpack _). vm_compute. exact I. }
  assert (Hk : ∃ r : gmap string string,
                 r ∈ rows (process_csv_files_for_bank sample_dir "in"
                             ["X.B1234.A.CSV"; "X.B1234.B.CSV"] "1234" ∅).1
                 ∧ r !! "Kundenummer" = Some "001").
  { exists (<["SAVINGS" := "N"]> (<["RETAIL" := "J"]>
              (row_of [("Kundenummer", "001"); ("Navn", "Ola")]))).
    split; [| vm_compute; reflexivity].
    apply (list_elem_of_lookup_2 _ 0). vm_compute. reflexivity. }
  destruct (Hsmall Hlen) as (Hsound & Hsound' & _).
  rewrite (merge_grouped_duplicates_Ok stable_sort_values _ "Kundenummer" Hkey) in Hrec.
  rewrite (merge_grouped_duplicates_Ok stable_sort_values _ "Kundenummer" Hkey') in Hrec.
  destruct Hrec as [_ Hrec].
  destruct (Hrec Hsound Hsound' "001" Hk) as (row_ab & row_ba & Hab & Hba & Hagree).
  destruct (Hagree "RETAIL" Hretail (proj1 (Forall_forall _ _) Hflags)) as [Heq Hjn].
  eexists _, _, row_ab, row_ba.
  split; [exact (merge_grouped_duplicates_Ok stable_sort_values _ "Kundenummer" Hkey) |].
  split; [exact (merge_grouped_duplicates_Ok stable_sort_values _ "Kundenummer" Hkey') |].
  split; [exact Hab |]. split; [exact Hba |]. split; [exact Heq | exact Hjn].
Defined.


Lemma zero_row_file_is_skipped_witness :
  "EMPTY.CSV"
  ∈ missing (report_get
               (process_csv_files_for_bank sample_dir "in"
                  (["X.B1234.A.CSV"] ++ "EMPTY.CSV" :: ["X.B1234.B.CSV"]) "1234" ∅).2
               "1234").
Proof.
  assert (Hzero : yields_zero_rows (sample_dir (os_path_join "in" "EMPTY.CSV"))).
  { left. eexists. split; [vm_compute; reflexivity | reflexivity]. }
  exact (proj1 (proj2 (proj2 (zero_row_file_is_skipped sample_dir "in" "1234" ∅
                                ["X.B1234.A.CSV"] "EMPTY.CSV" ["X.B1234.B.CSV"] Hzero)))).
Defined.

Lemma enrich_bank_absent_witness :
  enrich_with_pac_data sample_customers "5678" sample_pac = Ok sample_customers.
Proof.
  apply enrich_bank_absent. intros p Hp.
  apply list_elem_of_singleton in Hp as ->. vm_compute. discriminate.
Defined.

Lemma enrich_unmatched_empty_witness :
  ∃ out,
    enrich_with_pac_data sample_customers "1234" sample_pac = Ok out
    ∧ ∃ r' : gmap string string,
        rows out !! 1 = Some r'
        ∧ r' !! "AVTALE_IDs" = Some EmptyString
        ∧ r' !! "Users_PERSONNR:BRUKERTYPE" = Some EmptyString.
Proof.
  destruct (enrich_unmatched_empty sample_customers "1234" sample_pac)
    as (out & Hout & _ & _ & _ & Hrows).
  - apply (bool_decide_unpack _). vm_compute. exact I.
  - eexists. split; [apply list_elem_of_here | vm_compute; reflexivity].
  - exists out. split; [exact Hout |].
    apply (Hrows 1 (row_of [("Kundenummer", "777"); ("RETAIL", "J")])); [reflexivity |].
    intros p Hp _. apply list_elem_of_singleton in Hp as ->. vm_compute. discriminate.
Defined.

Lemma small_merged_table_one_row_per_key_witness :
  ∃ out (row : gmap string string),
    merge_grouped_duplicates stable_sort_values
      (process_csv_files_for_bank sample_dir "in" ["X.B1234.A.CSV"; "X.B1234.B.CSV"]
       "1234" ∅).1 "Kundenummer" = Ok out
    ∧ filter (λ r : gmap string string, r !! "Kundenummer" = Some "001") (rows out) = [row].
Proof.
  assert (Hlen : len (process_csv_files_for_bank sample_dir "in" ["X.B1234.A.CSV"; "X.B1234.B.CSV"]
       "1234" ∅).1 ≤ 100).
  { apply (bool_decide_unpack _). vm_compute. exact I. }
  assert (Hk : ∃ r : gmap string string,
                 r ∈ rows (process_csv_files_for_bank sample_dir "in" ["X.B1234.A.CSV"; "X.B1234.B.CSV"]
       "1234" ∅).1
                 ∧ r !! "Kundenummer" = Some "001").
  { exists (<["SAVINGS" := "N"]> (<["RETAIL" := "J"]>
              (row_of [("Kundenummer", "001"); ("Navn", "Ola")]))).
    split; [| vm_compute; reflexivity].
    apply (list_elem_of_lookup_2 _ 0). vm_compute. reflexivity. }
  destruct (small_merged_table_one_row_per_key stable_sort_values sample_dir "in"
              ["X.B1234.A.CSV"; "X.B1234.B.CSV"] "1234" ∅ "001"
              stable_sort_values_perm sample_dir_csv Hlen Hk)
    as (out & row & Hout & Hone & _).
  exists out, row. split; [exact Hout | exact Hone].
Defined.

(** The sort keeps the order of rows with equal keys, and puts a row
    without a key last. *)
Example stable_sort_values_keeps_ties :
  stable_sort_values "Kundenummer"
    [row_of [("Kundenummer", "002"); ("Navn", "a")];
     row_of [("Navn", "b")];
     row_of [("Kundenummer", "001"); ("Navn", "c")];
     row_of [("Kundenummer", "001"); ("Navn", "d")];
     row_of [("Kundenummer", "001"); ("Navn", "e")]]
  = [row_of [("Kundenummer", "001"); ("Navn", "c")];
     row_of [("Kundenummer", "001"); ("Navn", "d")];
     row_of [("Kundenummer", "001"); ("Navn", "e")];
     row_of [("Kundenummer", "002"); ("Navn", "a")];
     row_of [("Navn", "b")]].
Proof. vm_compute. reflexivity. Qed.

(** The capital of the sharp s is SS: a name with OB and a sharp s is left
    out of the BM list. *)
Example upper_sharp_s :
  upper ("ob" +:+ String (ascii_of_nat 223) ".csv") = "OBSS.CSV"
  ∧ bm_files [("1234", ["X.B1234.OB" +:+ String (ascii_of_nat 223) ".CSV.BM"])] "1234" = [].
Proof. split; vm_compute; reflexivity. Qed.

(** The first scenario of the specification: bank 1234 with a RETAIL file
    holding customer 001 and a SAVINGS file holding customers 001 and 002
    gives two rows, customer 001 flagged in both categories and customer 002
    in SAVINGS only; one row has more than one category. *)
Example scenario_two_pm_files :
  ∃ report,
    run_pm_flow stable_sort_values sample_dir "1234" "in"
      [("1234", ["X.B1234.A.CSV"; "X.B1234.B.CSV"])] ∅
    = (Ok (Some (mkDataFrame ["Kundenummer"; "Navn"; "RETAIL"; "SAVINGS"]
                   [row_of [("Kundenummer", "001"); ("Navn", "Ola");
                            ("RETAIL", "J"); ("SAVINGS", "J")];
                    row_of [("Kundenummer", "002"); ("Navn", "Kari");
                            ("RETAIL", "N"); ("SAVINGS", "J")]],
                 [2; 1])),
       report)
    ∧ (multi_category <$> stats (report_get report "1234")) = Some 1.
Proof. eexists. split; vm_compute; reflexivity. Qed.

(** ** FileSetIndexer *)

(** Property X3. A name is filed under a bank code only when it holds a dot, a
    capital B, that code as four digits, and a dot. *)
Theorem find_bank_id_shape (fname bank_id : string) :
  find_bank_id fname = Some bank_id →
  ∃ pre post d1 d2 d3 d4,
    fname = pre +:+ ".B" +:+ bank_id +:+ "." +:+ post
    ∧ bank_id = String d1 (String d2 (String d3 (String d4 EmptyString)))
    ∧ is_digit d1 = true ∧ is_digit d2 = true ∧ is_digit d3 = true ∧ is_digit d4 = true.
Proof.
  induction fname as [|c rest IH]; [discriminate|].
  rewrite find_bank_id_unfold.
  destruct (bank_pattern (String c rest)) as [[b rest']|] eqn:Hp.
  - intros [= ->]. apply bank_pattern_Some in Hp as (d1 & d2 & d3 & d4 & -> & Hf & Hd).
    exists EmptyString, rest', d1, d2, d3, d4. split; [exact Hf|]. split; [reflexivity|exact Hd].
  - intros H. destruct (IH H) as (pre & post & d1 & d2 & d3 & d4 & -> & Hb & Hd).
    exists (String c pre), post, d1, d2, d3, d4. split; [reflexivity|]. split; [exact Hb|exact Hd].
Qed.

Lemma find_bank_id_shape_witness :
  find_bank_id "KUNDE.B1234.RETAIL.CSV" = Some "1234"
  ∧ ∃ pre post d1 d2 d3 d4,
      "KUNDE.B1234.RETAIL.CSV" = pre +:+ ".B" +:+ "1234" +:+ "." +:+ post
      ∧ "1234" = String d1 (String d2 (String d3 (String d4 EmptyString)))
      ∧ is_digit d1 = true ∧ is_digit d2 = true ∧ is_digit d3 = true ∧ is_digit d4 = true.
Proof. split; [reflexivity|]. apply find_bank_id_shape. reflexivity. Defined.

(** Property X4. The consistency check's mask and the indexer's search use the
    same pattern: a name is left out of the index exactly when masking leaves
    it unchanged, and masking never changes the length of a name. *)
Theorem unindexed_iff_mask_fixed (fname : string) :
  (find_bank_id fname = None ↔ mask_bank_code fname = fname)
  ∧ String.length (mask_bank_code fname) = String.length fname.
Proof.
  split.
  - induction fname as [|c rest IH]; [split; reflexivity|].
    rewrite find_bank_id_unfold, mask_bank_code_unfold.
    destruct (bank_pattern (String c rest)) as [[b rest']|] eqn:Hp.
    + apply bank_pattern_Some in Hp as (d1 & d2 & d3 & d4 & -> & Hf & Hd1 & _).
      split; [discriminate|]. rewrite Hf. intros [= E _]. subst d1. discriminate Hd1.
    + rewrite IH. split; [intros ->; reflexivity|]. intros [= E]. exact E.
  - remember (String.length fname) as n eqn:Hn.
    revert fname Hn. induction n as [n IH] using lt_wf_ind. intros fname ->.
    destruct fname as [|c rest]; [reflexivity|].
    rewrite mask_bank_code_unfold.
    destruct (bank_pattern (String c rest)) as [[b rest']|] eqn:Hp.
    + apply bank_pattern_Some in Hp as (d1 & d2 & d3 & d4 & -> & Hf & _).
      rewrite Hf. simpl. do 7 f_equal.
      apply (IH (String.length rest')); [|reflexivity].
      simpl in Hf. injection Hf as -> ->. simpl. lia.
    + cbn [String.length]. f_equal. apply (IH (String.length rest)); [|reflexivity].
      cbn [String.length]. lia.
Qed.

Lemma dict_get_dict_append bank_id fname (d : FileSetIndex) b :
  dict_get b (dict_append bank_id fname d)
  = if decide (bank_id = b) then Some (default [] (dict_get b d) ++ [fname])
    else dict_get b d.
Proof.
  induction d as [|[k files] rest IH]; cbn [dict_append dict_get].
  - destruct (decide (bank_id = b)); reflexivity.
  - destruct (decide (k = bank_id)) as [->|Hk]; cbn [dict_get].
    + destruct (decide (bank_id = b)); reflexivity.
    + destruct (decide (k = b)) as [->|Hkb]; [|exact IH].
      destruct (decide (bank_id = b)); [congruence|reflexivity].
Qed.

Lemma dict_append_keys bank_id fname (d : FileSetIndex) :
  (dict_append bank_id fname d).*1
  = if decide (bank_id ∈ d.*1) then d.*1 else d.*1 ++ [bank_id].
Proof.
  induction d as [|[k files] rest IH]; cbn [dict_append].
  - rewrite decide_False by apply not_elem_of_nil. reflexivity.
  - destruct (decide (k = bank_id)) as [->|Hk].
    + rewrite decide_True by (cbn; apply list_elem_of_here). reflexivity.
    + cbn [fmap list_fmap fst]. change (list_fmap _ _ fst ?l) with (l.*1). rewrite IH.
      destruct (decide (bank_id ∈ rest.*1)) as [Hin|Hnin].
      * rewrite decide_True by (apply list_elem_of_further, Hin). reflexivity.
      * rewrite decide_False; [reflexivity|].
        intros [?|?]%elem_of_cons; [congruence|contradiction].
Qed.

Lemma dict_get_None {V} (d : list (string * V)) b : dict_get b d = None ↔ b ∉ d.*1.
Proof.
  induction d as [|[k v] rest IH]; cbn [dict_get].
  - split; [intros _; apply not_elem_of_nil|reflexivity].
  - cbn [fmap list_fmap fst]. change (list_fmap _ _ fst ?l) with (l.*1).
    rewrite not_elem_of_cons. destruct (decide (k = b)) as [->|Hk].
    + split; [discriminate|]. intros [Hne _]. contradiction.
    + rewrite IH. split; [intros H; split; [congruence|exact H]|intros [_ H]; exact H].
Qed.

Lemma scan_fold listing :
  ∀ acc : FileSetIndex,
    NoDup acc.*1 →
    let out := fold_left (λ bank_file_map fname,
                            match find_bank_id fname with
                            | Some bank_id => dict_append bank_id fname bank_file_map
                            | None => bank_file_map
                            end) listing acc in
    NoDup out.*1
    ∧ ∀ b, dict_get b out
           = match dict_get b acc with
             | Some files => Some (files ++ files_of_bank b listing)
             | None => if decide (files_of_bank b listing = []) then None
                       else Some (files_of_bank b listing)
             end.
Proof.
  induction listing as [|f l IH]; intros acc Hnd; cbn [fold_left].
  - split; [exact Hnd|]. intros b. unfold files_of_bank. rewrite filter_nil.
    destruct (dict_get b acc); [rewrite app_nil_r|]; reflexivity.
  - destruct (find_bank_id f) as [k|] eqn:Hf.
    + destruct (IH (dict_append k f acc)) as [Hnd' Hget].
      { rewrite dict_append_keys. destruct (decide (k ∈ acc.*1)) as [|Hk]; [exact Hnd|].
        apply NoDup_app. split; [exact Hnd|]. split; [|apply NoDup_singleton].
        intros x Hx ->%list_elem_of_singleton. contradiction. }
      split; [exact Hnd'|]. intros b. rewrite Hget, dict_get_dict_append.
      unfold files_of_bank. destruct (decide (k = b)) as [->|Hkb].
      * rewrite filter_cons_True by exact Hf. rewrite <- app_assoc. cbn [app].
        destruct (dict_get b acc); cbn [default app]; [reflexivity|].
        rewrite decide_False by discriminate. reflexivity.
      * rewrite filter_cons_False by congruence. reflexivity.
    + destruct (IH acc Hnd) as [Hnd' Hget]. split; [exact Hnd'|]. intros b.
      rewrite Hget. unfold files_of_bank. rewrite filter_cons_False by congruence.
      reflexivity.
Qed.

Lemma scan_bank_files_get listing b :
  dict_get b (scan_bank_files listing)
  = if decide (files_of_bank b listing = []) then None else Some (files_of_bank b listing).
Proof. apply (proj2 (scan_fold listing [] (NoDup_nil_2))). Qed.

Lemma elem_of_scan_keys listing b :
  b ∈ (scan_bank_files listing).*1 ↔ ∃ f, f ∈ listing ∧ find_bank_id f = Some b.
Proof.
  destruct (decide (b ∈ (scan_bank_files listing).*1)) as [Hin|Hnin].
  - split; [intros _|intros _; exact Hin].
    destruct (dict_get b (scan_bank_files listing)) eqn:Hg.
    + rewrite scan_bank_files_get in Hg.
      destruct (decide (files_of_bank b listing = [])) as [|Hne]; [discriminate|].
      destruct (files_of_bank b listing) as [|f fs] eqn:Hfs; [contradiction|].
      assert (Hf : f ∈ files_of_bank b listing) by (rewrite Hfs; apply list_elem_of_here).
      apply list_elem_of_filter in Hf as [Hf1 Hf2]. exists f. split; assumption.
    + apply dict_get_None in Hg. contradiction.
  - split; [intros; contradiction|]. intros (f & Hf & Hb). exfalso.
    apply dict_get_None in Hnin. rewrite scan_bank_files_get in Hnin.
    destruct (decide (files_of_bank b listing = [])) as [He|]; [|discriminate].
    assert (Hin : f ∈ files_of_bank b listing) by (apply list_elem_of_filter; split; assumption).
    rewrite He in Hin. apply not_elem_of_nil in Hin. exact Hin.
Qed.

(** Property X2. The index built from a directory listing has each bank code
    once; a code is a key exactly when some listed name carries it; and the
    code's entry is the list of the names carrying it as their first code, in
    listing order. A name without a code is in no entry. *)
Theorem scan_bank_files_index (listing : list string) :
  let bank_file_map := scan_bank_files listing in
  NoDup bank_file_map.*1
  ∧ (∀ bank_id, bank_id ∈ bank_file_map.*1 ↔
                ∃ f, f ∈ listing ∧ find_bank_id f = Some bank_id)
  ∧ (∀ bank_id, bank_id ∈ bank_file_map.*1 →
                dict_get bank_id bank_file_map
                = Some (filter (λ f, find_bank_id f = Some bank_id) listing))
  ∧ (∀ bank_id files f,
       dict_get bank_id bank_file_map = Some files →
       f ∈ files → f ∈ listing ∧ find_bank_id f = Some bank_id).
Proof.
  cbv zeta. split; [apply (proj1 (scan_fold listing [] (NoDup_nil_2)))|].
  split; [apply elem_of_scan_keys|]. split.
  - intros b Hin. rewrite scan_bank_files_get.
    destruct (decide (files_of_bank b listing = [])) as [He|]; [|reflexivity].
    apply elem_of_scan_keys in Hin as (f & Hf & Hb).
    assert (Hin : f ∈ files_of_bank b listing) by (apply list_elem_of_filter; split; assumption).
    rewrite He in Hin. apply not_elem_of_nil in Hin. contradiction.
  - intros b files f Hg Hf. rewrite scan_bank_files_get in Hg.
    destruct (decide (files_of_bank b listing = [])); [discriminate|].
    injection Hg as <-. apply list_elem_of_filter in Hf as [Hf1 Hf2]. split; assumption.
Qed.

(** ** File selection *)

Lemma substring_all s : String.substring 0 (String.length s) s = s.
Proof. induction s as [|c s IH]; [reflexivity|]. cbn. rewrite IH. reflexivity. Qed.

Lemma substring_suffix k :
  ∀ s, k ≤ String.length s →
       ∃ pre, s = pre +:+ String.substring k (String.length s - k) s.
Proof.
  induction k as [|k IH]; intros s Hk.
  - exists EmptyString. rewrite Nat.sub_0_r, substring_all. reflexivity.
  - destruct s as [|c s]; cbn in Hk; [lia|].
    destruct (IH s) as [pre Hpre]; [lia|].
    exists (String c pre).
    change (String c s = String c (pre +:+ String.substring k (String.length s - k) s)).
    f_equal. exact Hpre.
Qed.

Lemma endswith_app s suffix : endswith s suffix = true → ∃ pre, s = pre +:+ suffix.
Proof.
  unfold endswith. intros [Hle Heq]%andb_prop.
  apply Nat.leb_le in Hle. apply String.eqb_eq in Heq.
  destruct (substring_suffix (String.length s - String.length suffix) s) as [pre Hpre]; [lia|].
  exists pre. rewrite Hpre at 1. f_equal. rewrite <- Heq at 3. f_equal. lia.
Qed.

Lemma last_char_app pre suffix :
  suffix ≠ EmptyString → last_char (pre +:+ suffix) = last_char suffix.
Proof.
  intros Hne. induction pre as [|c pre IH]; [reflexivity|].
  change (last_char (String c (pre +:+ suffix)) = last_char suffix).
  destruct (pre +:+ suffix) as [|a t] eqn:E.
  - destruct pre; cbn in E; [contradiction|discriminate].
  - exact IH.
Qed.

(** Property X6. The PM and the BM file lists of a bank are sublists of the
    bank's entry in the index and have no file in common; a bank without an
    entry has neither. *)
Theorem pm_and_bm_files_disjoint (bank_files : FileSetIndex) (bank_id : string) :
  let all_files := default [] (dict_get bank_id bank_files) in
  pm_files bank_files bank_id `sublist_of` all_files
  ∧ bm_files bank_files bank_id `sublist_of` all_files
  ∧ (∀ f, f ∈ pm_files bank_files bank_id → f ∉ bm_files bank_files bank_id)
  ∧ (dict_get bank_id bank_files = None →
     pm_files bank_files bank_id = [] ∧ bm_files bank_files bank_id = []).
Proof.
  cbv zeta. unfold pm_files, bm_files, list_bank_files_by_type.
  split; [apply sublist_filter|]. split; [apply sublist_filter|]. split.
  - intros f [Hpm _]%list_elem_of_filter [Hbm _]%list_elem_of_filter.
    apply Is_true_true in Hpm, Hbm.
    apply andb_prop in Hpm as [Hpm _]. apply andb_prop in Hbm as [Hbm _].
    apply endswith_app in Hpm as [p1 H1]. apply endswith_app in Hbm as [p2 H2].
    assert (Hl : last_char (p1 +:+ ".CSV") = last_char (p2 +:+ ".CSV.BM")) by congruence.
    rewrite !last_char_app in Hl by discriminate. discriminate Hl.
  - intros ->. split; reflexivity.
Qed.

(** ** CategoryMerger: the outcome of every file *)

Lemma file_outcome_prepare read :
  file_outcome read
  = match prepare read with
    | Ok (_, category_value) => Ok category_value
    | Raise e => Raise e
    end.
Proof.
  unfold file_outcome. rewrite merge_file_prepare.
  destruct (prepare read) as [[d c]|e]; [|reflexivity].
  destruct (combine_never_raises empty_frame d) as [out ->]. reflexivity.
Qed.

Lemma process_file_outcome read_csv directory bank_id merged_df report filename :
  let read := read_csv (os_path_join directory filename) in
  ∃ m,
    process_file read_csv directory bank_id (merged_df, report) filename
    = (m, report_update
            (match file_outcome read with
             | Ok category_value => add_merged category_value
             | Raise e => if is_no_data e then add_missing filename else add_error filename
             end) bank_id report)
    ∧ m = table_after merged_df (prepare read).
Proof.
  cbv zeta. rewrite process_file_prepare, file_outcome_prepare. unfold table_after.
  destruct (prepare _) as [[d c]|e]; [|eexists; split; reflexivity].
  destruct (combine_never_raises merged_df d) as [out ->]. eexists; split; reflexivity.
Qed.

Lemma report_lookup_update_ne f (bank_id other : string) (report : gmap string BankSummary) :
  other ≠ bank_id → report_update f bank_id report !! other = report !! other.
Proof. intros Hne. unfold report_update. apply lookup_insert_ne. congruence. Qed.

Lemma omap_cons {A B} (g : A → option B) x l :
  omap g (x :: l) = match g x with Some y => y :: omap g l | None => omap g l end.
Proof. reflexivity. Qed.

Lemma outcome_cases read :
  (∃ c, file_outcome read = Ok c ∧ merged_label read = Some c
        ∧ is_missing_file read = false ∧ is_error_file read = false)
  ∨ (∃ e, file_outcome read = Raise e ∧ merged_label read = None
          ∧ is_missing_file read = is_no_data e
          ∧ is_error_file read = negb (is_no_data e)).
Proof.
  unfold merged_label, is_missing_file, is_error_file.
  destruct (file_outcome read) as [c|e]; [left; exists c|right; exists e]; repeat split.
Qed.

Lemma outcome_count (read : string → result DataFrame) (l : list string) :
  length (omap (λ f, merged_label (read f)) l)
  + length (filter (λ f, is_missing_file (read f) = true) l)
  + length (filter (λ f, is_error_file (read f) = true) l)
  = length l.
Proof.
  induction l as [|f l IH]; [reflexivity|].
  rewrite omap_cons, !filter_cons.
  destruct (outcome_cases (read f)) as [(c & _ & -> & -> & ->)|(e & _ & -> & -> & ->)].
  - rewrite !decide_False by discriminate. cbn [length]. lia.
  - destruct (is_no_data e) eqn:He; cbn [negb].
    + rewrite decide_True by reflexivity. rewrite decide_False by discriminate.
      cbn [length]. lia.
    + rewrite decide_False by discriminate. rewrite decide_True by reflexivity.
      cbn [length]. lia.
Qed.

Lemma process_files_report read_csv directory bank_id file_list :
  ∀ merged_df report,
    let read f := read_csv (os_path_join directory f) in
    let before := report_get report bank_id in
    let out := fold_left (process_file read_csv directory bank_id) file_list (merged_df, report) in
    let after := report_get out.2 bank_id in
    merged after = merged before ++ omap (λ f, merged_label (read f)) file_list
    ∧ missing after = missing before ++ filter (λ f, is_missing_file (read f) = true) file_list
    ∧ errors after = errors before ++ filter (λ f, is_error_file (read f) = true) file_list
    ∧ report_columns after = report_columns before
    ∧ stats after = stats before
    ∧ ∀ other, other ≠ bank_id → out.2 !! other = report !! other.
Proof.
  induction file_list as [|f l IH]; intros merged_df report; cbv zeta.
  - cbn [fold_left snd]. change (omap _ []) with (@nil string).
    rewrite !filter_nil, !app_nil_r. repeat split.
  - cbn [fold_left].
    destruct (process_file_outcome read_csv directory bank_id merged_df report f)
      as (m & -> & _).
    rewrite omap_cons, !filter_cons.
    set (g := match file_outcome (read_csv (os_path_join directory f)) with
              | Ok category_value => add_merged category_value
              | Raise e => if is_no_data e then add_missing f else add_error f
              end).
    destruct (IH m (report_update g bank_id report)) as (Hm & Hmi & He & Hc & Hs & Ho).
    cbv zeta in Hm, Hmi, He, Hc, Hs, Ho.
    rewrite Hm, Hmi, He, Hc, Hs. rewrite !report_get_update.
    assert (Hother : ∀ other, other ≠ bank_id →
              (fold_left (process_file read_csv directory bank_id) l
                 (m, report_update g bank_id report)).2 !! other = report !! other).
    { intros other Hne. rewrite Ho by exact Hne. apply report_lookup_update_ne, Hne. }
    clear Hm Hmi He Hc Hs Ho IH. revert Hother.
    generalize (fold_left (process_file read_csv directory bank_id) l
                  (m, report_update g bank_id report)).
    intros st Hother. subst g.
    destruct (outcome_cases (read_csv (os_path_join directory f)))
      as [(c & -> & -> & -> & ->)|(e & -> & -> & -> & ->)].
    + rewrite !decide_False by discriminate.
      cbn [merged missing errors report_columns stats add_merged].
      rewrite <- app_assoc. split_and!; try reflexivity. exact Hother.
    + destruct (is_no_data e); cbn [negb].
      * rewrite decide_True by reflexivity. rewrite decide_False by discriminate.
        cbn [merged missing errors report_columns stats add_missing].
        rewrite <- app_assoc. split_and!; try reflexivity. exact Hother.
      * rewrite decide_False by discriminate. rewrite decide_True by reflexivity.
        cbn [merged missing errors report_columns stats add_error].
        rewrite <- app_assoc. split_and!; try reflexivity. exact Hother.
Qed.

(** Property X7. Every file of the list gets exactly one outcome, which does
    not depend on the files before it: its label is appended to the bank's
    merged list, or its name to the missing list (no-data exceptions) or to
    the error list (any other exception), each list in processing order.
    Nothing else of the run summary changes. *)
Theorem every_file_has_one_outcome
    (read_csv : string → result DataFrame) (directory : string) (file_list : list string)
    (bank_id : string) (report : gmap string BankSummary) :
  let read f := read_csv (os_path_join directory f) in
  let before := report_get report bank_id in
  let out := process_csv_files_for_bank read_csv directory file_list bank_id report in
  let after := report_get out.2 bank_id in
  merged after = merged before ++ omap (λ f, merged_label (read f)) file_list
  ∧ missing after = missing before ++ filter (λ f, is_missing_file (read f) = true) file_list
  ∧ errors after = errors before ++ filter (λ f, is_error_file (read f) = true) file_list
  ∧ length (merged after) + length (missing after) + length (errors after)
    = length (merged before) + length (missing before) + length (errors before)
      + length file_list
  ∧ report_columns after = report_columns before
  ∧ stats after = stats before
  ∧ ∀ other, other ≠ bank_id → out.2 !! other = report !! other.
Proof.
  cbv zeta. unfold process_csv_files_for_bank.
  destruct (process_files_report read_csv directory bank_id file_list empty_frame report)
    as (Hm & Hmi & He & Hc & Hs & Ho). cbv zeta in Hm, Hmi, He, Hc, Hs, Ho.
  split; [exact Hm|]. split; [exact Hmi|]. split; [exact He|].
  split; [|split; [exact Hc|split; [exact Hs|exact Ho]]].
  rewrite Hm, Hmi, He, !length_app.
  pose proof (outcome_count (λ f, read_csv (os_path_join directory f)) file_list) as Hn.
  cbv beta in Hn. lia.
Qed.

(** ** CategoryMerger: the rows of the merged table *)

Lemma combine_len merged_df df out :
  combine merged_df df = Ok out → len out = len merged_df + len df.
Proof.
  unfold combine.
  set (df' := fill_missing_columns (columns merged_df) df).
  set (merged' := fill_missing_columns (columns df') merged_df).
  assert (Hm : length (rows merged') = length (rows merged_df)).
  { unfold merged'. rewrite rows_fill_missing_columns. apply length_fmap. }
  assert (Hd : length (rows df') = length (rows df)).
  { unfold df'. rewrite rows_fill_missing_columns. apply length_fmap. }
  destruct (df_empty merged').
  - intros [= <-]. unfold len, concat. cbn [rows]. rewrite length_app. lia.
  - rewrite select_columns_ok.
    2:{ intros c Hc. apply elem_of_columns_fill in Hc as [Hc|Hc]; [|exact Hc].
        apply elem_of_columns_fill. right. exact Hc. }
    intros [= <-]. unfold len, concat. cbn [rows]. rewrite length_app, length_fmap. lia.
Qed.

Lemma rows_merged_prepare read :
  rows_merged read = match prepare read with Ok (d, _) => len d | Raise _ => 0 end.
Proof.
  unfold rows_merged. destruct read as [df|e]; [|reflexivity].
  rewrite file_outcome_prepare.
  destruct (prepare (Ok df)) as [[d c]|e] eqn:Hp; [|reflexivity].
  apply prepare_Ok_inv in Hp as (df' & r0 & third & s & [= <-] & _ & _ & _ & _ & ->).
  unfold len, drop_column, set_column. cbn [rows]. rewrite !length_fmap. reflexivity.
Qed.

Lemma process_files_len read_csv directory bank_id file_list :
  ∀ merged_df report,
    len (fold_left (process_file read_csv directory bank_id) file_list (merged_df, report)).1
    = len merged_df
      + sum_list ((λ f, rows_merged (read_csv (os_path_join directory f))) <$> file_list).
Proof.
  induction file_list as [|f l IH]; intros merged_df report.
  - cbn. lia.
  - cbn [fold_left fmap list_fmap sum_list].
    destruct (process_file read_csv directory bank_id (merged_df, report) f) as [m r] eqn:Hstep.
    rewrite IH. change (list_fmap _ _ ?g l) with (g <$> l).
    assert (Hm : m = table_after merged_df (prepare (read_csv (os_path_join directory f)))).
    { rewrite <- (process_file_table read_csv directory bank_id merged_df report f), Hstep.
      reflexivity. }
    rewrite rows_merged_prepare. subst m. unfold table_after.
    unfold id. destruct (prepare _) as [[d c]|e]; [|lia].
    destruct (combine merged_df d) as [out|e] eqn:Hc; [|destruct (combine_never_raises merged_df d); congruence].
    rewrite (combine_len _ _ _ Hc). lia.
Qed.

(** Property X8. No row is lost or added by the merger: the merged table has
    as many rows as the files that were merged have together; a file that is
    skipped or fails adds none. *)
Theorem merged_rows_conserved
    (read_csv : string → result DataFrame) (directory : string) (file_list : list string)
    (bank_id : string) (report : gmap string BankSummary) :
  len (process_csv_files_for_bank read_csv directory file_list bank_id report).1
  = sum_list ((λ f, rows_merged (read_csv (os_path_join directory f))) <$> file_list).
Proof. unfold process_csv_files_for_bank. rewrite process_files_len. reflexivity. Qed.

(** ** CategoryMerger: files that are not merged *)

Lemma lower_app s t : lower (s +:+ t) = lower s +:+ lower t.
Proof.
  induction s as [|c s IH]; [reflexivity|].
  change (String (lower_char c) (lower (s +:+ t))
          = String (lower_char c) (lower s +:+ lower t)).
  rewrite IH. reflexivity.
Qed.

Lemma startswith_app p : ∀ s t, startswith s p = true → startswith (s +:+ t) p = true.
Proof.
  induction p as [|c p IH]; intros s t H; [reflexivity|].
  destruct s as [|d s]; [discriminate|].
  change (Ascii.eqb c d && startswith s p = true) in H.
  change (Ascii.eqb c d && startswith (s +:+ t) p = true).
  apply andb_prop in H as [-> H]. rewrite (IH _ _ H). reflexivity.
Qed.

Lemma contains_unfold needle c hay :
  contains needle (String c hay) = startswith (String c hay) needle || contains needle hay.
Proof. reflexivity. Qed.

Lemma contains_app_l needle s t :
  contains needle s = true → contains needle (s +:+ t) = true.
Proof.
  induction s as [|c s IH]; intros H.
  - destruct needle; [|discriminate]. destruct t; reflexivity.
  - change (String c s +:+ t) with (String c (s +:+ t)).
    rewrite contains_unfold in *. apply orb_prop in H as [H|H].
    + pose proof (startswith_app _ (String c s) t H) as H'.
      change (String c s +:+ t) with (String c (s +:+ t)) in H'. rewrite H'. reflexivity.
    + rewrite (IH H). apply orb_true_r.
Qed.

Lemma out_of_bounds_is_no_data cls (n : nat) :
  is_no_data (Exn cls ("index 2 is out of bounds for axis 0 with size " +:+ pretty n)) = true.
Proof.
  unfold is_no_data, exn_str, no_data_messages. rewrite lower_app. cbn [existsb].
  rewrite (contains_app_l "out of bounds"); [|vm_compute; reflexivity].
  rewrite orb_true_r. reflexivity.
Qed.

(** Property X9. A file that is read but has fewer than three columns is
    recorded as missing, not as an error, whatever its rows are, and the
    merged table stays as it was. *)
Theorem short_file_recorded_missing
    (read_csv : string → result DataFrame) (directory bank_id filename : string)
    (merged_df : DataFrame) (report : gmap string BankSummary) (df : DataFrame) :
  read_csv (os_path_join directory filename) = Ok df →
  length (columns df) < 3 →
  process_file read_csv directory bank_id (merged_df, report) filename
  = (merged_df, report_update (add_missing filename) bank_id report).
Proof.
  intros Hread Hlen. rewrite process_file_prepare, Hread. unfold prepare.
  cbn [mbind result_bind].
  destruct (df_empty df); [reflexivity|].
  unfold iloc_0_2. rewrite (lookup_ge_None_2 (columns df) 2) by lia.
  cbn [mbind result_bind]. rewrite out_of_bounds_is_no_data. reflexivity.
Qed.

Lemma short_file_recorded_missing_witness :
  process_file sample_dir "in" "1234" (empty_frame, ∅) "TWO.CSV"
  = (empty_frame, report_update (add_missing "TWO.CSV") "1234" ∅).
Proof.
  apply (short_file_recorded_missing sample_dir "in" "1234" "TWO.CSV" empty_frame ∅
           two_column_file); [reflexivity|].
  cbn. lia.
Defined.

(** Property X10. A file whose first data row has no value in the third column
    is recorded under the bank's errors, and the merged table stays as it was. *)
Theorem nan_label_recorded_error
    (read_csv : string → result DataFrame) (directory bank_id filename : string)
    (merged_df : DataFrame) (report : gmap string BankSummary) (df : DataFrame)
    (r0 : gmap string string) (third : string) :
  read_csv (os_path_join directory filename) = Ok df →
  rows df !! 0 = Some r0 →
  columns df !! 2 = Some third →
  r0 !! third = None →
  process_file read_csv directory bank_id (merged_df, report) filename
  = (merged_df, report_update (add_error filename) bank_id report).
Proof.
  intros Hread Hrow Hcol Hcell. rewrite process_file_prepare, Hread. unfold prepare.
  cbn [mbind result_bind].
  assert (df_empty df = false) as ->.
  { unfold df_empty. destruct (columns df), (rows df); try discriminate. reflexivity. }
  unfold iloc_0_2. rewrite Hcol, Hrow. cbn [mbind result_bind]. rewrite Hcell.
  reflexivity.
Qed.

Lemma nan_label_recorded_error_witness :
  process_file (λ _, Ok nan_label_file) "in" "1234" (empty_frame, ∅) "NAN.CSV"
  = (empty_frame, report_update (add_error "NAN.CSV") "1234" ∅).
Proof.
  apply (nan_label_recorded_error (λ _, Ok nan_label_file) "in" "1234" "NAN.CSV" empty_frame ∅
           nan_label_file (row_of [("Kundenummer", "001"); ("Navn", "Ola")]) "Kategori");
    reflexivity.
Defined.

(** ** CategoryMerger: the shape of the merged table *)

Lemma NoDup_columns_fill cols :
  ∀ df, NoDup (columns df) → NoDup (columns (fill_missing_columns cols df)).
Proof.
  induction cols as [|a cols IH]; intros df Hnd; [exact Hnd|].
  change (fill_missing_columns (a :: cols) df)
    with (fill_missing_columns cols
            (if decide (a ∉ columns df) then set_column a "N" df else df)).
  apply IH. destruct (decide (a ∉ columns df)) as [Ha|Ha]; [|exact Hnd].
  unfold set_column. cbn [columns]. rewrite decide_False by exact Ha.
  apply NoDup_app. split; [exact Hnd|]. split; [|apply NoDup_singleton].
  intros x Hx ->%list_elem_of_singleton. contradiction.
Qed.

Lemma combine_columns merged_df df out :
  combine merged_df df = Ok out →
  columns out
  = columns (fill_missing_columns
               (columns (fill_missing_columns (columns merged_df) df)) merged_df).
Proof.
  unfold combine.
  set (df' := fill_missing_columns (columns merged_df) df).
  set (merged' := fill_missing_columns (columns df') merged_df).
  assert (Hsub : ∀ c, c ∈ columns df' → c ∈ columns merged').
  { intros c Hc. apply elem_of_columns_fill. right. exact Hc. }
  destruct (df_empty merged').
  - intros [= <-]. unfold concat. cbn [columns].
    rewrite filter_nil_Forall; [apply app_nil_r|].
    apply Forall_forall. intros c Hc Hn. apply Hn, Hsub, Hc.
  - rewrite select_columns_ok.
    2:{ intros c Hc. apply elem_of_columns_fill in Hc as [Hc|Hc]; [|exact Hc].
        apply elem_of_columns_fill. right. exact Hc. }
    intros [= <-]. unfold concat. cbn [columns].
    rewrite filter_nil_Forall; [apply app_nil_r|].
    apply Forall_forall. intros c Hc Hn. exact (Hn Hc).
Qed.

Lemma NoDup_columns_table_after merged_df p :
  NoDup (columns merged_df) → NoDup (columns (table_after merged_df p)).
Proof.
  intros Hnd. unfold table_after. destruct p as [[d c]|e]; [|exact Hnd].
  destruct (combine merged_df d) as [out|e] eqn:Hc; [|exact Hnd].
  rewrite (combine_columns _ _ _ Hc). apply NoDup_columns_fill, Hnd.
Qed.

Lemma merged_table_NoDup read_csv directory file_list bank_id report :
  NoDup (columns (process_csv_files_for_bank read_csv directory file_list bank_id report).1).
Proof.
  unfold process_csv_files_for_bank.
  assert (Hstart : NoDup (columns (empty_frame, report).1)) by apply NoDup_nil_2.
  revert Hstart. generalize (empty_frame, report).
  induction file_list as [|x files IH]; intros [m r] Hm; [exact Hm|].
  cbn [fold_left]. apply IH. rewrite process_file_table.
  apply NoDup_columns_table_after, Hm.
Qed.

Lemma process_files_columns read_csv directory bank_id file_list :
  (∀ path df, read_csv path = Ok df → csv_frame df) →
  ∀ merged_df report c,
    c ∈ columns (fold_left (process_file read_csv directory bank_id) file_list
                   (merged_df, report)).1
    ↔ c ∈ columns merged_df
      ∨ ∃ f d label, f ∈ file_list
                     ∧ prepare (read_csv (os_path_join directory f)) = Ok (d, label)
                     ∧ c ∈ columns d.
Proof.
  intros Hcsv. induction file_list as [|f l IH]; intros merged_df report c.
  - cbn [fold_left fst]. split; [auto|]. intros [H|(f & d & lab & Hf & _)]; [exact H|].
    apply not_elem_of_nil in Hf. contradiction.
  - cbn [fold_left].
    destruct (process_file read_csv directory bank_id (merged_df, report) f) as [m r] eqn:Hstep.
    assert (Hm : m = table_after merged_df (prepare (read_csv (os_path_join directory f)))).
    { rewrite <- (process_file_table read_csv directory bank_id merged_df report f), Hstep.
      reflexivity. }
    rewrite IH. subst m.
    destruct (prepare (read_csv (os_path_join directory f))) as [[d lab]|e] eqn:Hp.
    + assert (Hcl : closed d).
      { eapply prepared_frame; [|exact Hp]. intros df. apply Hcsv. }
      rewrite (proj1 (table_after_Ok merged_df d lab Hcl)). split.
      * intros [[H|H]|(f' & d' & lab' & Hf & Hp' & Hc)]; [left; exact H| |].
        -- right. exists f, d, lab. split; [apply list_elem_of_here|]. split; assumption.
        -- right. exists f', d', lab'. split; [apply list_elem_of_further, Hf|].
           split; assumption.
      * intros [H|(f' & d' & lab' & Hf & Hp' & Hc)]; [left; left; exact H|].
        apply elem_of_cons in Hf as [->|Hf].
        -- rewrite Hp in Hp'. injection Hp' as <- <-. left. right. exact Hc.
        -- right. exists f', d', lab'. split; [exact Hf|]. split; assumption.
    + cbn [table_after]. split.
      * intros [H|(f' & d' & lab' & Hf & Hp' & Hc)]; [left; exact H|].
        right. exists f', d', lab'. split; [apply list_elem_of_further, Hf|].
        split; assumption.
      * intros [H|(f' & d' & lab' & Hf & Hp' & Hc)]; [left; exact H|].
        apply elem_of_cons in Hf as [->|Hf]; [congruence|].
        right. exists f', d', lab'. split; [exact Hf|]. split; assumption.
Qed.

Lemma prepared_columns read d label c :
  prepare read = Ok (d, label) ∧ c ∈ columns d
  ↔ ∃ df third, read = Ok df ∧ file_outcome read = Ok label
                ∧ columns df !! 2 = Some third ∧ c ≠ third
                ∧ (c = label ∨ c ∈ columns df)
                ∧ prepare read = Ok (d, label).
Proof.
  split.
  - intros [Hp Hc]. pose proof Hp as Hp'.
    apply prepare_Ok_inv in Hp as (df & r0 & third & s & -> & _ & Hcol & _ & -> & ->).
    exists df, third. split; [reflexivity|].
    split; [rewrite file_outcome_prepare, Hp'; reflexivity|]. split; [exact Hcol|].
    apply elem_of_columns_drop_column in Hc as [Hne Hc].
    apply elem_of_columns_set_column in Hc. split; [exact Hne|]. split; [exact Hc|exact Hp'].
  - intros (df & third & -> & _ & Hcol & Hne & Hc & Hp). split; [exact Hp|].
    apply prepare_Ok_inv in Hp as (df' & r0 & third' & s & [= <-] & _ & Hcol' & _ & -> & ->).
    rewrite Hcol in Hcol'. injection Hcol' as <-.
    apply elem_of_columns_drop_column. split; [exact Hne|].
    apply elem_of_columns_set_column. exact Hc.
Qed.

(** Property X12. The merged table of any file list is well formed: its column
    labels are distinct, every value stands under one of its columns, no cell
    holds the empty string, and its columns are exactly the columns of the
    merged files and their category labels, without each file's third column. *)
Theorem merged_table_well_formed
    (read_csv : string → result DataFrame) (directory : string) (file_list : list string)
    (bank_id : string) (report : gmap string BankSummary) :
  (∀ path df, read_csv path = Ok df → csv_frame df) →
  let read f := read_csv (os_path_join directory f) in
  let merged_df := (process_csv_files_for_bank read_csv directory file_list bank_id report).1 in
  NoDup (columns merged_df)
  ∧ closed merged_df
  ∧ no_empty_cells merged_df
  ∧ ∀ c, c ∈ columns merged_df ↔
         ∃ f df third label,
           f ∈ file_list ∧ read f = Ok df ∧ file_outcome (read f) = Ok label
           ∧ columns df !! 2 = Some third ∧ c ≠ third ∧ (c = label ∨ c ∈ columns df).
Proof.
  intros Hcsv. cbv zeta. split; [apply merged_table_NoDup|].
  split; [apply merged_table_closed, Hcsv|].
  split; [apply merged_table_no_empty_cells, Hcsv|].
  intros c. unfold process_csv_files_for_bank.
  rewrite (process_files_columns read_csv directory bank_id file_list Hcsv). split.
  - intros [H|(f & d & lab & Hf & Hp & Hc)]; [apply not_elem_of_nil in H; contradiction|].
    destruct (proj1 (prepared_columns _ d lab c) (conj Hp Hc))
      as (df & third & H1 & H2 & H3 & H4 & H5 & _).
    exists f, df, third, lab. repeat (split; [assumption|]). exact H5.
  - intros (f & df & third & lab & Hf & Hr & Ho & Hcol & Hne & Hc). right.
    rewrite file_outcome_prepare in Ho.
    destruct (prepare (read_csv (os_path_join directory f))) as [[d lab']|e] eqn:Hp;
      [|discriminate].
    injection Ho as ->. exists f, d, lab. split; [exact Hf|].
    apply (prepared_columns (read_csv (os_path_join directory f)) d lab c).
    exists df, third. repeat (split; [assumption|]).
    split; [rewrite file_outcome_prepare, Hp; reflexivity|].
    repeat (split; [assumption|]). exact Hp.
Qed.

Lemma merged_table_well_formed_witness :
  NoDup (columns (process_csv_files_for_bank sample_dir "in"
                    ["X.B1234.A.CSV"; "X.B1234.B.CSV"] "1234" ∅).1).
Proof.
  exact (proj1 (merged_table_well_formed sample_dir "in" ["X.B1234.A.CSV"; "X.B1234.B.CSV"]
                  "1234" ∅ sample_dir_csv)).
Defined.

(** Property X13. Merging a further file never changes a value of a row that
    is already in the merged table: the row keeps its place and its values,
    and holds N in every column that the file brings in. *)
Theorem earlier_rows_keep_values
    (read_csv : string → result DataFrame) (directory bank_id filename : string)
    (merged_df : DataFrame) (report : gmap string BankSummary) :
  (∀ df, read_csv (os_path_join directory filename) = Ok df → csv_frame df) →
  let out := (process_file read_csv directory bank_id (merged_df, report) filename).1 in
  ∀ i (r : gmap string string),
    rows merged_df !! i = Some r →
    ∃ r' : gmap string string,
      rows out !! i = Some r'
      ∧ ∀ c, r' !! c = if decide (c ∈ columns out ∧ c ∉ columns merged_df)
                       then Some "N" else r !! c.
Proof.
  intros Hcsv out i r Hi. subst out. rewrite process_file_table.
  destruct (prepare (read_csv (os_path_join directory filename))) as [[d lab]|e] eqn:Hp.
  - assert (Hcl : closed d).
    { eapply prepared_frame; [|exact Hp]. exact Hcsv. }
    destruct (table_after_Ok merged_df d lab Hcl) as [Hcols Hrows].
    exists (pad (columns d) (columns merged_df) r). split.
    + rewrite Hrows. apply lookup_app_l_Some. rewrite list_lookup_fmap, Hi. reflexivity.
    + intros c. rewrite pad_lookup.
      destruct (decide (c ∈ columns d ∧ c ∉ columns merged_df)) as [[H1 H2]|Hn].
      * rewrite decide_True; [reflexivity|]. split; [apply Hcols; right; exact H1|exact H2].
      * rewrite decide_False; [reflexivity|]. intros [H1 H2]. apply Hn.
        apply Hcols in H1 as [H1|H1]; [contradiction|]. split; assumption.
  - exists r. split; [exact Hi|]. intros c. cbn [table_after].
    rewrite decide_False; [reflexivity|]. intros [H1 H2]. contradiction.
Qed.

Lemma earlier_rows_keep_values_witness :
  ∃ r' : gmap string string,
    rows (process_file sample_dir "in" "1234"
            (mkDataFrame ["Kundenummer"; "RETAIL"]
               [row_of [("Kundenummer", "001"); ("RETAIL", "J")]], ∅)
            "X.B1234.B.CSV").1 !! 0 = Some r'
    ∧ r' !! "SAVINGS" = Some "N" ∧ r' !! "Kundenummer" = Some "001".
Proof.
  destruct (earlier_rows_keep_values sample_dir "in" "1234" "X.B1234.B.CSV"
              (mkDataFrame ["Kundenummer"; "RETAIL"]
                 [row_of [("Kundenummer", "001"); ("RETAIL", "J")]]) ∅
              (sample_dir_csv _) 0 (row_of [("Kundenummer", "001"); ("RETAIL", "J")]) eq_refl)
    as (r' & Hr & Hc).
  exists r'. split; [exact Hr|]. split.
  - rewrite (Hc "SAVINGS"). apply (bool_decide_unpack _). vm_compute. exact I.
  - rewrite (Hc "Kundenummer"). apply (bool_decide_unpack _). vm_compute. exact I.
Defined.

(** ** DuplicateReconciler: the shape of the output *)

Lemma length_remove_dups `{EqDecision A} (l : list A) : length (remove_dups l) ≤ length l.
Proof.
  induction l as [|x l IH]; [reflexivity|]. cbn [remove_dups].
  destruct (decide_rel elem_of x l); cbn [length]; lia.
Qed.

Lemma length_omap_le {A B} (f : A → option B) (l : list A) : length (omap f l) ≤ length l.
Proof.
  induction l as [|x l IH]; [reflexivity|]. rewrite omap_cons.
  destruct (f x); cbn [length]; lia.
Qed.

Lemma group_keys_perm key_column (rs rs' : list (gmap string string)) :
  rs ≡ₚ rs' → group_keys key_column rs = group_keys key_column rs'.
Proof.
  intros Hperm. unfold group_keys.
  apply (Sorted_unique String.le); try apply _.
  - apply Sorted_merge_sort; apply _.
  - apply Sorted_merge_sort; apply _.
  - rewrite !merge_sort_Permutation. apply NoDup_Permutation; try apply NoDup_remove_dups.
    intros k. rewrite !elem_of_remove_dups, !list_elem_of_omap.
    split; intros (r & Hr & Hk); exists r; (split; [|exact Hk]).
    + rewrite <- Hperm. exact Hr.
    + rewrite Hperm. exact Hr.
Qed.

Lemma length_group_keys key_column (rs : list (gmap string string)) :
  length (group_keys key_column rs) ≤ length rs.
Proof.
  unfold group_keys. rewrite merge_sort_Permutation.
  etrans; [apply length_remove_dups|apply length_omap_le].
Qed.

(** Property X14. The reconciled table keeps the columns of its input and is
    ordered by customer key: its key column lists, in ascending order and each
    once, exactly the keys of the input; rows without a key are dropped, and
    the output never has more rows than the input. *)
Theorem reconciled_table_sorted_by_key
    (sort_values : string → list (gmap string string) → list (gmap string string))
    (df : DataFrame) (key_column : string) :
  (∀ key rs, sort_values key rs ≡ₚ rs) →
  key_column ∈ columns df →
  key_column_sound df key_column →
  ∃ out keys,
    merge_grouped_duplicates sort_values df key_column = Ok out
    ∧ columns out = columns df
    ∧ (λ r : gmap string string, r !! key_column) <$> rows out = Some <$> keys
    ∧ Sorted String.le keys
    ∧ NoDup keys
    ∧ (∀ k, k ∈ keys ↔ ∃ r : gmap string string, r ∈ rows df ∧ r !! key_column = Some k)
    ∧ length (rows out) ≤ length (rows df).
Proof.
  intros Hperm Hkey Hsound.
  exists (mkDataFrame (columns df)
            (merged_row sort_values df key_column
               <$> group_keys key_column (sort_values key_column (rows df)))),
         (group_keys key_column (rows df)).
  assert (Hk : group_keys key_column (sort_values key_column (rows df))
               = group_keys key_column (rows df)) by apply group_keys_perm, Hperm.
  split; [apply merge_grouped_duplicates_Ok, Hkey|]. cbn [columns rows].
  split; [reflexivity|]. split.
  - rewrite <- list_fmap_compose, <- Hk. apply list_fmap_ext. intros i k Hi.
    unfold compose. apply (merged_row_key sort_values Hperm); try assumption.
    eapply list_elem_of_lookup_2, Hi.
  - split; [apply Sorted_merge_sort; apply _|]. split; [apply NoDup_group_keys|].
    split; [intros k; apply elem_of_group_keys|].
    rewrite length_fmap, Hk. apply length_group_keys.
Qed.

Lemma reconciled_table_sorted_by_key_witness :
  ∃ out keys,
    merge_grouped_duplicates stable_sort_values sample_customers "Kundenummer" = Ok out
    ∧ (λ r : gmap string string, r !! "Kundenummer") <$> rows out = Some <$> keys
    ∧ Sorted String.le keys.
Proof.
  destruct (reconciled_table_sorted_by_key stable_sort_values sample_customers "Kundenummer")
    as (out & keys & Hout & _ & Hkeys & Hsorted & _).
  - apply stable_sort_values_perm.
  - apply (bool_decide_unpack _). vm_compute. exact I.
  - apply key_column_sound_fixed. apply (bool_decide_unpack _). vm_compute. exact I.
  - exists out, keys. split; [exact Hout|]. split; [exact Hkeys|exact Hsorted].
Defined.

(** Property X15. In the reconciled table every column classified as dynamic
    holds J or N in every row, never a missing value or an empty string. *)
Theorem reconciled_flags_are_J_or_N
    (sort_values : string → list (gmap string string) → list (gmap string string))
    (df : DataFrame) (key_column : string) :
  (∀ key rs, sort_values key rs ≡ₚ rs) →
  key_column ∈ columns df →
  ∃ out,
    merge_grouped_duplicates sort_values df key_column = Ok out
    ∧ ∀ (row : gmap string string) col,
        row ∈ rows out → col ∈ identify_dynamic_columns df 100 →
        row !! col = Some "J" ∨ row !! col = Some "N".
Proof.
  intros Hperm Hkey. eexists. split; [apply merge_grouped_duplicates_Ok, Hkey|].
  cbn [rows]. intros row col Hrow Hcol.
  apply list_elem_of_fmap in Hrow as (k & -> & _).
  rewrite (merged_row_flag sort_values Hperm df key_column k col Hcol).
  destruct (group_flag_cases (get_group key_column k (rows df)) col) as [->| ->]; auto.
Qed.

Lemma reconciled_flags_are_J_or_N_witness :
  ∃ out,
    merge_grouped_duplicates stable_sort_values sample_customers "Kundenummer" = Ok out
    ∧ ∀ (row : gmap string string) col,
        row ∈ rows out → col ∈ identify_dynamic_columns sample_customers 100 →
        row !! col = Some "J" ∨ row !! col = Some "N".
Proof.
  apply (reconciled_flags_are_J_or_N stable_sort_values sample_customers "Kundenummer").
  - apply stable_sort_values_perm.
  - apply (bool_decide_unpack _). vm_compute. exact I.
Defined.

Lemma first_value_None (group : list (gmap string string)) col :
  first_value group col = None ↔ ∀ r : gmap string string, r ∈ group → r !! col = None.
Proof.
  unfold first_value. induction group as [|r g IH].
  - split; [|reflexivity]. intros _ r Hr. apply not_elem_of_nil in Hr. contradiction.
  - rewrite omap_cons. destruct (r !! col) as [v|] eqn:Hv.
    + split; [discriminate|]. intros H. specialize (H r (list_elem_of_here _ _)). congruence.
    + rewrite IH. split.
      * intros H r' [->|Hr']%elem_of_cons; [exact Hv|apply H, Hr'].
      * intros H r' Hr'. apply H, list_elem_of_further, Hr'.
Qed.

(** Property X16. The reconciler invents no value in a fixed column: what a
    customer's output row holds there is the value of one of the customer's
    input rows, and the row holds nothing there exactly when none of them has
    a value. *)
Theorem fixed_column_value_has_a_source
    (sort_values : string → list (gmap string string) → list (gmap string string))
    (df : DataFrame) (key_column k col : string) :
  (∀ key rs, sort_values key rs ≡ₚ rs) →
  col ∈ columns df →
  col ∉ identify_dynamic_columns df 100 →
  let row := merged_row sort_values df key_column k in
  (∀ v, row !! col = Some v →
        ∃ r : gmap string string, r ∈ rows df ∧ r !! key_column = Some k ∧ r !! col = Some v)
  ∧ (row !! col = None ↔
     ∀ r : gmap string string, r ∈ rows df → r !! key_column = Some k → r !! col = None).
Proof.
  intros Hperm Hcol Hfixed row. subst row.
  rewrite (merged_row_fixed sort_values df key_column k col Hcol Hfixed).
  set (group := get_group key_column k (sort_values key_column (rows df))).
  assert (Hgroup : ∀ r : gmap string string,
            r ∈ group ↔ r ∈ rows df ∧ r !! key_column = Some k).
  { intros r. unfold group. rewrite elem_of_get_group, Hperm. tauto. }
  destruct (first_value group col) as [v|] eqn:Hfv.
  - apply first_value_decompose in Hfv as (pre & r & post & Hg & _ & Hv).
    assert (Hr : r ∈ group).
    { rewrite Hg. apply elem_of_app. right. apply list_elem_of_here. }
    apply Hgroup in Hr as [Hr Hk]. split.
    + intros v' [= <-]. exists r. split; [exact Hr|]. split; assumption.
    + split; [discriminate|]. intros H. rewrite (H r Hr Hk) in Hv. discriminate.
  - pose proof (proj1 (first_value_None group col) Hfv) as Hnone.
    assert (Hhead : default ∅ (head group) !! col = None).
    { destruct group as [|r g] eqn:Hg; [apply lookup_empty|]. cbn [head default].
      apply Hnone, list_elem_of_here. }
    rewrite Hhead. split; [discriminate|]. split; [|reflexivity].
    intros _ r Hr Hk. apply Hnone, Hgroup. split; assumption.
Qed.

Lemma fixed_column_value_has_a_source_witness :
  merged_row stable_sort_values sample_customers "Kundenummer" "777" !! "Kundenummer" = None
  ↔ ∀ r : gmap string string,
      r ∈ rows sample_customers → r !! "Kundenummer" = Some "777" → r !! "Kundenummer" = None.
Proof.
  apply (fixed_column_value_has_a_source stable_sort_values sample_customers
           "Kundenummer" "777" "Kundenummer").
  - apply stable_sort_values_perm.
  - apply (bool_decide_unpack _). vm_compute. exact I.
  - apply (bool_decide_unpack _). vm_compute. exact I.
Defined.

(** Property X17. A customer with a single input row keeps that row: the
    output row of the customer's group, which stands at the place of the key
    among the sorted keys, holds the row's own value in every fixed column,
    and in every dynamic column J when the row holds J and N otherwise.
    This needs no condition on the key column: a key column that is
    classified as dynamic is rewritten like the other dynamic columns.  When
    the classification of the key column is sound, the row is the only
    output row with that key. *)
Theorem single_row_customer_kept
    (sort_values : string → list (gmap string string) → list (gmap string string))
    (df : DataFrame) (key_column k : string) (r : gmap string string) :
  (∀ key rs, sort_values key rs ≡ₚ rs) →
  key_column ∈ columns df →
  get_group key_column k (rows df) = [r] →
  ∃ out i (row : gmap string string),
    merge_grouped_duplicates sort_values df key_column = Ok out
    ∧ group_keys key_column (rows df) !! i = Some k
    ∧ rows out !! i = Some row
    ∧ (∀ c, row !! c = if decide (c ∈ identify_dynamic_columns df 100)
                       then Some (if decide (r !! c = Some "J") then "J" else "N")
                       else r !! c)
    ∧ (key_column_sound df key_column →
       filter (λ r' : gmap string string, r' !! key_column = Some k) (rows out) = [row]).
Proof.
  intros Hperm Hkey Hone.
  assert (Hr : r ∈ rows df ∧ r !! key_column = Some k).
  { assert (H : r ∈ get_group key_column k (rows df)) by (rewrite Hone; apply list_elem_of_here).
    apply elem_of_get_group in H. tauto. }
  assert (Hk : k ∈ group_keys key_column (sort_values key_column (rows df))).
  { apply (elem_of_group_keys_sorted sort_values Hperm). exists r. exact Hr. }
  assert (Hg : get_group key_column k (sort_values key_column (rows df)) = [r]).
  { apply Permutation_singleton_r. rewrite <- Hone.
    apply (get_group_sorted_perm sort_values Hperm). }
  assert (Hkeys : group_keys key_column (sort_values key_column (rows df))
                  = group_keys key_column (rows df)) by apply group_keys_perm, Hperm.
  destruct (proj1 (list_elem_of_lookup _ _) Hk) as [i Hi].
  exists (mkDataFrame (columns df)
            (merged_row sort_values df key_column
               <$> group_keys key_column (sort_values key_column (rows df)))),
         i, (merged_row sort_values df key_column k).
  split; [apply merge_grouped_duplicates_Ok, Hkey|]. cbn [rows].
  split; [rewrite <- Hkeys; exact Hi|].
  split; [rewrite list_lookup_fmap, Hi; reflexivity|].
  split; [|intros Hsound; apply (merged_rows_one_per_key sort_values Hperm); assumption].
  intros c. unfold merged_row. rewrite merge_group_lookup, Hg. cbv zeta.
  assert (Hflag : group_flag c [r] = if decide (r !! c = Some "J") then "J" else "N").
  { unfold group_flag. cbn [existsb]. rewrite orb_false_r.
    destruct (decide (r !! c = Some "J")) as [H|H].
    - rewrite bool_decide_eq_true_2 by exact H. reflexivity.
    - rewrite bool_decide_eq_false_2 by exact H. reflexivity. }
  assert (Hfirst : first_value [r] c = r !! c).
  { unfold first_value. rewrite omap_cons. destruct (r !! c); reflexivity. }
  rewrite Hflag, Hfirst. cbn [head default]. unfold id.
  destruct (decide (c ∈ identify_dynamic_columns df 100)) as [Hd|Hd].
  - rewrite decide_False; [reflexivity|].
    intros [H _]%list_elem_of_filter. contradiction.
  - destruct (decide (c ∈ filter (λ col, col ∉ identify_dynamic_columns df 100) (columns df)));
      [|reflexivity].
    destruct (r !! c); reflexivity.
Qed.

Lemma single_row_customer_kept_witness :
  ∃ out i (row : gmap string string),
    merge_grouped_duplicates stable_sort_values sample_customers "Kundenummer" = Ok out
    ∧ group_keys "Kundenummer" (rows sample_customers) !! i = Some "777"
    ∧ rows out !! i = Some row
    ∧ row !! "RETAIL" = Some "J"
    ∧ row !! "Kundenummer" = Some "777".
Proof.
  destruct (single_row_customer_kept stable_sort_values sample_customers "Kundenummer" "777"
              (row_of [("Kundenummer", "777"); ("RETAIL", "J")]))
    as (out & i & row & Hout & Hi & Hrow & Hc & _).
  - apply stable_sort_values_perm.
  - apply (bool_decide_unpack _). vm_compute. exact I.
  - vm_compute. reflexivity.
  - exists out, i, row. split; [exact Hout|]. split; [exact Hi|]. split; [exact Hrow|]. split.
    + rewrite (Hc "RETAIL"). apply (bool_decide_unpack _). vm_compute. exact I.
    + rewrite (Hc "Kundenummer"). apply (bool_decide_unpack _). vm_compute. exact I.
Defined.

(** Property X18. On a table of at most 100 rows that holds no empty string,
    the reconciler and the summarizer classify the same columns as dynamic, in
    the same order. *)
Theorem classifiers_agree (df : DataFrame) :
  len df ≤ 100 →
  no_empty_cells df →
  identify_dynamic_columns df 100 = summary_dynamic_cols df.
Proof.
  intros Hlen Hne. unfold identify_dynamic_columns, summary_dynamic_cols.
  rewrite decide_True by exact Hlen.
  apply list_filter_iff. intros col.
  rewrite !Is_true_true, !forallb_forall. split; intros H r Hr; specialize (H r Hr).
  - destruct (r !! col) as [v|] eqn:Hv; [|reflexivity]. cbn [flag_like is_flag_value] in *.
    apply bool_decide_eq_true in H. apply bool_decide_eq_true.
    apply elem_of_cons in H as [->|H]; [apply list_elem_of_here|].
    apply elem_of_cons in H as [->|H]; [apply list_elem_of_further, list_elem_of_here|].
    apply list_elem_of_singleton in H as ->. exfalso.
    apply (Hne r col); [apply list_elem_of_In, Hr|exact Hv].
  - destruct (r !! col) as [v|]; [|reflexivity]. cbn [flag_like is_flag_value] in *.
    apply bool_decide_eq_true in H. apply bool_decide_eq_true.
    apply elem_of_cons in H as [->|H]; [apply list_elem_of_here|].
    apply list_elem_of_singleton in H as ->. apply list_elem_of_further, list_elem_of_here.
Qed.

Lemma classifiers_agree_witness :
  identify_dynamic_columns sample_customers 100 = summary_dynamic_cols sample_customers.
Proof.
  apply classifiers_agree.
  - apply (bool_decide_unpack _). vm_compute. exact I.
  - apply csv_frame_no_empty_cells, csv_frame_Forall, (bool_decide_unpack _).
    vm_compute. exact I.
Defined.

(** ** DatasetSummarizer: the counts *)

Lemma filter_ext_in {A} (P Q : A → Prop) `{!∀ x, Decision (P x)} `{!∀ x, Decision (Q x)}
    (l : list A) :
  (∀ x, x ∈ l → (P x ↔ Q x)) → filter P l = filter Q l.
Proof.
  induction l as [|x l IH]; intros Hext; [reflexivity|].
  rewrite !filter_cons, IH.
  2:{ intros y Hy. apply Hext, list_elem_of_further, Hy. }
  destruct (decide (P x)) as [Hp|Hp], (decide (Q x)) as [Hq|Hq]; try reflexivity.
  - exfalso. apply Hq, (Hext x (list_elem_of_here _ _)), Hp.
  - exfalso. apply Hp, (Hext x (list_elem_of_here _ _)), Hq.
Qed.

Lemma two_distinct_elements {A} (l : list A) :
  NoDup l → (1 < length l ↔ ∃ a b, a ≠ b ∧ a ∈ l ∧ b ∈ l).
Proof.
  intros Hnd. split.
  - destruct l as [|a [|b l]]; cbn [length]; [lia..|]. intros _.
    exists a, b. split.
    + intros ->. apply NoDup_cons in Hnd as [Hnd _]. apply Hnd, list_elem_of_here.
    + split; [apply list_elem_of_here|apply list_elem_of_further, list_elem_of_here].
  - intros (a & b & Hne & Ha & Hb). destruct l as [|x [|y l]]; cbn [length]; [| |lia].
    + apply not_elem_of_nil in Ha. contradiction.
    + apply list_elem_of_singleton in Ha, Hb. congruence.
Qed.

Lemma summary_cols_perm df :
  summary_dynamic_cols df ++ summary_static_cols df ≡ₚ columns df.
Proof.
  unfold summary_static_cols.
  rewrite (filter_ext_in (λ col, col ∉ summary_dynamic_cols df)
             (λ col, ¬ forallb (λ r : gmap string string, is_flag_value (r !! col)) (rows df))
             (columns df)).
  - apply (filter_app_complement
             (λ col, forallb (λ r : gmap string string, is_flag_value (r !! col)) (rows df))).
  - intros c Hc. unfold summary_dynamic_cols. rewrite list_elem_of_filter. tauto.
Qed.

(** Property X19. What the summarizer records for a table: the numbers of rows
    and of columns, the table's columns reordered with the dynamic ones first,
    for every row its count of dynamic columns holding J, and as
    [multi_category] the number of rows whose count exceeds one, which are the
    rows holding J in two different dynamic columns. The bank's lists of
    merged, missing and failed files and the other banks' entries are left as
    they were. *)
Theorem summarize_dataset_counts
    (df : DataFrame) (bank_id : string) (report : gmap string BankSummary) :
  let out := summarize_dataset df bank_id report in
  let before := report_get report bank_id in
  let after := report_get out.2 bank_id in
  ∃ st,
    stats after = Some st
    ∧ total_rows st = len df
    ∧ total_columns st = length (columns df)
    ∧ length (dynamic_cols st) + length (static_cols st) = total_columns st
    ∧ report_columns after = dynamic_cols st ++ static_cols st
    ∧ report_columns after ≡ₚ columns df
    ∧ length out.1 = len df
    ∧ multi_category st = length (filter (λ n, 1 < n) out.1)
    ∧ multi_category st ≤ total_rows st
    ∧ (∀ i (r : gmap string string),
         rows df !! i = Some r →
         ∃ n, out.1 !! i = Some n
              ∧ n ≤ length (dynamic_cols st)
              ∧ (NoDup (columns df) →
                 (1 < n ↔ ∃ c1 c2, c1 ≠ c2
                                   ∧ c1 ∈ dynamic_cols st ∧ c2 ∈ dynamic_cols st
                                   ∧ r !! c1 = Some "J" ∧ r !! c2 = Some "J")))
    ∧ merged after = merged before
    ∧ missing after = missing before
    ∧ errors after = errors before
    ∧ ∀ other, other ≠ bank_id → out.2 !! other = report !! other.
Proof.
  cbv zeta. unfold summarize_dataset. cbn [fst snd]. rewrite report_get_update.
  eexists. split; [reflexivity|]. cbn [total_rows total_columns dynamic_cols static_cols
    multi_category report_columns set_stats merged missing errors].
  split; [reflexivity|]. split; [reflexivity|].
  split; [rewrite <- length_app, summary_cols_perm; reflexivity|].
  split; [reflexivity|]. split; [apply summary_cols_perm|].
  assert (Hlen : length (category_count df) = len df) by apply length_fmap.
  split; [exact Hlen|]. split; [reflexivity|].
  split; [rewrite <- Hlen; apply length_filter|]. split.
  - intros i r Hi. unfold category_count. rewrite list_lookup_fmap, Hi. cbn [fmap option_fmap option_map].
    eexists. split; [reflexivity|]. split; [apply length_filter|].
    intros Hnd. rewrite two_distinct_elements.
    2:{ apply NoDup_filter. unfold summary_dynamic_cols. apply NoDup_filter, Hnd. }
    split.
    + intros (a & b & Hne & [Ha1 Ha2]%list_elem_of_filter & [Hb1 Hb2]%list_elem_of_filter).
      exists a, b. repeat (split; [assumption|]). assumption.
    + intros (a & b & Hne & Ha & Hb & Ha' & Hb'). exists a, b. split; [exact Hne|].
      split; apply list_elem_of_filter; split; assumption.
  - split; [reflexivity|]. split; [reflexivity|]. split; [reflexivity|].
    intros other Hne. apply report_lookup_update_ne, Hne.
Qed.

(** ** Enricher: matched customers *)

Lemma normalized_group bank_id k (pac_file : list PacRow) :
  filter (λ p, FORETAKSNR p = Some k)
         (filter (λ p, BANK_ID p = Some bank_id) (normalize_pac <$> pac_file))
  = normalize_pac <$> pac_group bank_id k pac_file.
Proof.
  unfold pac_group. induction pac_file as [|p l IH]; [reflexivity|].
  rewrite fmap_cons, !filter_cons. cbn [normalize_pac BANK_ID].
  destruct (decide (Some (astype_str (BANK_ID p)) = Some bank_id)) as [Hb|Hb].
  - rewrite filter_cons. cbn [normalize_pac FORETAKSNR].
    destruct (decide (Some (zfill 11 (astype_str (FORETAKSNR p))) = Some k)) as [Hf|Hf].
    + rewrite decide_True by (split; congruence). rewrite fmap_cons, IH. reflexivity.
    + rewrite decide_False by (intros [_ H]; congruence). exact IH.
  - rewrite decide_False by (intros [H _]; congruence). exact IH.
Qed.

Lemma avtale_string_normalize (group : list PacRow) :
  avtale_string (normalize_pac <$> group) = avtale_string group.
Proof. unfold avtale_string. rewrite <- list_fmap_compose. reflexivity. Qed.

Lemma users_string_normalize (group : list PacRow) :
  users_string (normalize_pac <$> group) = users_string group.
Proof. unfold users_string. rewrite <- list_fmap_compose. reflexivity. Qed.

Lemma pac_lookup_matched f (pac_subset : list PacRow) (k : string) :
  (∃ p, p ∈ pac_subset ∧ FORETAKSNR p = Some k) →
  pac_lookup f pac_subset !! k
  = Some (f (filter (λ p, FORETAKSNR p = Some k) pac_subset)).
Proof.
  intros (p & Hp & Hk). unfold pac_lookup. apply elem_of_list_to_map_1.
  - rewrite <- list_fmap_compose.
    rewrite (list_fmap_ext _ id (foretak_keys pac_subset)) by (intros; reflexivity).
    rewrite list_fmap_id. unfold foretak_keys. rewrite merge_sort_Permutation.
    apply NoDup_remove_dups.
  - apply list_elem_of_fmap. exists k. split; [reflexivity|].
    unfold foretak_keys. rewrite merge_sort_Permutation, elem_of_remove_dups.
    apply list_elem_of_omap. exists p. split; assumption.
Qed.

(** Property X20. A customer whose number equals the zero-padded organization
    number of lookup rows of the bank gets, in the two derived columns, the
    agreement identifiers of those rows, distinct, sorted and joined by a bar,
    and their person:role pairs in the order of the lookup file. *)
Theorem enrich_matched_customer
    (df : DataFrame) (bank_id : string) (pac_file : list PacRow)
    (i : nat) (r : gmap string string) (k : string) :
  "Kundenummer" ∈ columns df →
  rows df !! i = Some r →
  r !! "Kundenummer" = Some k →
  pac_group bank_id k pac_file ≠ [] →
  ∃ out (r' : gmap string string),
    enrich_with_pac_data df bank_id pac_file = Ok out
    ∧ rows out !! i = Some r'
    ∧ r' !! "AVTALE_IDs"
      = Some (join "|" (merge_sort String.le
                          (remove_dups ((λ p, astype_str (AVTALE_ID p))
                                          <$> pac_group bank_id k pac_file))))
    ∧ r' !! "Users_PERSONNR:BRUKERTYPE"
      = Some (join "|" ((λ p, astype_str (PERSONNR p) +:+ ":" +:+ astype_str (BRUKERTYPE p))
                          <$> pac_group bank_id k pac_file)).
Proof.
  intros Hkey Hi Hk Hgroup.
  destruct (pac_group bank_id k pac_file) as [|p0 g] eqn:Hg; [contradiction|].
  assert (Hp0 : p0 ∈ pac_group bank_id k pac_file) by (rewrite Hg; apply list_elem_of_here).
  apply list_elem_of_filter in Hp0 as [[Hb Hf] Hin].
  unfold enrich_with_pac_data.
  rewrite decide_False.
  2:{ intros Hn. apply Hn, pac_bank_elem. exists p0. split; assumption. }
  rewrite decide_True by exact Hkey.
  set (subset := filter (λ p, BANK_ID p = Some bank_id) (normalize_pac <$> pac_file)).
  assert (Hex : ∃ p, p ∈ subset ∧ FORETAKSNR p = Some k).
  { exists (normalize_pac p0). split; [|cbn; congruence].
    apply list_elem_of_filter. split; [cbn; congruence|].
    apply list_elem_of_fmap. exists p0. split; [reflexivity|exact Hin]. }
  assert (Hgroup' : filter (λ p, FORETAKSNR p = Some k) subset = normalize_pac <$> (p0 :: g)).
  { unfold subset. rewrite normalized_group, Hg. reflexivity. }
  eexists _, _. split; [reflexivity|]. unfold set_column_with. cbn [rows].
  rewrite !list_lookup_fmap, Hi. cbn [fmap option_fmap option_map].
  split; [reflexivity|]. split.
  - rewrite lookup_insert_ne by discriminate. rewrite lookup_insert_eq.
    unfold map_lookup. rewrite Hk. cbn [mbind option_bind].
    rewrite (pac_lookup_matched _ _ _ Hex), Hgroup', avtale_string_normalize. reflexivity.
  - rewrite lookup_insert_eq. unfold map_lookup.
    rewrite lookup_insert_ne by discriminate. rewrite Hk. cbn [mbind option_bind].
    rewrite (pac_lookup_matched _ _ _ Hex), Hgroup', users_string_normalize. reflexivity.
Qed.

Lemma enrich_matched_customer_witness :
  ∃ out (r' : gmap string string),
    enrich_with_pac_data sample_customers "1234" sample_pac = Ok out
    ∧ rows out !! 0 = Some r'
    ∧ r' !! "AVTALE_IDs" = Some "A7"
    ∧ r' !! "Users_PERSONNR:BRUKERTYPE" = Some "01019012345:ADMIN".
Proof.
  destruct (enrich_matched_customer sample_customers "1234" sample_pac 0
              (row_of [("Kundenummer", "00000000123"); ("RETAIL", "J")]) "00000000123")
    as (out & r' & Hout & Hr & Ha & Hu).
  - apply (bool_decide_unpack _). vm_compute. exact I.
  - reflexivity.
  - vm_compute. reflexivity.
  - vm_compute. discriminate.
  - exists out, r'. split; [exact Hout|]. split; [exact Hr|]. split.
    + rewrite Ha. vm_compute. reflexivity.
    + rewrite Hu. vm_compute. reflexivity.
Defined.

(** Property X21. For a lookup table that has been read: when the bank has
    lookup rows and the table has no Kundenummer column, the enrichment
    raises KeyError('Kundenummer').  When the enrichment succeeds it keeps
    the rows in place and the columns in order, appends at most the two
    derived columns, and changes no cell of any other column. *)
Theorem enrich_changes_only_derived_columns
    (df : DataFrame) (bank_id : string) (pac_file : list PacRow) :
  ((∃ p, p ∈ pac_file ∧ astype_str (BANK_ID p) = bank_id) →
   "Kundenummer" ∉ columns df →
   enrich_with_pac_data df bank_id pac_file = Raise (Exn "KeyError" "'Kundenummer'"))
  ∧ ∀ out,
      enrich_with_pac_data df bank_id pac_file = Ok out →
      length (rows out) = length (rows df)
      ∧ (∃ extra, columns out = columns df ++ extra
                  ∧ ∀ c, c ∈ extra → c = "AVTALE_IDs" ∨ c = "Users_PERSONNR:BRUKERTYPE")
      ∧ ∀ i (r : gmap string string),
          rows df !! i = Some r →
          ∃ r' : gmap string string,
            rows out !! i = Some r'
            ∧ ∀ c, c ≠ "AVTALE_IDs" → c ≠ "Users_PERSONNR:BRUKERTYPE" → r' !! c = r !! c.
Proof.
  unfold enrich_with_pac_data.
  destruct (decide (Some bank_id ∉ BANK_ID <$> (normalize_pac <$> pac_file))) as [Habs|Hpres].
  - split.
    + intros Hp _. exfalso. apply Habs, pac_bank_elem, Hp.
    + intros out [= <-]. split; [reflexivity|]. split.
      * exists []. split; [rewrite app_nil_r; reflexivity|].
        intros c Hc. apply not_elem_of_nil in Hc. contradiction.
      * intros i r Hi. exists r. split; [exact Hi|]. reflexivity.
  - destruct (decide ("Kundenummer" ∈ columns df)) as [Hkey|Hkey].
    + split.
      * intros _ Hn. contradiction.
      * intros out [= <-]. unfold set_column_with. cbn [rows columns].
        split; [rewrite !length_fmap; reflexivity|]. split.
        -- destruct (decide ("AVTALE_IDs" ∈ columns df)) as [Ha|Ha].
           ++ destruct (decide ("Users_PERSONNR:BRUKERTYPE" ∈ columns df)) as [Hu|Hu].
              ** exists []. split; [rewrite app_nil_r; reflexivity|].
                 intros c Hc. apply not_elem_of_nil in Hc. contradiction.
              ** exists ["Users_PERSONNR:BRUKERTYPE"]. split; [reflexivity|].
                 intros c ->%list_elem_of_singleton. right. reflexivity.
           ++ destruct (decide ("Users_PERSONNR:BRUKERTYPE" ∈ columns df ++ ["AVTALE_IDs"]))
                as [Hu|Hu].
              ** exists ["AVTALE_IDs"]. split; [reflexivity|].
                 intros c ->%list_elem_of_singleton. left. reflexivity.
              ** exists ["AVTALE_IDs"; "Users_PERSONNR:BRUKERTYPE"].
                 split; [rewrite <- app_assoc; reflexivity|].
                 intros c Hc. apply elem_of_cons in Hc as [->|Hc]; [left; reflexivity|].
                 apply list_elem_of_singleton in Hc as ->. right. reflexivity.
        -- intros i r Hi. rewrite !list_lookup_fmap, Hi. cbn [fmap option_fmap option_map].
           eexists. split; [reflexivity|]. intros c Hca Hcu.
           rewrite !lookup_insert_ne by congruence. reflexivity.
    + split; [reflexivity|]. intros out H. discriminate H.
Qed.

(** ** Enricher: the rows of other banks *)

Lemma normalize_filter_bank bank_id (pac_file : list PacRow) :
  filter (λ p, BANK_ID p = Some bank_id)
         (normalize_pac <$> filter (λ p, astype_str (BANK_ID p) = bank_id) pac_file)
  = filter (λ p, BANK_ID p = Some bank_id) (normalize_pac <$> pac_file).
Proof.
  induction pac_file as [|p l IH]; [reflexivity|].
  rewrite fmap_cons, !filter_cons. cbn [normalize_pac BANK_ID].
  destruct (decide (astype_str (BANK_ID p) = bank_id)) as [Hb|Hb].
  - rewrite fmap_cons, filter_cons. cbn [normalize_pac BANK_ID].
    rewrite !decide_True by congruence. rewrite IH. reflexivity.
  - rewrite decide_False by congruence. exact IH.
Qed.

(** Property X22. The enrichment of a bank's table depends only on the lookup
    rows of that bank: the rows of other banks can be removed from the lookup
    file without changing the result. *)
Theorem enrich_ignores_other_banks
    (df : DataFrame) (bank_id : string) (pac_file : list PacRow) :
  enrich_with_pac_data df bank_id pac_file
  = enrich_with_pac_data df bank_id
      (filter (λ p, astype_str (BANK_ID p) = bank_id) pac_file).
Proof.
  unfold enrich_with_pac_data. rewrite normalize_filter_bank.
  assert (Hiff : Some bank_id ∈ BANK_ID <$> (normalize_pac <$> pac_file)
                 ↔ Some bank_id
                   ∈ BANK_ID <$> (normalize_pac
                                    <$> filter (λ p, astype_str (BANK_ID p) = bank_id) pac_file)).
  { rewrite !pac_bank_elem. split.
    - intros (p & Hp & Hb). exists p. split; [|exact Hb].
      apply list_elem_of_filter. split; assumption.
    - intros (p & [_ Hp]%list_elem_of_filter & Hb). exists p. split; assumption. }
  destruct (decide (Some bank_id ∉ BANK_ID <$> (normalize_pac <$> pac_file))) as [Ha|Hp],
           (decide (Some bank_id
                    ∉ BANK_ID <$> (normalize_pac
                                     <$> filter (λ p, astype_str (BANK_ID p) = bank_id)
                                                pac_file))) as [Ha'|Hp'];
    try reflexivity.
  - exfalso. apply Hp'. intros Hin. apply Ha, Hiff, Hin.
  - exfalso. apply Hp. intros Hin. apply Ha', Hiff, Hin.
Qed.

(** ** The two flows *)

Lemma run_pm_flow_other sort_values read_csv bank_id base_dir bank_files report other :
  other ≠ bank_id →
  (run_pm_flow sort_values read_csv bank_id base_dir bank_files report).2 !! other
  = report !! other.
Proof.
  intros Hne. unfold run_pm_flow.
  destruct (decide (pm_files bank_files bank_id = [])); [reflexivity|].
  pose proof (process_files_report read_csv base_dir bank_id (pm_files bank_files bank_id)
                empty_frame report) as H.
  cbv zeta in H. destruct H as (_ & _ & _ & _ & _ & H). specialize (H other Hne).
  unfold process_csv_files_for_bank.
  destruct (fold_left _ _ _) as [m r]. cbn [snd] in H.
  destruct (merge_grouped_duplicates sort_values m "Kundenummer") as [out|e]; [|exact H].
  unfold summarize_dataset. cbn [snd]. rewrite report_lookup_update_ne by exact Hne. exact H.
Qed.

Lemma run_bm_flow_other sort_values read_csv bank_id base_dir bank_files pac_file report other :
  other ≠ bank_id →
  (run_bm_flow sort_values read_csv bank_id base_dir bank_files pac_file report).2 !! other
  = report !! other.
Proof.
  intros Hne. unfold run_bm_flow.
  destruct (decide (bm_files bank_files bank_id = [])); [reflexivity|].
  pose proof (process_files_report read_csv base_dir bank_id (bm_files bank_files bank_id)
                empty_frame report) as H.
  cbv zeta in H. destruct H as (_ & _ & _ & _ & _ & H). specialize (H other Hne).
  unfold process_csv_files_for_bank.
  destruct (fold_left _ _ _) as [m r]. cbn [snd] in H.
  destruct (merge_grouped_duplicates sort_values m "Kundenummer") as [out|e]; [|exact H].
  destruct (enrich_with_pac_data out bank_id pac_file) as [out'|e]; [|exact H].
  unfold summarize_dataset. cbn [snd]. rewrite report_lookup_update_ne by exact Hne. exact H.
Qed.

Lemma all_skipped read_csv directory bank_id file_list :
  (∀ f, f ∈ file_list → yields_zero_rows (read_csv (os_path_join directory f))) →
  ∀ merged_df report,
    (fold_left (process_file read_csv directory bank_id) file_list (merged_df, report)).1
    = merged_df
    ∧ filter (λ f, is_missing_file (read_csv (os_path_join directory f)) = true) file_list
      = file_list
    ∧ omap (λ f, merged_label (read_csv (os_path_join directory f))) file_list = []
    ∧ filter (λ f, is_error_file (read_csv (os_path_join directory f)) = true) file_list = [].
Proof.
  induction file_list as [|f l IH]; intros Hzero merged_df report.
  - repeat split.
  - assert (Hf : yields_zero_rows (read_csv (os_path_join directory f))).
    { apply Hzero, list_elem_of_here. }
    cbn [fold_left]. rewrite (process_file_zero_rows _ _ _ _ _ _ Hf).
    destruct (IH (λ x Hx, Hzero x (list_elem_of_further _ _ _ Hx)) merged_df
                (report_update (add_missing f) bank_id report)) as (H1 & H2 & H3 & H4).
    split; [exact H1|]. rewrite omap_cons, !filter_cons, H2, H3, H4.
    destruct (prepare_zero_rows _ Hf) as (e & Hp & He).
    unfold merged_label, is_missing_file, is_error_file.
    rewrite file_outcome_prepare, Hp, He. cbn [negb].
    rewrite decide_True by reflexivity. rewrite decide_False by discriminate.
    repeat split.
Qed.

(** Property X23. When every file of a bank yields zero rows, each flow that
    has files fails with KeyError('Kundenummer'), raised by the reconciler on
    the empty merged table; the files are recorded as missing and no
    statistics are recorded for the bank. *)
Theorem flow_without_data_fails
    (sort_values : string → list (gmap string string) → list (gmap string string))
    (read_csv : string → result DataFrame) (bank_id base_dir : string)
    (bank_files : FileSetIndex) (pac_file : list PacRow)
    (report : gmap string BankSummary) :
  (∀ f, f ∈ default [] (dict_get bank_id bank_files) →
        yields_zero_rows (read_csv (os_path_join base_dir f))) →
  let pm := run_pm_flow sort_values read_csv bank_id base_dir bank_files report in
  let bm := run_bm_flow sort_values read_csv bank_id base_dir bank_files pac_file report in
  let before := report_get report bank_id in
  (pm_files bank_files bank_id ≠ [] →
   pm.1 = Raise (Exn "KeyError" "'Kundenummer'")
   ∧ missing (report_get pm.2 bank_id) = missing before ++ pm_files bank_files bank_id
   ∧ merged (report_get pm.2 bank_id) = merged before
   ∧ errors (report_get pm.2 bank_id) = errors before
   ∧ stats (report_get pm.2 bank_id) = stats before)
  ∧ (bm_files bank_files bank_id ≠ [] →
     bm.1 = Raise (Exn "KeyError" "'Kundenummer'")
     ∧ missing (report_get bm.2 bank_id) = missing before ++ bm_files bank_files bank_id
     ∧ merged (report_get bm.2 bank_id) = merged before
     ∧ errors (report_get bm.2 bank_id) = errors before
     ∧ stats (report_get bm.2 bank_id) = stats before).
Proof.
  intros Hzero. cbv zeta.
  assert (Hgen : ∀ files,
            (∀ f, f ∈ files → f ∈ default [] (dict_get bank_id bank_files)) →
            let out := process_csv_files_for_bank read_csv base_dir files bank_id report in
            out.1 = empty_frame
            ∧ missing (report_get out.2 bank_id) = missing (report_get report bank_id) ++ files
            ∧ merged (report_get out.2 bank_id) = merged (report_get report bank_id)
            ∧ errors (report_get out.2 bank_id) = errors (report_get report bank_id)
            ∧ stats (report_get out.2 bank_id) = stats (report_get report bank_id)).
  { intros files Hsub. cbv zeta. unfold process_csv_files_for_bank.
    destruct (all_skipped read_csv base_dir bank_id files
                (λ f Hf, Hzero f (Hsub f Hf)) empty_frame report) as (H1 & H2 & H3 & H4).
    pose proof (process_files_report read_csv base_dir bank_id files empty_frame report) as H.
    cbv zeta in H. destruct H as (Hm & Hmi & He & _ & Hs & _).
    rewrite H2 in Hmi. rewrite H3, app_nil_r in Hm. rewrite H4, app_nil_r in He.
    split; [exact H1|]. split; [exact Hmi|]. split; [exact Hm|]. split; [exact He|exact Hs]. }
  split.
  - intros Hne. unfold run_pm_flow. rewrite decide_False by exact Hne.
    destruct (Hgen (pm_files bank_files bank_id)) as (H1 & H2).
    { intros f [_ Hf]%list_elem_of_filter. exact Hf. }
    destruct (process_csv_files_for_bank read_csv base_dir (pm_files bank_files bank_id)
                bank_id report) as [m r].
    cbn [fst snd] in H1, H2. subst m. split; [reflexivity|exact H2].
  - intros Hne. unfold run_bm_flow. rewrite decide_False by exact Hne.
    destruct (Hgen (bm_files bank_files bank_id)) as (H1 & H2).
    { intros f [_ Hf]%list_elem_of_filter. exact Hf. }
    destruct (process_csv_files_for_bank read_csv base_dir (bm_files bank_files bank_id)
                bank_id report) as [m r].
    cbn [fst snd] in H1, H2. subst m. split; [reflexivity|exact H2].
Qed.

Lemma flow_without_data_fails_witness :
  (run_pm_flow stable_sort_values sample_dir "1234" "in" [("1234", ["EMPTY.CSV"])] ∅).1
  = Raise (Exn "KeyError" "'Kundenummer'").
Proof.
  refine (proj1 (proj1 (flow_without_data_fails stable_sort_values sample_dir "1234" "in"
                          [("1234", ["EMPTY.CSV"])] [] ∅ _) _)).
  - intros f Hf. apply list_elem_of_singleton in Hf as ->.
    left. eexists. split; [vm_compute; reflexivity|reflexivity].
  - vm_compute. discriminate.
Defined.

(** Property X24. When the PM flow of a bank succeeds, the table it writes has
    the columns of the merged table and one row for each distinct customer key
    of it, and the statistics recorded for the bank give that number as the
    total of rows; the row counts of categories cover every row. *)
Theorem pm_flow_records_customers
    (sort_values : string → list (gmap string string) → list (gmap string string))
    (read_csv : string → result DataFrame) (bank_id base_dir : string)
    (bank_files : FileSetIndex) (report report' : gmap string BankSummary)
    (out : DataFrame) (counts : list nat) :
  (∀ key rs, sort_values key rs ≡ₚ rs) →
  run_pm_flow sort_values read_csv bank_id base_dir bank_files report
  = (Ok (Some (out, counts)), report') →
  let merged_df :=
    (process_csv_files_for_bank read_csv base_dir (pm_files bank_files bank_id)
       bank_id report).1 in
  columns out = columns merged_df
  ∧ "Kundenummer" ∈ columns out
  ∧ len out = length (group_keys "Kundenummer" (rows merged_df))
  ∧ len out ≤ len merged_df
  ∧ length counts = len out
  ∧ ∃ st, stats (report_get report' bank_id) = Some st
          ∧ total_rows st = len out
          ∧ total_columns st = length (columns merged_df).
Proof.
  intros Hperm Hrun. cbv zeta. unfold run_pm_flow in Hrun.
  destruct (decide (pm_files bank_files bank_id = [])); [discriminate|].
  destruct (process_csv_files_for_bank read_csv base_dir (pm_files bank_files bank_id)
              bank_id report) as [m r].
  cbn [fst]. unfold merge_grouped_duplicates in Hrun.
  destruct (decide ("Kundenummer" ∈ columns m)) as [Hkey|]; [|discriminate].
  unfold summarize_dataset in Hrun. injection Hrun as <- <- <-.
  assert (Hlen : ∀ f : string → gmap string string,
            length (f <$> group_keys "Kundenummer" (sort_values "Kundenummer" (rows m)))
            = length (group_keys "Kundenummer" (rows m))).
  { intros f. rewrite length_fmap, (group_keys_perm _ _ _ (Hperm "Kundenummer" (rows m))).
    reflexivity. }
  unfold len, category_count. cbn [columns rows].
  split; [reflexivity|]. split; [exact Hkey|].
  split; [apply Hlen|]. split; [rewrite Hlen; apply length_group_keys|].
  split; [apply length_fmap|].
  rewrite report_get_update. eexists. split; [reflexivity|]. cbn [total_rows total_columns].
  unfold len. cbn [rows columns]. split; reflexivity.
Qed.

Lemma pm_flow_records_customers_witness :
  len scenario_written.1
  = length (group_keys "Kundenummer"
              (rows (process_csv_files_for_bank sample_dir "in"
                       (pm_files [("1234", ["X.B1234.A.CSV"; "X.B1234.B.CSV"])] "1234")
                       "1234" ∅).1)).
Proof.
  refine (proj1 (proj2 (proj2 (pm_flow_records_customers stable_sort_values sample_dir
                                 "1234" "in" [("1234", ["X.B1234.A.CSV"; "X.B1234.B.CSV"])]
                                 ∅ scenario_run.2 scenario_written.1 scenario_written.2
                                 stable_sort_values_perm _)))).
  vm_compute. reflexivity.
Defined.

(** ** The orchestrator *)

Section Main.
Variable sort_values : string → list (gmap string string) → list (gmap string string).
Variable read_csv : string → result DataFrame.
Variable pac_file : list PacRow.
Variable base_dir : string.
Variable only_bank : option string.
Variable skip_pm : bool.
Variable skip_bm : bool.
Variable bank_files : FileSetIndex.

Lemma try_flow_spec skip bank_id fl run st :
  (∀ report other, other ≠ bank_id → (run report).2 !! other = report !! other) →
  (∃ x, written_tags (try_flow skip bank_id fl run st).1 = written_tags st.1 ++ x
        ∧ x `sublist_of` (if skip then [] else [(bank_id, fl)]))
  ∧ (∀ other, other ≠ bank_id → (try_flow skip bank_id fl run st).2 !! other = st.2 !! other)
  ∧ (skip = true → try_flow skip bank_id fl run st = st).
Proof.
  intros Hother. unfold try_flow. destruct skip.
  - split; [exists []; split; [rewrite app_nil_r; reflexivity|apply sublist_nil_l]|].
    split; [reflexivity|reflexivity].
  - specialize (Hother st.2). destruct (run st.2) as [[[table|]|e] report]; cbn [fst snd] in *.
    + split; [|split; [exact Hother|discriminate]].
      exists [(bank_id, fl)]. split; [|reflexivity].
      unfold written_tags. rewrite fmap_app. reflexivity.
    + split; [|split; [exact Hother|discriminate]].
      exists []. split; [rewrite app_nil_r; reflexivity|apply sublist_nil_l].
    + split; [|split; [exact Hother|discriminate]].
      exists []. split; [rewrite app_nil_r; reflexivity|apply sublist_nil_l].
Qed.

Lemma main_bank_spec st bank_id :
  let st' := main_bank sort_values read_csv pac_file base_dir only_bank skip_pm skip_bm
               bank_files st bank_id in
  (∃ x, written_tags st'.1 = written_tags st.1 ++ x
        ∧ x `sublist_of` flows_to_run only_bank skip_pm skip_bm bank_id)
  ∧ (∀ other, other ≠ bank_id → st'.2 !! other = st.2 !! other)
  ∧ (flows_to_run only_bank skip_pm skip_bm bank_id = [] → st' = st).
Proof.
  cbv zeta. unfold main_bank, flows_to_run.
  destruct (selected only_bank bank_id).
  2:{ split; [exists []; split; [rewrite app_nil_r; reflexivity|apply sublist_nil_l]|].
      split; reflexivity. }
  set (pm := run_pm_flow sort_values read_csv bank_id base_dir bank_files).
  set (bm := run_bm_flow sort_values read_csv bank_id base_dir bank_files pac_file).
  destruct (try_flow_spec skip_pm bank_id PM pm st) as ((x1 & Hx1 & Hs1) & Ho1 & Hk1).
  { intros report other Hne. apply run_pm_flow_other, Hne. }
  destruct (try_flow_spec skip_bm bank_id BM bm (try_flow skip_pm bank_id PM pm st))
    as ((x2 & Hx2 & Hs2) & Ho2 & Hk2).
  { intros report other Hne. apply run_bm_flow_other, Hne. }
  split; [|split].
  - exists (x1 ++ x2). rewrite Hx2, Hx1, <- app_assoc. split; [reflexivity|].
    apply sublist_app; assumption.
  - intros other Hne. rewrite Ho2, Ho1 by exact Hne. reflexivity.
  - intros Hnil. apply app_eq_nil in Hnil as [H1 H2].
    destruct skip_pm; [|discriminate]. destruct skip_bm; [|discriminate].
    rewrite Hk2, Hk1; reflexivity.
Qed.

Lemma main_loop_spec banks :
  ∀ st,
    let st' := fold_left (main_bank sort_values read_csv pac_file base_dir only_bank
                            skip_pm skip_bm bank_files) banks st in
    (∃ x, written_tags st'.1 = written_tags st.1 ++ x
          ∧ x `sublist_of` List.concat (flows_to_run only_bank skip_pm skip_bm <$> banks))
    ∧ (∀ b, b ∉ banks ∨ flows_to_run only_bank skip_pm skip_bm b = [] →
            st'.2 !! b = st.2 !! b).
Proof.
  induction banks as [|bank_id banks IH]; intros st; cbv zeta.
  - cbn [fold_left]. split; [|reflexivity].
    exists []. split; [rewrite app_nil_r; reflexivity|apply sublist_nil_l].
  - cbn [fold_left]. rewrite fmap_cons. cbn [List.concat].
    destruct (main_bank_spec st bank_id) as ((x1 & Hx1 & Hs1) & Ho1 & Hk1). cbv zeta in *.
    destruct (IH (main_bank sort_values read_csv pac_file base_dir only_bank skip_pm skip_bm
                    bank_files st bank_id)) as ((x2 & Hx2 & Hs2) & Ho2).
    cbv zeta in *. split.
    + exists (x1 ++ x2). rewrite Hx2, Hx1, <- app_assoc. split; [reflexivity|].
      apply sublist_app; assumption.
    + intros b Hb. rewrite Ho2.
      2:{ destruct Hb as [Hb|Hb]; [left|right; exact Hb].
          intros Hin. apply Hb, list_elem_of_further, Hin. }
      destruct (decide (b = bank_id)) as [->|Hne]; [|apply Ho1, Hne].
      destruct Hb as [Hb|Hb]; [exfalso; apply Hb, list_elem_of_here|].
      rewrite (Hk1 Hb). reflexivity.
Qed.

End Main.

Lemma single_key_index (d : FileSetIndex) b :
  NoDup d.*1 → (∀ k, k ∈ d.*1 → k = b) → b ∈ d.*1 → ∃ files, d = [(b, files)].
Proof.
  intros Hnd Hall Hin. destruct d as [|[k files] rest].
  - apply not_elem_of_nil in Hin. contradiction.
  - assert (k = b) as -> by (apply Hall, list_elem_of_here).
    destruct rest as [|[k' files'] rest]; [exists files; reflexivity|]. exfalso.
    assert (k' = b) as -> by (apply Hall, list_elem_of_further, list_elem_of_here).
    apply NoDup_cons in Hnd as [Hnd _]. apply Hnd, list_elem_of_here.
Qed.

Lemma check_single_bank b files : check_bank_file_consistency [(b, files)] = Ok tt.
Proof.
  unfold check_bank_file_consistency. cbn [dict_get].
  destruct (decide (b = b)) as [_|Hne]; [|contradiction]. cbn [default check_banks].
  unfold id.
  destruct (decide (shape_keys files ≠ shape_keys files)) as [Hne|_]; [|reflexivity].
  exfalso. apply Hne. reflexivity.
Qed.

(** Property X25. The exit status of a run is decided by the scan and the
    consistency check alone: it is 0 when both succeed and 1 otherwise,
    whatever the flows of the banks do. A run that ends with 1 has written
    nothing. A directory without any bank-coded name ends with 1, a directory
    whose coded names all carry one bank code with 0. *)
Theorem main_exit_status
    (sort_values : string → list (gmap string string) → list (gmap string string))
    (listdir : string → result (list string))
    (read_csv : string → result DataFrame) (pac_file : list PacRow)
    (base_dir : string) (only_bank : option string) (skip_pm skip_bm : bool) :
  let run := main sort_values listdir read_csv pac_file base_dir only_bank skip_pm skip_bm in
  (exit_code run = 0
   ↔ ∃ listing, listdir base_dir = Ok listing
                ∧ check_bank_file_consistency (scan_bank_files listing) = Ok tt)
  ∧ (exit_code run ≠ 0 → exit_code run = 1 ∧ written run = [] ∧ final_report run = ∅)
  ∧ (∀ listing,
       listdir base_dir = Ok listing →
       (∀ f, f ∈ listing → find_bank_id f = None) →
       exit_code run = 1)
  ∧ (∀ listing bank_id,
       listdir base_dir = Ok listing →
       (∀ f, f ∈ listing → find_bank_id f = None ∨ find_bank_id f = Some bank_id) →
       (∃ f, f ∈ listing ∧ find_bank_id f = Some bank_id) →
       exit_code run = 0).
Proof.
  cbv zeta. unfold main. destruct (listdir base_dir) as [listing|e].
  2:{ cbn [exit_code written final_report]. split.
      - split; [discriminate|]. intros (l & H & _). discriminate H.
      - split; [intros _; repeat split|]. split; intros; discriminate. }
  destruct (check_bank_file_consistency (scan_bank_files listing)) as [[]|e] eqn:Hcheck.
  - cbn [exit_code]. split.
    + split; [|reflexivity]. intros _. exists listing. split; [reflexivity|exact Hcheck].
    + split; [intros H; contradiction|]. split; [|reflexivity].
      intros l [= <-] Hnone. exfalso.
      assert (Hnil : scan_bank_files listing = []).
      { destruct (scan_bank_files listing) as [|[k files] rest] eqn:Hs; [reflexivity|].
        exfalso. assert (Hk : k ∈ (scan_bank_files listing).*1).
        { rewrite Hs. apply list_elem_of_here. }
        apply elem_of_scan_keys in Hk as (f & Hf & Hb). rewrite (Hnone f Hf) in Hb.
        discriminate. }
      rewrite Hnil in Hcheck. discriminate Hcheck.
  - cbn [exit_code written final_report]. split.
    + split; [discriminate|]. intros (l & [= <-] & H). rewrite Hcheck in H. discriminate.
    + split; [intros _; repeat split|]. split; [reflexivity|].
      intros l b [= <-] Hall (f & Hf & Hb). exfalso.
      destruct (single_key_index (scan_bank_files listing) b) as [files Hs].
      * apply (proj1 (scan_fold listing [] (NoDup_nil_2))).
      * intros k Hk. apply elem_of_scan_keys in Hk as (f' & Hf' & Hk).
        destruct (Hall f' Hf') as [H|H]; congruence.
      * apply elem_of_scan_keys. exists f. split; assumption.
      * rewrite Hs, check_single_bank in Hcheck. discriminate.
Qed.

(** Property X26. A run records something in the summary only for banks that
    have files in the directory, that the --only-bank option selects, and for
    which not both flows are skipped. *)
Theorem main_touches_only_selected_banks
    (sort_values : string → list (gmap string string) → list (gmap string string))
    (listdir : string → result (list string))
    (read_csv : string → result DataFrame) (pac_file : list PacRow)
    (base_dir : string) (only_bank : option string) (skip_pm skip_bm : bool)
    (bank_id : string) :
  let run := main sort_values listdir read_csv pac_file base_dir only_bank skip_pm skip_bm in
  is_Some (final_report run !! bank_id) →
  selected only_bank bank_id = true
  ∧ (skip_pm = false ∨ skip_bm = false)
  ∧ ∃ listing f, listdir base_dir = Ok listing ∧ f ∈ listing
                 ∧ find_bank_id f = Some bank_id.
Proof.
  cbv zeta. unfold main. destruct (listdir base_dir) as [listing|e].
  2:{ cbn [final_report]. rewrite lookup_empty. intros [x H]. discriminate. }
  destruct (check_bank_file_consistency (scan_bank_files listing)) as [[]|e].
  2:{ cbn [final_report]. rewrite lookup_empty. intros [x H]. discriminate. }
  cbn [final_report]. intros Hsome.
  destruct (main_loop_spec sort_values read_csv pac_file base_dir only_bank skip_pm skip_bm
              (scan_bank_files listing) (merge_sort String.le (scan_bank_files listing).*1)
              ([], ∅)) as [_ Hrep].
  cbv zeta in Hrep. specialize (Hrep bank_id).
  destruct (decide (bank_id ∈ merge_sort String.le (scan_bank_files listing).*1)) as [Hin|Hnin].
  2:{ rewrite Hrep in Hsome by (left; exact Hnin). cbn [snd] in Hsome.
      rewrite lookup_empty in Hsome. destruct Hsome as [x H]. discriminate. }
  destruct (flows_to_run only_bank skip_pm skip_bm bank_id) as [|t ts] eqn:Hflows.
  { rewrite Hrep in Hsome by (right; reflexivity). cbn [snd] in Hsome.
    rewrite lookup_empty in Hsome. destruct Hsome as [x H]. discriminate. }
  unfold flows_to_run in Hflows.
  destruct (selected only_bank bank_id); [|discriminate]. split; [reflexivity|]. split.
  - destruct skip_pm; [|left; reflexivity]. destruct skip_bm; [discriminate|right; reflexivity].
  - rewrite merge_sort_Permutation in Hin. apply elem_of_scan_keys in Hin as (f & Hf & Hb).
    exists listing, f. split; [reflexivity|]. split; assumption.
Qed.

Lemma main_touches_only_selected_banks_witness :
  selected None "1234" = true
  ∧ (false = false ∨ false = false)
  ∧ ∃ listing f, sample_listdir "in" = Ok listing ∧ f ∈ listing
                 ∧ find_bank_id f = Some "1234".
Proof.
  apply (main_touches_only_selected_banks stable_sort_values sample_listdir sample_dir []
           "in" None false false "1234").
  apply (bool_decide_unpack _). vm_compute. exact I.
Defined.

(** Property X27. A run writes at most one table for each bank and flow, in
    ascending order of the bank codes and the PM table of a bank before its BM
    table; it writes none for a bank that --only-bank leaves out and none for
    a skipped flow. *)
Theorem main_writes_in_bank_order
    (sort_values : string → list (gmap string string) → list (gmap string string))
    (listdir : string → result (list string))
    (read_csv : string → result DataFrame) (pac_file : list PacRow)
    (base_dir : string) (only_bank : option string) (skip_pm skip_bm : bool) :
  let run := main sort_values listdir read_csv pac_file base_dir only_bank skip_pm skip_bm in
  match listdir base_dir with
  | Ok listing =>
      let banks := merge_sort String.le (scan_bank_files listing).*1 in
      Sorted String.le banks
      ∧ NoDup banks
      ∧ written_tags (written run)
        `sublist_of` List.concat (flows_to_run only_bank skip_pm skip_bm <$> banks)
  | Raise _ => written run = []
  end.
Proof.
  cbv zeta. unfold main. destruct (listdir base_dir) as [listing|e]; [|reflexivity].
  split; [apply Sorted_merge_sort; apply _|]. split.
  { rewrite merge_sort_Permutation. apply (proj1 (scan_fold listing [] (NoDup_nil_2))). }
  destruct (check_bank_file_consistency (scan_bank_files listing)) as [[]|e].
  2:{ apply sublist_nil_l. }
  cbn [written].
  destruct (main_loop_spec sort_values read_csv pac_file base_dir only_bank skip_pm skip_bm
              (scan_bank_files listing) (merge_sort String.le (scan_bank_files listing).*1)
              ([], ∅)) as [(x & Hx & Hsub) _].
  cbv zeta in Hx. rewrite Hx. exact Hsub.
Qed.

(** ** ConsistencyChecker on a scanned directory *)

Lemma dict_get_Some_elem {V} (d : list (string * V)) b v :
  dict_get b d = Some v → (b, v) ∈ d.
Proof.
  induction d as [|[k w] rest IH]; [discriminate|]. cbn [dict_get].
  destruct (decide (k = b)) as [->|Hne].
  - intros [= ->]. apply list_elem_of_here.
  - intros H. apply list_elem_of_further, IH, H.
Qed.

Lemma elem_dict_get {V} (d : list (string * V)) b v :
  NoDup d.*1 → (b, v) ∈ d → dict_get b d = Some v.
Proof.
  induction d as [|[k w] rest IH]; intros Hnd Hin.
  - apply not_elem_of_nil in Hin. contradiction.
  - cbn [fmap list_fmap fst] in Hnd. change (list_fmap _ _ fst ?l) with (l.*1) in Hnd.
    apply NoDup_cons in Hnd as [Hk Hnd]. cbn [dict_get].
    apply elem_of_cons in Hin as [[= -> ->]|Hin].
    + rewrite decide_True by reflexivity. reflexivity.
    + rewrite decide_False; [apply IH; assumption|].
      intros ->. apply Hk. apply list_elem_of_fmap. exists (b, v). split; [reflexivity|exact Hin].
Qed.

Lemma check_scan_iff listing :
  check_bank_file_consistency (scan_bank_files listing) = Ok tt
  ↔ (∃ f, f ∈ listing ∧ is_Some (find_bank_id f))
    ∧ ∀ f1 f2 b1 b2,
        f1 ∈ listing → f2 ∈ listing →
        find_bank_id f1 = Some b1 → find_bank_id f2 = Some b2 →
        shape_keys (files_of_bank b1 listing) = shape_keys (files_of_bank b2 listing).
Proof.
  pose proof (proj1 (scan_fold listing [] (NoDup_nil_2))) as Hnd. cbv zeta in Hnd.
  fold (scan_bank_files listing) in Hnd.
  assert (Hentry : ∀ b files, (b, files) ∈ scan_bank_files listing →
            files = files_of_bank b listing ∧ ∃ f, f ∈ listing ∧ find_bank_id f = Some b).
  { intros b files Hin. pose proof (elem_dict_get _ _ _ Hnd Hin) as Hg.
    rewrite scan_bank_files_get in Hg.
    destruct (decide (files_of_bank b listing = [])); [discriminate|].
    injection Hg as <-. split; [reflexivity|]. apply elem_of_scan_keys.
    apply list_elem_of_fmap. exists (b, files_of_bank b listing). split; [reflexivity|exact Hin]. }
  assert (Hkey : ∀ b f, f ∈ listing → find_bank_id f = Some b →
            (b, files_of_bank b listing) ∈ scan_bank_files listing).
  { intros b f Hf Hb. apply dict_get_Some_elem. rewrite scan_bank_files_get.
    rewrite decide_False; [reflexivity|]. intros Hnil.
    assert (Hin : f ∈ files_of_bank b listing) by (apply list_elem_of_filter; split; assumption).
    rewrite Hnil in Hin. apply not_elem_of_nil in Hin. exact Hin. }
  destruct (scan_bank_files listing) as [|[k v] rest] eqn:Hs.
  - split; [discriminate|]. intros [(f & Hf & [b Hb]) _]. exfalso.
    specialize (Hkey b f Hf Hb). apply not_elem_of_nil in Hkey. exact Hkey.
  - unfold check_bank_file_consistency. cbn [dict_get].
    destruct (decide (k = k)) as [_|Hne]; [|contradiction]. cbn [default].
    rewrite check_banks_ok, Forall_forall.
    destruct (Hentry k v (list_elem_of_here _ _)) as [-> (fk & Hfk & Hbk)].
    split.
    + intros Hall. split; [exists fk; split; [exact Hfk|rewrite Hbk; eexists; reflexivity]|].
      intros f1 f2 b1 b2 Hf1 Hf2 Hb1 Hb2.
      pose proof (Hall _ (Hkey b1 f1 Hf1 Hb1)) as H1.
      pose proof (Hall _ (Hkey b2 f2 Hf2 Hb2)) as H2.
      unfold consistent_with in H1, H2. cbn [snd] in H1, H2. congruence.
    + intros [_ Hall] [b files] Hin. unfold consistent_with. cbn [snd].
      destruct (Hentry b files Hin) as [-> (f & Hf & Hb)].
      apply (Hall f fk b k); assumption.
Qed.

(** Property X5. On a scanned directory the consistency check passes exactly
    when some name carries a bank code and any two banks have the same set of
    masked names. Whether it passes does not depend on the order in which the
    directory lists its names. *)
Theorem scanned_directory_consistency (listing : list string) :
  (check_bank_file_consistency (scan_bank_files listing) = Ok tt
   ↔ (∃ f, f ∈ listing ∧ is_Some (find_bank_id f))
     ∧ ∀ f1 f2 b1 b2,
         f1 ∈ listing → f2 ∈ listing →
         find_bank_id f1 = Some b1 → find_bank_id f2 = Some b2 →
         shape_keys (filter (λ f, find_bank_id f = Some b1) listing)
         = shape_keys (filter (λ f, find_bank_id f = Some b2) listing))
  ∧ ∀ listing',
      listing ≡ₚ listing' →
      (check_bank_file_consistency (scan_bank_files listing) = Ok tt
       ↔ check_bank_file_consistency (scan_bank_files listing') = Ok tt).
Proof.
  split; [apply check_scan_iff|]. intros listing' Hperm. rewrite !check_scan_iff.
  assert (Hshape : ∀ b, shape_keys (files_of_bank b listing)
                        = shape_keys (files_of_bank b listing')).
  { intros b. unfold shape_keys, files_of_bank. apply list_to_set_perm_L.
    apply fmap_Permutation, filter_Permutation, Hperm. }
  split.
  - intros [(f & Hf & Hs) Hall]. split; [exists f; split; [rewrite <- Hperm; exact Hf|exact Hs]|].
    intros f1 f2 b1 b2 Hf1 Hf2 Hb1 Hb2. rewrite <- !Hshape.
    apply (Hall f1 f2); try assumption; rewrite Hperm; assumption.
  - intros [(f & Hf & Hs) Hall]. split; [exists f; split; [rewrite Hperm; exact Hf|exact Hs]|].
    intros f1 f2 b1 b2 Hf1 Hf2 Hb1 Hb2. rewrite !Hshape.
    apply (Hall f1 f2); try assumption; rewrite <- Hperm; assumption.
Qed.

(** ** CategoryMerger: a label that is the header of the third column *)

(** Property X11. When the category label of a file equals the header of its
    third column, the file is merged and the label is recorded, but the flag
    column is dropped with the third column: no row of the file holds J under
    the label, and the label is a column of the merged table only if it was
    one before. *)
Theorem label_equal_to_header_loses_flag
    (read_csv : string → result DataFrame) (directory bank_id filename : string)
    (merged_df : DataFrame) (report : gmap string BankSummary)
    (df : DataFrame) (r0 : gmap string string) (third s : string) :
  read_csv (os_path_join directory filename) = Ok df →
  csv_frame df →
  rows df !! 0 = Some r0 →
  columns df !! 2 = Some third →
  r0 !! third = Some s →
  strip s = third →
  ∃ out,
    process_file read_csv directory bank_id (merged_df, report) filename
    = (out, report_update (add_merged third) bank_id report)
    ∧ (third ∈ columns out ↔ third ∈ columns merged_df)
    ∧ ∀ i (r : gmap string string),
        rows df !! i = Some r →
        ∃ r' : gmap string string,
          rows out !! (length (rows merged_df) + i) = Some r'
          ∧ r' !! third = (if decide (third ∈ columns merged_df) then Some "N" else None)
          ∧ ∀ c, c ∈ columns df → c ≠ third → r' !! c = r !! c.
Proof.
  intros Hread Hcsv Hrow Hcol Hcell Heq.
  rewrite process_file_prepare, Hread, (prepare_ok df r0 third s Hrow Hcol Hcell), Heq.
  set (d := drop_column third (set_column third "J" df)).
  assert (Hthird : third ∉ columns d).
  { intros H. apply elem_of_columns_drop_column in H as [H _]. contradiction. }
  destruct (combine_spec merged_df d) as (out & -> & Hcols & Hrows).
  { apply prepare_closed, csv_frame_closed, Hcsv. }
  assert (Hrd : rows d = delete third <$> (insert third "J" <$> rows df)) by reflexivity.
  assert (Hother : ∀ c, c ∈ columns df → c ≠ third → c ∈ columns d).
  { intros c Hc Hc3. apply elem_of_columns_drop_column. split; [exact Hc3|].
    apply elem_of_columns_set_column. right. exact Hc. }
  clearbody d.
  exists out. split; [reflexivity|]. split; [rewrite Hcols; tauto|].
  intros i r Hi. rewrite Hrows.
  rewrite lookup_app_r by (rewrite length_fmap; lia).
  rewrite length_fmap.
  replace (length (rows merged_df) + i - length (rows merged_df)) with i by lia.
  rewrite Hrd, !list_lookup_fmap, Hi. cbn [fmap option_fmap option_map].
  eexists. split; [reflexivity|]. split.
  - rewrite pad_lookup. destruct (decide (third ∈ columns merged_df)) as [Hin|Hin].
    + rewrite decide_True by (split; assumption). reflexivity.
    + rewrite decide_False by tauto. apply lookup_delete_eq.
  - intros c Hc Hc3. rewrite pad_lookup.
    rewrite decide_False by (intros [_ Hnot]; apply Hnot, Hother; assumption).
    rewrite lookup_delete_ne by congruence. apply lookup_insert_ne. congruence.
Qed.

Lemma label_equal_to_header_loses_flag_witness :
  ∃ out,
    process_file sample_dir "in" "1234" (empty_frame, ∅) "HEADER.CSV"
    = (out, report_update (add_merged "RETAIL") "1234" ∅)
    ∧ ("RETAIL" ∈ columns out ↔ "RETAIL" ∈ columns empty_frame).
Proof.
  destruct (label_equal_to_header_loses_flag sample_dir "in" "1234" "HEADER.CSV"
              empty_frame ∅ header_collision_file
              (row_of [("Kundenummer", "001"); ("Navn", "Ola"); ("RETAIL", "RETAIL")])
              "RETAIL" "RETAIL") as (out & Hout & Hcol & _).
  - vm_compute. reflexivity.
  - apply csv_frame_Forall, (bool_decide_unpack _). vm_compute. exact I.
  - reflexivity.
  - reflexivity.
  - vm_compute. reflexivity.
  - vm_compute. reflexivity.
  - exists out. split; [exact Hout|exact Hcol].
Defined.
